(** * OpenHtml.py: the daily stock screening script

    A shallow embedding of [src/OpenHtml.py] and the properties its
    specification states about it.

    Modelling conventions.
    - A pandas [DataFrame] is the list of its rows under the default
      [RangeIndex] (label = position).  A cell of the [high] column is
      either a number or the text the provider delivered; trade dates
      are well-formed date texts, on which [pd.to_datetime] succeeds.
    - Python floats are modelled by exact rationals ([Q]); rounding,
      infinities and NaN cells are outside the model.  The NaN that
      [Series.max] yields on an empty selection is [None].
    - pandas and the built-ins are modelled as documented; in particular
      [nlargest] keeps the first occurrences among equal values.
    - A Python exception is a value [Raise e], and [None] is the [None]
      of an option type.
    - A function that assigns into its argument returns the argument's
      new contents next to its result.
    - The process acts on a world: the files, and the trace of provider
      requests, sleeps and shell commands in the order they happen.  The
      providers and the storage are given by an environment the run does
      not control.
    - The tasks of the thread pool are run one after the other.
    - Text printed on standard output is not modelled. *)

From Stdlib Require Import ZArith QArith List String Ascii Bool Lia.
From stdpp Require Import base option list sorting gmap strings.

Open Scope string_scope.
Open Scope Z_scope.
Open Scope nat_scope.
Open Scope list_scope.

(** ** Exceptions and results *)

Module Py.

(** An instance of a subclass of Python's [Exception]: the class name and
    what [str(e)] yields. *)
Record exn := Exn { exn_class : string; exn_text : string }.

Inductive result (A : Type) : Type :=
| Ok (a : A)
| Raise (e : exn).
Arguments Ok {A} a.
Arguments Raise {A} e.

#[global] Instance result_ret : MRet result := @Ok.
#[global] Instance result_fmap : FMap result := fun A B f m =>
  match m with
  | Ok a => Ok (f a)
  | Raise e => Raise e
  end.
#[global] Instance result_bind : MBind result := fun A B f m =>
  match m with
  | Ok a => f a
  | Raise e => Raise e
  end.

Definition TypeError (text : string) : exn := Exn "TypeError" text.
Definition ValueError (text : string) : exn := Exn "ValueError" text.
Definition IndexError (text : string) : exn := Exn "IndexError" text.
Definition KeyError (text : string) : exn := Exn "KeyError" text.
Definition OSError (text : string) : exn := Exn "OSError" text.

(** [try: body except Exception: handler] for a handler that ignores the
    exception. *)
Definition try_except {A} (body : result A) (handler : A) : A :=
  match body with
  | Ok a => a
  | Raise _ => handler
  end.

(** *** Sequences: indexing and slicing with Python's conventions *)

(** [l[i]]: a negative [i] counts from the end. *)
Definition index {A} (l : list A) (i : Z) : result A :=
  let n := Z.of_nat (length l) in
  let j := (if i <? 0 then i + n else i)%Z in
  if ((j <? 0) || (n <=? j))%Z
  then Raise (IndexError "index out of bounds")
  else match l !! Z.to_nat j with
       | Some x => Ok x
       | None => Raise (IndexError "index out of bounds")
       end.

(** The adjustment of a slice bound to a length ([PySlice_AdjustIndices]). *)
Definition adjust (len i : Z) (backwards : bool) : Z :=
  if (i <? 0)%Z
  then (if (i + len <? 0)%Z then (if backwards then -1 else 0) else i + len)%Z
  else (if (len <=? i)%Z then (if backwards then len - 1 else len) else i)%Z.

(** [l[start:stop]]. *)
Definition slice {A} (l : list A) (start stop : option Z) : list A :=
  let len := Z.of_nat (length l) in
  let a := match start with Some i => adjust len i false | None => 0%Z end in
  let b := match stop with Some i => adjust len i false | None => len end in
  take (Z.to_nat (b - a)) (drop (Z.to_nat a) l).

(** [l[start:stop:-1]]. *)
Definition slice_backwards {A} (l : list A) (start stop : option Z) : list A :=
  let len := Z.of_nat (length l) in
  let a := match start with Some i => adjust len i true | None => (len - 1)%Z end in
  let b := match stop with Some i => adjust len i true | None => (-1)%Z end in
  reverse (take (Z.to_nat (a - b)) (drop (Z.to_nat (b + 1)) l)).

(** [all(...)] over tests evaluated from left to right: it stops at the
    first false one, and a test that raises before that raises. *)
Fixpoint all (tests : list (result bool)) : result bool :=
  match tests with
  | [] => Ok true
  | t :: rest =>
      match t with
      | Ok true => all rest
      | Ok false => Ok false
      | Raise e => Raise e
      end
  end.

(** [range(n)]. *)
Definition range (n : nat) : list Z := Z.of_nat <$> seq 0 n.

(** *** Numbers and text *)

Definition Qltb (x y : Q) : bool :=
  match (x ?= y)%Q with Lt => true | _ => false end.

Definition digit_of (c : ascii) : option Z :=
  let n := nat_of_ascii c in
  if (48 <=? n) && (n <=? 57) then Some (Z.of_nat (n - 48)) else None.

(** Reads a run of decimal digits: the number read on top of [acc], how
    many digits there were, and the rest of the text. *)
Fixpoint read_digits (s : string) (acc : Z) (count : nat) : Z * nat * string :=
  match s with
  | String c s' =>
      match digit_of c with
      | Some d => read_digits s' (10 * acc + d)%Z (S count)
      | None => (acc, count, s)
      end
  | EmptyString => (acc, count, s)
  end.

(** [float(s)] on a plain decimal literal: an optional sign, digits, and
    an optional fraction, with a digit somewhere.  The other spellings
    Python accepts (exponents, surrounding blanks, underscores, inf, nan)
    are not price texts and are left out: on them this function raises. *)
Definition float_of_str (s : string) : result Q :=
  let '(negative, body) :=
    match s with
    | String "-"%char r => (true, r)
    | String "+"%char r => (false, r)
    | _ => (false, s)
    end in
  let '(whole, n_whole, after) := read_digits body 0%Z 0 in
  let '(all_digits, n_frac, tail) :=
    match after with
    | String "."%char r => read_digits r whole 0
    | _ => (whole, 0, after)
    end in
  match tail with
  | EmptyString =>
      if 0 <? n_whole + n_frac
      then Ok (Qmake (if negative then - all_digits else all_digits)
                     (Z.to_pos (10 ^ Z.of_nat n_frac)))
      else Raise (ValueError ("could not convert string to float: " +:+ s))
  | _ => Raise (ValueError ("could not convert string to float: " +:+ s))
  end.

End Py.

Import Py.

(** ** pandas: cells, series and frames *)

Module Pandas.

(** A cell of the [high] column as the provider delivers it. *)
Inductive cell :=
| Float (q : Q)
| Str (s : string).

(** A row of the provider's table.  Only [trade_date] and [high] are read
    by the script; [others] holds the remaining columns by name. *)
Record Row := {
  trade_date : string;
  high : cell;
  others : list (string * cell)
}.

Abbreviation DataFrame := (list Row) (only parsing).

(** A series: values under their index labels. *)
Abbreviation Series A := (list (Z * A)) (only parsing).

Definition labels {A} (s : Series A) : list Z := fst <$> s.
Definition values {A} (s : Series A) : list A := snd <$> s.

(** [df[column]] under the frame's [RangeIndex]. *)
Definition column {A} (df : DataFrame) (f : Row -> A) : Series A :=
  imap (fun i r => (Z.of_nat i, f r)) df.

(** [df.empty] *)
Definition empty (df : DataFrame) : bool :=
  match df with [] => true | _ => false end.

(** [x < y], [x <= y] and [x == y] on cells.  Python orders text
    lexicographically by code point and refuses to order text against a
    number. *)
Definition cell_lt (x y : cell) : result bool :=
  match x, y with
  | Float a, Float b => Ok (Qltb a b)
  | Str s, Str t => Ok (String.ltb s t)
  | Str _, Float _ =>
      Raise (TypeError "'<' not supported between instances of 'str' and 'float'")
  | Float _, Str _ =>
      Raise (TypeError "'<' not supported between instances of 'float' and 'str'")
  end.

Definition cell_le (x y : cell) : result bool :=
  match x, y with
  | Float a, Float b => Ok (Qle_bool a b)
  | Str s, Str t => Ok (String.leb s t)
  | Str _, Float _ =>
      Raise (TypeError "'<=' not supported between instances of 'str' and 'float'")
  | Float _, Str _ =>
      Raise (TypeError "'<=' not supported between instances of 'float' and 'str'")
  end.

Definition cell_eq (x y : cell) : bool :=
  match x, y with
  | Float a, Float b => Qeq_bool a b
  | Str s, Str t => String.eqb s t
  | _, _ => false
  end.

(** [float(x)] on one cell. *)
Definition to_float (x : cell) : result Q :=
  match x with
  | Float q => Ok q
  | Str s => float_of_str s
  end.

(** [s.astype(float)]: every cell converted, the first failure raised. *)
Fixpoint astype_float (s : list cell) : result (list Q) :=
  match s with
  | [] => Ok []
  | x :: rest =>
      q ← to_float x;
      qs ← astype_float rest;
      Ok (q :: qs)
  end.

(** The numbers of a series whose dtype is float; [None] when the dtype is
    object, which in this model is a series holding text. *)
Fixpoint floats (s : Series cell) : option (Series Q) :=
  match s with
  | [] => Some []
  | (i, Float q) :: rest => (fun qs => (i, q) :: qs) <$> floats rest
  | (_, Str _) :: _ => None
  end.

(** [s.max()] folds the comparison over the cells; [None] is the NaN of an
    empty selection. *)
Definition greater (m x : cell) : result cell :=
  b ← cell_lt m x; Ok (if b : bool then x else m).

Fixpoint max_from (m : cell) (s : list cell) : result cell :=
  match s with
  | [] => Ok m
  | x :: rest => m' ← greater m x; max_from m' rest
  end.

Definition max (s : Series cell) : result (option cell) :=
  match values s with
  | [] => Ok None
  | x :: rest => Some <$> max_from x rest
  end.

(** [a <= b] on two results of [max]: a comparison with NaN is false. *)
Definition le_max (a b : option cell) : result bool :=
  match a, b with
  | Some x, Some y => cell_le x y
  | None, Some (Str _) =>
      Raise (TypeError "'<=' not supported between instances of 'float' and 'str'")
  | Some (Str _), None =>
      Raise (TypeError "'<=' not supported between instances of 'str' and 'float'")
  | _, _ => Ok false
  end.

(** [a == b] on two results of [max]. *)
Definition eq_max (a b : option cell) : bool :=
  match a, b with
  | Some x, Some y => cell_eq x y
  | _, _ => false
  end.

(** [Series.nlargest(n)], [keep='first']: the entries in descending order
    of value, entries of equal value in their original order, cut to the
    first [n].  Written as a stable insertion sort.  When [n] is the
    length of the series or more, pandas sorts the whole column with its
    default sort instead, which keeps equal values in their original
    order on short columns only; what is stated below about the order of
    equal values is stated for [n] below the length, or for the ranks 1
    to 3 that [filter_logic_three] asks for. *)
Fixpoint insert_desc (x : Z * Q) (sorted : Series Q) : Series Q :=
  match sorted with
  | [] => [x]
  | y :: rest =>
      if Qltb (snd x) (snd y) then y :: insert_desc x rest else x :: sorted
  end.

Definition sort_desc (s : Series Q) : Series Q := foldr insert_desc [] s.

Definition nlargest (n : nat) (s : Series cell) : result (Series Q) :=
  match floats s with
  | Some qs => Ok (take n (sort_desc qs))
  | None => Raise (TypeError "Cannot use method 'nlargest' with dtype object")
  end.

(** [s.tail(n)] is [s.iloc[-n:]], and [s.iloc[0:0]] when [n] is 0. *)
Definition tail {A} (n : nat) (s : Series A) : Series A :=
  match n with
  | 0 => slice s (Some 0%Z) (Some 0%Z)
  | _ => slice s (Some (- Z.of_nat n)%Z) None
  end.

(** [df.at[label, 'trade_date']] *)
Definition at_trade_date (df : DataFrame) (label : Z) : result string :=
  if (label <? 0)%Z then Raise (KeyError "label")
  else match df !! Z.to_nat label with
       | Some r => Ok (trade_date r)
       | None => Raise (KeyError "label")
       end.

(** [df['high'] = new] *)
Definition set_high (df : DataFrame) (new : list Q) : DataFrame :=
  zip_with (fun r q =>
    {| trade_date := trade_date r; high := Float q; others := others r |}) df new.

End Pandas.

Import Pandas.

(** ** The predicates of the screening chain *)

(** A predicate receives the frame it may assign into ([None] is Python's
    [None]) and returns its verdict together with the frame as it is left. *)
Definition predicate : Type := option DataFrame -> result bool * option DataFrame.

(** What [get_nth_high_info] returns: the three components are [None]
    together, or the date, value and index label of the n-th high. *)
Definition high_info : Type := option (string * Q * Z).

Definition info_index (i : high_info) : option Z := (fun t => snd t) <$> i.

(** [get_nth_high_info(df, n)] *)
Definition get_nth_high_info (df : option DataFrame) (n : nat) : high_info :=
  match df with
  | None => None
  | Some d =>
      if length d <? n then None
      else
        try_except
          (top_n_highs ← nlargest n (column d high);
           high_index ← index (labels top_n_highs) (Z.of_nat n - 1);
           high_value ← index (values top_n_highs) (Z.of_nat n - 1);
           high_date ← at_trade_date d high_index;
           Ok (Some (high_date, high_value, high_index)))
          None
  end.

(** [is_price_increasing(df)] *)
Definition is_price_increasing : predicate := fun df =>
  match df with
  | None => (Ok false, df)
  | Some d =>
      if length d <? 10 then (Ok false, df)
      else
        let last_10_days_highs := values (tail 10 (column d high)) in
        (all ((fun i =>
                 a ← index last_10_days_highs i;
                 b ← index last_10_days_highs (i + 1);
                 cell_lt a b) <$> range (length last_10_days_highs - 1)),
         df)
  end.

(** [is_30_to_7_high_max(df)] *)
Definition is_30_to_7_high_max : predicate := fun df =>
  match df with
  | None => (Ok false, df)
  | Some d =>
      if length d <? 30 then (Ok false, df)
      else
        let high_last_30_to_7 := slice (column d high) (Some (-30)%Z) (Some (-7)%Z) in
        let last_seven_highs := slice (column d high) (Some (-7)%Z) None in
        (a ← max high_last_30_to_7;
         b ← max last_seven_highs;
         le_max a b,
         df)
  end.

(** [abs(i - j) != 1] on two index labels, either of which may be [None]. *)
Definition distance_is_not_one (i j : option Z) : result bool :=
  match i, j with
  | Some a, Some b => Ok (negb (Z.abs (a - b) =? 1)%Z)
  | Some _, None =>
      Raise (TypeError "unsupported operand type(s) for -: 'int' and 'NoneType'")
  | None, Some _ =>
      Raise (TypeError "unsupported operand type(s) for -: 'NoneType' and 'int'")
  | None, None =>
      Raise (TypeError "unsupported operand type(s) for -: 'NoneType' and 'NoneType'")
  end.

(** [df['trade_date'].iloc[i]] for an index that may be [None]. *)
Definition trade_date_iloc (d : DataFrame) (i : option Z) : result string :=
  match i with
  | Some p => index (values (column d trade_date)) p
  | None => Raise (TypeError "Cannot index by location index with a non-integer key")
  end.

(** The statements of [filter_logic_three] after the coercion of [high]. *)
Definition filter_logic_three_body (d : DataFrame) : result bool :=
  let last_index := (Z.of_nat (length d) - 1)%Z in
  let high_last_30_to_7 :=
    slice_backwards (column d high) (Some (last_index - 7)%Z) (Some (last_index - 30)%Z) in
  let last_seven_highs := slice (column d high) (Some (-7)%Z) None in
  top_two_highs ← nlargest 2 last_seven_highs;
  if length top_two_highs <? 2 then Ok false
  else
    let first_high := get_nth_high_info (Some d) 1 in
    let second_high := get_nth_high_info (Some d) 2 in
    let third_high := get_nth_high_info (Some d) 3 in
    first_second ← distance_is_not_one (info_index first_high) (info_index second_high);
    first_third ← distance_is_not_one (info_index first_high) (info_index third_high);
    is_first_high_date_last_date ←
      (a ← trade_date_iloc d (info_index first_high);
       b ← trade_date_iloc d (Some (-1)%Z);
       Ok (String.eqb a b));
    is_3023_high_7_high ←
      (a ← max high_last_30_to_7;
       b ← max last_seven_highs;
       le_max a b);
    Ok (is_first_high_date_last_date && (first_second || first_third)).

(** [filter_logic_three(df)]: the assignment [df['high'] = ...] is the
    frame returned. *)
Definition filter_logic_three : predicate := fun df =>
  match df with
  | None => (Ok false, df)
  | Some d =>
      if empty d then (Ok false, df)
      else
        match astype_float (values (column d high)) with
        | Raise e => (Raise e, df)
        | Ok as_float =>
            let d' := set_high d as_float in
            (filter_logic_three_body d', Some d')
        end
  end.

(** [is_seven_equals_thirty_high(df)] *)
Definition is_seven_equals_thirty_high : predicate := fun df =>
  match df with
  | None => (Ok false, df)
  | Some d =>
      if length d <? 30 then (Ok false, df)
      else
        (max_seven_day_high ← max (tail 7 (column d high));
         max_thirty_day_high ← max (tail 30 (column d high));
         Ok (eq_max max_seven_day_high max_thirty_day_high),
         df)
  end.

(** ** The world the script runs in *)

(** Records of the ticker universe, as [all_code] delivers them (the list
    date may be missing) and as the script keeps them. *)
Record RawTicker := {
  raw_stock_code : string;
  raw_short_name : string;
  raw_exchange : string;
  raw_list_date : option string
}.

Record Ticker := {
  stock_code : string;
  short_name : string;
  exchange : string;
  list_date : string
}.

(** The dictionary [process_stock] returns for a ticker that passes. *)
Record ScreeningResult := {
  r_stock_code : string;
  r_short_name : string;
  r_exchange : string;
  r_list_date : string
}.

(** What the process does to the outside, in the order it happens. *)
Inductive event :=
| AllCode
| GetMarket (code : string)
| Sleep (seconds : Z)
| System (command : string).

(** How the storage behind a path answers a write: it takes everything,
    it refuses to open the path for writing, or it takes [room] more bytes
    and then fails. *)
Inductive medium :=
| Sound
| Refuses
| Fills (room : nat).

(** What the run does not control.  The providers are unreliable and may
    answer differently from call to call: [all_code k] is the outcome of
    the k-th universe request and [get_market code k] the outcome of the
    k-th price request for [code], both counted from 0.  pandas' JSON
    writer and reader are taken as given, and so is the address the
    interpreter gives the function of a name. *)
Record environment := {
  today_date : string;
  all_code : nat -> result (list RawTicker);
  get_market : string -> nat -> result DataFrame;
  storage : string -> medium;
  to_json : list Ticker -> string;
  read_json : string -> result (list Ticker);
  address_of : string -> string
}.

Record world := World {
  files : gmap string string;
  trace : list event
}.

(** A computation in the world: exceptions leave the effects made so far. *)
Definition M (A : Type) : Type := world -> result A * world.

#[global] Instance M_ret : MRet M := fun A a w => (Ok a, w).
#[global] Instance M_bind : MBind M := fun A B f m w =>
  match m w with
  | (Ok a, w') => f a w'
  | (Raise e, w') => (Raise e, w')
  end.

Definition lift {A} (r : result A) : M A := fun w => (r, w).

Fixpoint universe_requests (t : list event) : nat :=
  match t with
  | [] => 0
  | AllCode :: t' => S (universe_requests t')
  | _ :: t' => universe_requests t'
  end.

Fixpoint market_requests (code : string) (t : list event) : nat :=
  match t with
  | [] => 0
  | GetMarket c :: t' =>
      if String.eqb c code then S (market_requests code t') else market_requests code t'
  | _ :: t' => market_requests code t'
  end.

Definition record (e : event) (w : world) : world :=
  World (files w) (trace w ++ [e]).

Section Run.

Variable env : environment.

(** [adata.stock.info.all_code()] *)
Definition call_all_code : M (list RawTicker) := fun w =>
  (all_code env (universe_requests (trace w)), record AllCode w).

(** [adata.stock.market.get_market(stock_code=code, start_date='2024-03-01', k_type=1)] *)
Definition call_get_market (code : string) : M DataFrame := fun w =>
  (get_market env code (market_requests code (trace w)), record (GetMarket code) w).

(** [time.sleep(seconds)] *)
Definition sleep (seconds : Z) : M unit := fun w =>
  if (seconds <? 0)%Z
  then (Raise (ValueError "sleep length must be non-negative"), w)
  else (Ok (), record (Sleep seconds) w).

(** [os.path.exists(name)] *)
Definition path_exists (name : string) : M bool := fun w =>
  (Ok (bool_decide (is_Some (files w !! name))), w).

(** Writing [text] behind [before] into the file [name], which has been
    opened: the part the storage accepts is what the file holds. *)
Definition put (name before text : string) : M unit := fun w =>
  match storage env name with
  | Fills room =>
      if room <? String.length text
      then (Raise (OSError "No space left on device"),
            World (<[name := before +:+ substring 0 room text]> (files w)) (trace w))
      else (Ok (), World (<[name := before +:+ text]> (files w)) (trace w))
  | _ => (Ok (), World (<[name := before +:+ text]> (files w)) (trace w))
  end.

(** [with open(name, 'w') as f: f.write(text)]: opening creates the file
    or empties it. *)
Definition write_file (name text : string) : M unit := fun w =>
  match storage env name with
  | Refuses => (Raise (OSError "Permission denied"), w)
  | _ => put name "" text w
  end.

(** [with open(name, 'a') as f: f.write(text)] *)
Definition append_file (name text : string) : M unit := fun w =>
  match storage env name with
  | Refuses => (Raise (OSError "Permission denied"), w)
  | _ => put name (default "" (files w !! name)) text w
  end.

(** ** The retry decorator *)

Section Retry.

Context {Args A : Type}.

(** [exception_to_check], as the test [isinstance(e, exception_to_check)]. *)
Variable exception_to_check : exn -> bool.
Variable tries : nat.
Variables delay backoff : Z.
Variable error_log : string.

(** The decorated function: its [__name__], its behaviour, and how the
    arguments of a call print in [{args}, {kwargs}]. *)
Variable func_name : string.
Variable func : Args -> M (option A).
Variable show_call : Args -> string.

Definition newline : string := String (ascii_of_nat 10) "".

Definition error_line (e : exn) (args : Args) : string :=
  "在处理函数 " +:+ func_name +:+ " 时遇到错误: " +:+ exn_text e
    +:+ ",参数：" +:+ show_call args +:+ newline.

(** The last call, outside the loop: a checked exception becomes a line
    of the error log and the result [None]. *)
Definition last_try (args : Args) : M (option A) := fun w =>
  match func args w with
  | (Raise e, w') =>
      if exception_to_check e
      then (append_file error_log (error_line e args) ;; mret None) w'
      else (Raise e, w')
  | finished => finished
  end.

(** [while local_tries > 1: ...] followed by the last call. *)
Fixpoint attempts (local_tries : nat) (local_delay : Z) (args : Args) : M (option A) :=
  match local_tries with
  | S (S _ as fewer) => fun w =>
      match func args w with
      | (Raise e, w') =>
          if exception_to_check e
          then (sleep local_delay ;; attempts fewer (local_delay * backoff) args) w'
          else (Raise e, w')
      | finished => finished
      end
  | _ => last_try args
  end.

(** [retry(exception_to_check, tries, delay, backoff, error_log)(func)] *)
Definition retry (args : Args) : M (option A) := attempts tries delay args.

End Retry.

(** ** Processing one ticker *)

(** A Python function used as a filter: its name, the address its [repr]
    shows, and what calling it does. *)
Record pyfunction := {
  fn_name : string;
  fn_address : string;
  fn_call : predicate
}.

(** [for filter_func in filters: if not filter_func(df): return None],
    as the verdict of the loop: [false] is the early [return None]. *)
Fixpoint apply_filters (filters : list pyfunction) (df : option DataFrame) : result bool :=
  match filters with
  | [] => Ok true
  | filter_func :: rest =>
      match fn_call filter_func df with
      | (Ok true, df') => apply_filters rest df'
      | (Ok false, _) => Ok false
      | (Raise e, _) => Raise e
      end
  end.

(** [stocks_info[stocks_info['stock_code'] == code][field].values[0]] *)
Definition first_match (stocks_info : list Ticker) (code : string) : result Ticker :=
  match List.find (fun t => String.eqb (stock_code t) code) stocks_info with
  | Some t => Ok t
  | None => Raise (IndexError "index 0 is out of bounds for axis 0 with size 0")
  end.

Definition result_of (t : Ticker) (code : string) : ScreeningResult :=
  {| r_stock_code := code;
     r_short_name := short_name t;
     r_exchange := exchange t;
     r_list_date := list_date t |}.

(** The body of [process_stock]; its [except Exception: ... raise] hands
    every exception on unchanged.  [stocks_info] is the module's global. *)
Definition process_stock_body (stocks_info : list Ticker)
    (args : string * list pyfunction) : M (option ScreeningResult) :=
  let '(stock_code, filters) := args in
  data ← call_get_market stock_code;
  let df := data in
  if empty df then mret None
  else
    passed ← lift (apply_filters filters (Some df));
    if passed : bool
    then
      t ← lift (first_match stocks_info stock_code);
      mret (Some (result_of t stock_code))
    else mret None.

(** [repr] of a string without quotes or escapes in it, of a function, and
    of the arguments [(stock_code,)] and [{'filters': [...]}]. *)
Definition repr_str (s : string) : string := "'" +:+ s +:+ "'".

Definition repr_function (f : pyfunction) : string :=
  "<function " +:+ fn_name f +:+ " at 0x" +:+ fn_address f +:+ ">".

Fixpoint join (sep : string) (l : list string) : string :=
  match l with
  | [] => ""
  | [x] => x
  | x :: rest => x +:+ sep +:+ join sep rest
  end.

Definition show_process_stock_call (args : string * list pyfunction) : string :=
  "(" +:+ repr_str (fst args) +:+ ",), {'filters': ["
    +:+ join ", " (repr_function <$> snd args) +:+ "]}".

(** [Exception]: every modelled exception is an instance of it. *)
Definition Exception (e : exn) : bool := true.

(** [@retry(Exception, tries=3, delay=2, backoff=2)] on [process_stock],
    with the decorator's default error log. *)
Definition process_stock (stocks_info : list Ticker)
    (stock_code : string) (filters : list pyfunction) : M (option ScreeningResult) :=
  retry Exception 3 2 2 "error_log.txt" "process_stock"
        (process_stock_body stocks_info) show_process_stock_call
        (stock_code, filters).

(** ** The ticker universe *)

Definition zeros (n : nat) : string := string_of_list_ascii (replicate n "0"%char).

(** [x.zfill(width)]: zeros go after a leading sign. *)
Definition zfill (width : nat) (x : string) : string :=
  let padding := zeros (width - String.length x) in
  match x with
  | String "+"%char r => String "+"%char (padding +:+ r)
  | String "-"%char r => String "-"%char (padding +:+ r)
  | _ => padding +:+ x
  end.

(** The two column assignments of [get_stocks_info], on one record. *)
Definition normalise (t : RawTicker) : Ticker :=
  {| stock_code := zfill 6 (raw_stock_code t);
     short_name := raw_short_name t;
     exchange := raw_exchange t;
     list_date := default "NaN" (raw_list_date t) |}.

Definition universe_file : string := "stock_info_" +:+ today_date env +:+ ".json".
Definition result_file : string := "result_" +:+ today_date env +:+ ".json".

(** [get_stocks_info()] *)
Definition get_stocks_info : M unit :=
  raw ← call_all_code;
  let stocks_info := normalise <$> raw in
  let filename := universe_file in
  present ← path_exists filename;
  if negb present
  then write_file filename (to_json env stocks_info)
  else mret ().

(** [pd.read_json(filename, dtype={'stock_code': str})] *)
Definition read_universe (filename : string) : M (list Ticker) := fun w =>
  match files w !! filename with
  | Some text => (read_json env text, w)
  | None => (Raise (Exn "FileNotFoundError" filename), w)
  end.

(** ** Writing the result: [json.dump(results, f, ensure_ascii=False, indent=4)] *)

Definition quote : string := String (ascii_of_nat 34) "".
Definition backslash : string := String (ascii_of_nat 92) "".

Definition hex_digit (n : nat) : ascii :=
  if n <? 10 then ascii_of_nat (48 + n) else ascii_of_nat (87 + n).

(** One character inside a JSON string: the quote, the backslash and the
    control characters are escaped, everything else is kept. *)
Definition escape (c : ascii) : string :=
  let n := nat_of_ascii c in
  if n =? 34 then backslash +:+ quote
  else if n =? 92 then backslash +:+ backslash
  else if n =? 8 then backslash +:+ "b"
  else if n =? 12 then backslash +:+ "f"
  else if n =? 10 then backslash +:+ "n"
  else if n =? 13 then backslash +:+ "r"
  else if n =? 9 then backslash +:+ "t"
  else if n <? 32
       then backslash +:+ "u00" +:+ String (hex_digit (n / 16)) (String (hex_digit (n mod 16)) "")
  else String c "".

Fixpoint escaped (s : string) : string :=
  match s with
  | EmptyString => ""
  | String c r => escape c +:+ escaped r
  end.

Definition json_str (s : string) : string := quote +:+ escaped s +:+ quote.

Definition spaces (n : nat) : string := string_of_list_ascii (replicate n " "%char).

Definition json_member (key value : string) : string :=
  json_str key +:+ ": " +:+ json_str value.

(** A result inside the outer list: members at depth 2, brace at depth 1. *)
Definition json_result (r : ScreeningResult) : string :=
  "{" +:+ newline +:+ spaces 8
    +:+ join ("," +:+ newline +:+ spaces 8)
          [json_member "stock_code" (r_stock_code r);
           json_member "short_name" (r_short_name r);
           json_member "exchange" (r_exchange r);
           json_member "list_date" (r_list_date r)]
    +:+ newline +:+ spaces 4 +:+ "}".

Definition json_dump (results : list ScreeningResult) : string :=
  match results with
  | [] => "[]"
  | _ =>
      "[" +:+ newline +:+ spaces 4
        +:+ join ("," +:+ newline +:+ spaces 4) (json_result <$> results)
        +:+ newline +:+ "]"
  end.

(** ** The script, lines 393 to 429 *)

(** [filters_to_apply = [filter_logic_three]] *)
Definition filters_to_apply : list pyfunction :=
  [ {| fn_name := "filter_logic_three";
       fn_address := address_of env "filter_logic_three";
       fn_call := filter_logic_three |} ].

(** The tasks handed to the pool.  Each runs to its end whatever the
    others do; they are run here one after the other in the order of
    submission, each leaving its outcome in its future. *)
Fixpoint run_tasks (stocks_info : list Ticker) (filters : list pyfunction)
    (stock_codes : list string) (w : world)
    : list (result (option ScreeningResult)) * world :=
  match stock_codes with
  | [] => ([], w)
  | code :: rest =>
      let '(outcome, w1) := process_stock stocks_info code filters w in
      let '(outcomes, w2) := run_tasks stocks_info filters rest w1 in
      (outcome :: outcomes, w2)
  end.

(** [for future in progress: result = future.result(); if result:
    results.append(result)].  The futures are taken in the order of
    submission; [future.result()] raises what its task raised. *)
Fixpoint gather (futures : list (result (option ScreeningResult)))
    (results : list ScreeningResult) : result (list ScreeningResult) :=
  match futures with
  | [] => Ok results
  | future :: rest =>
      result ← future;
      match result with
      | Some r => gather rest (results ++ [r])
      | None => gather rest results
      end
  end.

Definition screen (stocks_info : list Ticker) : M (list ScreeningResult) := fun w =>
  let stock_codes := stock_code <$> stocks_info in
  let '(futures, w') := run_tasks stocks_info filters_to_apply stock_codes w in
  (gather futures [], w').

Definition main : M unit :=
  let file_name := result_file in
  present ← path_exists file_name;
  if negb present
  then
    get_stocks_info ;;
    let filename := universe_file in
    stocks_info ← read_universe filename;
    results ← screen stocks_info;
    write_file file_name (json_dump results)
  else mret ().

(** ** The viewer page: [create_html], and lines 431 to 436 *)

(** [html_content], the text between the triple quotes of lines 170 to
    385, given by what stands between its double quotes. *)
Definition html_content : string :=
  join quote
    [ "
    <!DOCTYPE html>
    <html lang=";
      "en";
      ">
    <head>
        <meta charset=";
      "UTF-8";
      ">
        <title>K线图与股票筛选</title>
        <style>
            body, html {
                font-family: Arial, sans-serif;
                margin: 0;
                padding: 0;
                box-sizing: border-box;
            }
            #container {
                display: flex;
                height: 100vh;
            }
            #left-container {
                flex: 1;
                overflow: auto;
            }
            #kline-chart-container {
                flex: 2;
                display: flex;
                flex-direction: column;
            }
            #kline-chart {
                flex-grow: 1;
            }
            table {
                width: 100%;
                border-collapse: collapse;
            }
            th, td {
                border: 1px solid #ddd;
                padding: 8px;
                text-align: left;
            }
            .period-button {
                background-color: blue;
                color: white;
                border: none;
                padding: 5px 10px;
                margin: 2px;
                cursor: pointer;
            }
            .period-button:hover {
                background-color: darkblue;
            }
            .selected {
                background-color: rgb(218, 0, 0) !important;
                color: white !important;
            }
        </style>
    </head>
    <body>
    <div id=";
      "container";
      ">
        <div id=";
      "left-container";
      ">
            <div id=";
      "top-section";
      ">
                <div id=";
      "filtered-stock-count";
      ">已筛选出 0 支股票</div>
                <div id=";
      "checkbox-container";
      ">
                    <input type=";
      "checkbox";
      " id=";
      "sz-checkbox";
      " value=";
      "SZ";
      " checked> SZ
                    <input type=";
      "checkbox";
      " id=";
      "sh-checkbox";
      " value=";
      "SH";
      " checked> SH
                    <input type=";
      "checkbox";
      " id=";
      "bj-checkbox";
      " value=";
      "BJ";
      "> BJ
                </div>
            </div>
            <div id=";
      "scrollable-table-container";
      ">
                <table id=";
      "stock-table";
      ">
                    <thead>
                        <tr>
                            <th>Stock Code</th>
                            <th>Short Name</th>
                            <th>Exchange</th>
                        </tr>
                    </thead>
                    <tbody>
                        <!-- 表格内容将在这里动态插入 -->
                    </tbody>
                </table>
            </div>
        </div>
        <div id=";
      "kline-chart-container";
      ">
            <div id=";
      "period-buttons";
      ">
                <button class=";
      "period-button";
      " data-period=";
      "1";
      ">日K</button>
                <button class=";
      "period-button";
      " data-period=";
      "7";
      ">周K</button>
                <button class=";
      "period-button";
      " data-period=";
      "30";
      ">季K</button>
                <button class=";
      "period-button";
      " data-period=";
      "180";
      ">半年K</button>
                <button class=";
      "period-button";
      " data-period=";
      "365";
      ">年K</button>
            </div>
            <div id=";
      "kline-chart";
      ">
                <!-- TradingView K线图将在这里显示 -->
            </div>
        </div>
    </div>
    <script src=";
      "https://s3.tradingview.com/tv.js";
      "></script>
    <script>
        let currentStock = null; // 假设这是一个全局变量来存储当前选中的股票数据

        document.addEventListener(";
      "DOMContentLoaded";
      ", function() {
            const filteredStockCountElement = document.getElementById('filtered-stock-count');
            const szCheckbox = document.getElementById('sz-checkbox');
            const shCheckbox = document.getElementById('sh-checkbox');
            const bjCheckbox = document.getElementById('bj-checkbox');
            const tbody = document.getElementById('stock-table').getElementsByTagName('tbody')[0];
            const periodButtons = document.querySelectorAll('.period-button');
            periodButtons.forEach(button => {
                button.addEventListener('click', function() {
                    if (currentStock) {
                        updateKLineChart(currentStock, button.dataset.period);
                        highlightButton(button);
                    }
                });
            });

            function highlightButton(selectedButton) {
                periodButtons.forEach(button => {
                    button.classList.remove('selected');
                });
                selectedButton.classList.add('selected');
            }

            highlightButton(periodButtons[0]); // 默认选中日K

            szCheckbox.addEventListener('change', fetchStockData);
            shCheckbox.addEventListener('change', fetchStockData);
            bjCheckbox.addEventListener('change', fetchStockData);

            fetchStockData();

            function fetchStockData() {
                tbody.innerHTML = '';
                let filteredStockCount = 0;
                // 获取今天的日期
                var today = new Date();
                var year = today.getFullYear();
                var month = ('0' + (today.getMonth() + 1)).slice(-2); // 月份从0开始，需要加1，并且保证两位数格式
                var day = ('0' + today.getDate()).slice(-2); // 日期需要保证两位数格式

                // 构建文件名
                var fileName = 'result_' + year + '-' + month + '-' + day + '.json';

                // 发起请求
                fetch(fileName)
                .then(response => response.json())
                .then(data => {
                    data.forEach(stock => {
                        if ((szCheckbox.checked && stock.exchange === 'SZ') ||
                            (shCheckbox.checked && stock.exchange === 'SH') ||
                            (bjCheckbox.checked && stock.exchange === 'BJ')) {
                            const row = tbody.insertRow();
                            const cell1 = row.insertCell(0);
                            cell1.textContent = stock.stock_code;

                            const cell2 = row.insertCell(1);
                            cell2.textContent = stock.short_name;

                            const cell3 = row.insertCell(2);
                            cell3.textContent = stock.exchange;

                            row.addEventListener(";
      "click";
      ", function() {
                                currentStock = stock; // 更新当前选中的股票
                                updateKLineChart(stock, document.querySelector('.selected').dataset.period);
                                highlightRow(row);
                            });

                            filteredStockCount++;
                        }
                    });

                    filteredStockCountElement.textContent = `已筛选出 ${filteredStockCount} 支股票`;
                })
                .catch(error => console.error('Error loading the data:', error));
            }

            function updateKLineChart(stock, period) {
                const exchangePrefix = {
                    'SZ': 'SZSE:',
                    'SH': 'SSE:',
                    'BJ': 'BSE:'
                };

                new TradingView.widget({
                    ";
      "container_id";
      ": ";
      "kline-chart";
      ",
                    ";
      "symbol";
      ": exchangePrefix[stock.exchange] + stock.stock_code,
                    ";
      "interval";
      ": period,
                    ";
      "timezone";
      ": ";
      "Etc/UTC";
      ",
                    ";
      "theme";
      ": ";
      "light";
      ",
                    ";
      "style";
      ": ";
      "1";
      ",
                    ";
      "locale";
      ": ";
      "zh_CN";
      ",
                    ";
      "toolbar_bg";
      ": ";
      "#f1f3f6";
      ",
                    ";
      "enable_publishing";
      ": false,
                    ";
      "hide_side_toolbar";
      ": false,
                    ";
      "allow_symbol_change";
      ": true,
                    ";
      "width";
      ": ";
      "100%";
      ",
                    ";
      "height";
      ": ";
      "100%";
      ",
                    ";
      "overrides";
      ": {
                        ";
      "mainSeriesProperties.candleStyle.upColor";
      ": ";
      "#DB0000";
      ", // 上涨的蜡烛颜色 - 亮红色
                        ";
      "mainSeriesProperties.candleStyle.downColor";
      ": ";
      "#008000";
      ", // 下跌的蜡烛颜色 - 办公绿
                        ";
      "mainSeriesProperties.candleStyle.borderUpColor";
      ": ";
      "#DB0000";
      ", // 上涨蜡烛的边框颜色 - 亮红色
                        ";
      "mainSeriesProperties.candleStyle.borderDownColor";
      ": ";
      "#008000";
      ", // 下跌蜡烛的边框颜色 - 办公绿
                        ";
      "mainSeriesProperties.candleStyle.wickUpColor";
      ": ";
      "#DB0000";
      ", // 上涨蜡烛的影线颜色 - 亮红色
                        ";
      "mainSeriesProperties.candleStyle.wickDownColor";
      ": ";
      "#008000";
      " // 下跌蜡烛的影线颜色 - 办公绿
                    }            });
            }

            function highlightRow(row) {
                Array.from(tbody.children).forEach(r => {
                    r.classList.remove(";
      "selected";
      ");
                });
                row.classList.add(";
      "selected";
      ");
            }
        });
    </script>
    </body>
    </html>
    " ].

(** [create_html()] *)
Definition create_html : M unit := write_file "index.html" html_content.

(** [os.system(command)]: the command runs outside the process, and its
    exit status is not used. *)
Definition os_system (command : string) : M unit := fun w =>
  (Ok (), record (System command) w).

(** Lines 431 to 436. *)
Definition open_viewer : M unit :=
  present ← path_exists "index.html";
  if present : bool
  then os_system "open index.html"
  else create_html ;; os_system "open index.html".

(** The script from line 393 to its end. *)
Definition script : M unit := main ;; open_viewer.

End Run.

(** ** Price series

    The specification's data model: a bar carries a calendar date and a
    decimal high.  [frame] is such a series as the provider's table, with
    the highs already numbers. *)
Record PriceBar := {
  bar_date : string;
  bar_high : Q;
  bar_others : list (string * cell)
}.

Abbreviation PriceSeries := (list PriceBar) (only parsing).

Definition frame (s : PriceSeries) : DataFrame :=
  (fun b => {| trade_date := bar_date b; high := Float (bar_high b); others := bar_others b |}) <$> s.

Definition highs (s : PriceSeries) : list Q := bar_high <$> s.

(** The last [n] values of a list. *)
Definition last_n {A} (n : nat) (l : list A) : list A := drop (length l - n) l.

(** Every value is strictly below the next one. *)
Definition rising (l : list Q) : Prop :=
  forall i x y, l !! i = Some x -> l !! S i = Some y -> (x < y)%Q.

(** ** The n-th highest bar

    The specification's words: the n-th highest bar is selected by value,
    and among bars of equal value the earlier one comes first.  Bar [j]
    ranks above bar [p] when its high is greater, or equal with [j] the
    earlier position; the n-th highest bar is the one with exactly n-1
    bars ranking above it. *)

Fixpoint count {A} (P : A -> bool) (l : list A) : nat :=
  match l with
  | [] => 0
  | x :: rest => if P x then S (count P rest) else count P rest
  end.

Definition outranks (qs : list Q) (j p : nat) : bool :=
  match qs !! j, qs !! p with
  | Some x, Some y => Qltb y x || (Qeq_bool x y && (j <? p))
  | _, _ => false
  end.

Definition rank (qs : list Q) (p : nat) : nat :=
  count (fun j => outranks qs j p) (seq 0 (length qs)).

Definition nth_highest (qs : list Q) (n p : nat) : Prop :=
  p < length qs /\ S (rank qs p) = n.

Definition distance (p q : nat) : nat := if p <? q then q - p else p - q.

(** ** Notions the statements and proofs use *)

(** The ranking order on the entries of a series: a greater value, or an
    equal value under a smaller label. *)
Definition above (a b : Z * Q) : bool :=
  Qltb (snd b) (snd a) || (Qeq_bool (snd a) (snd b) && (fst a <? fst b)%Z).

(** The float column of a price series: every high under its position. *)
Definition entries (qs : list Q) : Series Q :=
  imap (fun i q => (Z.of_nat i, q)) qs.

Definition as_cell (e : Z * Q) : Z * cell := (fst e, Float (snd e)).

(** The world with further events behind those it has seen. *)
Definition extend (w : world) (events : list event) : world :=
  World (files w) (trace w ++ events).

(** What a call of [process_stock]'s body comes to when its price request
    is the k-th for the ticker. *)
Definition attempt (env : environment) (stocks_info : list Ticker)
    (code : string) (filters : list pyfunction) (k : nat)
    : result (option ScreeningResult) :=
  data ← get_market env code k;
  if empty data then Ok None
  else
    passed ← apply_filters filters (Some data);
    if passed : bool
    then t ← first_match stocks_info code; Ok (Some (result_of t code))
    else Ok None.

(** The verdict of a chain on the table the k-th price request for a
    code returns: an empty table is turned down before the chain is
    asked, and a request or a predicate that raises gives no verdict. *)
Definition chain_verdict (env : environment) (filters : list pyfunction)
    (code : string) (k : nat) : result bool :=
  data ← get_market env code k;
  if empty data then Ok false else apply_filters filters (Some data).

(** The verdict of the first of three calls, from the k-th on, that gives
    one; [false] when none of the three does. *)
Definition first_verdict (verdict : nat -> result bool) (k : nat) : bool :=
  match verdict k with
  | Ok v => v
  | Raise _ =>
      match verdict (k + 1) with
      | Ok v => v
      | Raise _ =>
          match verdict (k + 2) with
          | Ok v => v
          | Raise _ => false
          end
      end
  end.

(** The storage behind [name] takes [text] whole. *)
Definition accepts (env : environment) (name text : string) : bool :=
  match storage env name with
  | Sound => true
  | Refuses => false
  | Fills room => negb (room <? String.length text)
  end.

(** The line the decorator writes for a call of [process_stock]. *)
Definition process_stock_error_line (e : exn) (code : string)
    (filters : list pyfunction) : string :=
  "在处理函数 process_stock 时遇到错误: " +:+ exn_text e
    +:+ ",参数：('" +:+ code +:+ "',), {'filters': ["
    +:+ join ", " (repr_function <$> filters) +:+ "]}" +:+ newline.

(** The results held by futures that hold one. *)
Fixpoint held (futures : list (result (option ScreeningResult))) : list ScreeningResult :=
  match futures with
  | [] => []
  | Ok (Some r) :: rest => r :: held rest
  | _ :: rest => held rest
  end.

(** Everything the run does before it writes the result. *)
Definition before_writing (env : environment) : M (list ScreeningResult) :=
  get_stocks_info env ;;
  stocks_info ← read_universe env (universe_file env);
  screen env stocks_info.

(** ** Sample data *)

(** A frame whose highs are text to which [float] applies. *)
Definition text_frame : DataFrame :=
  [ {| trade_date := "2024-03-01"; high := Str "9.5"; others := [] |};
    {| trade_date := "2024-03-04"; high := Str "10.2"; others := [] |};
    {| trade_date := "2024-03-05"; high := Str "11"; others := [] |} ].

Definition text_rising : DataFrame :=
  imap (fun i t => {| trade_date := "2024-03-" +:+ t.1; high := Str t.2; others := [] |})
    [("01", "1"); ("04", "2"); ("05", "3"); ("06", "4"); ("07", "5");
     ("08", "6"); ("11", "7"); ("12", "8"); ("13", "9"); ("14", "10")].

(** Three bars rising to the last day. *)
Definition three_bars : PriceSeries :=
  [ {| bar_date := "2024-04-29"; bar_high := 10; bar_others := [] |};
    {| bar_date := "2024-04-30"; bar_high := 11; bar_others := [] |};
    {| bar_date := "2024-05-06"; bar_high := 12; bar_others := [] |} ].

(** Bars with the given highs. *)
Definition flat_bars (values : list Z) : PriceSeries :=
  (fun v => {| bar_date := "2024-04-01"; bar_high := inject_Z v; bar_others := [] |}) <$> values.

(** One listed ticker, whose code the provider gives unpadded. *)
Definition sample_listing : list RawTicker :=
  [ {| raw_stock_code := "1"; raw_short_name := "PAB";
       raw_exchange := "SZ"; raw_list_date := Some "1991-04-03" |} ].

Definition sample_universe : list Ticker := normalise <$> sample_listing.

(** An environment around that ticker, for a given price provider and
    storage.  The JSON writer and reader stand in for pandas': the writer
    puts down the codes, the reader returns the sample universe. *)
Definition sample_env (market : nat -> result DataFrame)
    (store : string -> medium) : environment :=
  {| today_date := "2024-05-06";
     all_code := fun _ => Ok sample_listing;
     get_market := fun _ k => market k;
     storage := store;
     to_json := fun l => join "," (stock_code <$> l);
     read_json := fun _ => Ok sample_universe;
     address_of := fun _ => "7f3a5c0d1e50" |}.

Definition sample_result : ScreeningResult :=
  {| r_stock_code := "000001"; r_short_name := "PAB";
     r_exchange := "SZ"; r_list_date := "1991-04-03" |}.

Definition fresh : world := World ∅ [].

Definition calm_env : environment :=
  sample_env (fun _ => Ok (frame three_bars)) (fun _ => Sound).

(** A storage with room for seven bytes behind the result file. *)
Definition cramped_env : environment :=
  sample_env (fun _ => Ok (frame three_bars))
    (fun name => if String.eqb name "result_2024-05-06.json" then Fills 7 else Sound).

(** A provider that times out on the first [failures] requests. *)
Definition timed_out : exn := Exn "TimeoutError" "timed out".

Definition flaky_env (failures : nat) : environment :=
  sample_env (fun k => if k <? failures then Raise timed_out else Ok (frame three_bars))
    (fun _ => Sound).

(** A world that holds today's universe snapshot and no result yet. *)
Definition snapshot_only : world :=
  World {[ universe_file calm_env := "000001" ]} [].

(** A world that holds today's result already. *)
Definition screened : world :=
  World {[ result_file calm_env := json_dump [sample_result] ]} [].

(** A provider that has two bars for every ticker. *)
Definition two_bar_env : environment :=
  sample_env (fun _ => Ok (frame (take 2 three_bars))) (fun _ => Sound).

(** Two listed tickers; the provider times out on the prices of the
    first, has three rising bars for the second, and the error log
    cannot be opened. *)
Definition longer_listing : list RawTicker :=
  sample_listing ++
  [ {| raw_stock_code := "2"; raw_short_name := "WKA";
       raw_exchange := "SZ"; raw_list_date := Some "1991-01-29" |} ].

Definition longer_universe : list Ticker := normalise <$> longer_listing.

Definition locked_log_env : environment :=
  {| today_date := "2024-05-06";
     all_code := fun _ => Ok longer_listing;
     get_market := fun code _ =>
       if String.eqb code "000001" then Raise timed_out else Ok (frame three_bars);
     storage := fun name => if String.eqb name "error_log.txt" then Refuses else Sound;
     to_json := fun l => join "," (stock_code <$> l);
     read_json := fun _ => Ok longer_universe;
     address_of := fun _ => "7f3a5c0d1e50" |}.

(** A provider whose universe request times out. *)
Definition offline_env : environment :=
  {| today_date := "2024-05-06";
     all_code := fun _ => Raise timed_out;
     get_market := fun _ _ => Raise timed_out;
     storage := fun _ => Sound;
     to_json := fun l => join "," (stock_code <$> l);
     read_json := fun _ => Ok sample_universe;
     address_of := fun _ => "7f3a5c0d1e50" |}.

(** The configured chain followed by ContinuousRise. *)
Definition longer_chain : list pyfunction :=
  filters_to_apply calm_env ++
  [ {| fn_name := "is_price_increasing";
       fn_address := address_of calm_env "is_price_increasing";
       fn_call := is_price_increasing |} ].

(** Two functions to decorate: one asks the provider for prices and
    times out, the other asks and returns a number. *)
Definition failing_fetch (code : string) : M (option Z) := fun w =>
  (Raise timed_out, record (GetMarket code) w).

Definition ready_fetch (code : string) : M (option Z) := fun w =>
  (Ok (Some 1%Z), record (GetMarket code) w).

(** ** Further notions *)

(** Every value of the first list is at most some value of the second:
    the greatest of the first is at most the greatest of the second. *)
Definition dominated (xs ys : list Q) : Prop :=
  forall x, x ∈ xs -> exists y, y ∈ ys /\ (x <= y)%Q.

(** The last value is strictly above every value before it. *)
Definition new_high (qs : list Q) : Prop :=
  forall j x y,
    j < length qs - 1 -> qs !! j = Some x -> qs !! (length qs - 1) = Some y -> (x < y)%Q.

(** A calendar date written YYYY-MM-DD, in the years a pandas timestamp
    covers whole: the texts on which [pd.to_datetime] is taken to
    succeed. *)
Definition leap_year (y : Z) : bool :=
  (((y mod 4 =? 0) && negb (y mod 100 =? 0)) || (y mod 400 =? 0))%Z.

Definition days_in_month (y m : Z) : Z :=
  if (m =? 2)%Z then (if leap_year y then 29 else 28)%Z
  else if ((m =? 4) || (m =? 6) || (m =? 9) || (m =? 11))%Z then 30%Z
  else 31%Z.

Definition calendar_date (s : string) : bool :=
  match Py.read_digits s 0 0 with
  | (y, 4, String "-"%char months) =>
      match Py.read_digits months 0 0 with
      | (m, 2, String "-"%char days) =>
          match Py.read_digits days 0 0 with
          | (d, 2, EmptyString) =>
              ((1678 <=? y) && (y <=? 2261) && (1 <=? m) && (m <=? 12)
               && (1 <=? d) && (d <=? days_in_month y m))%Z
          | _ => false
          end
      | _ => false
      end
  | _ => false
  end.

(** A price series whose bars carry calendar dates. *)
Definition dated (s : PriceSeries) : Prop :=
  Forall (fun b => calendar_date (bar_date b) = true) s.

(** A text of ASCII characters, in which bytes and characters agree. *)
Definition ascii_text (s : string) : Prop :=
  Forall (fun c => nat_of_ascii c < 128) (list_ascii_of_string s).

(** One of the script's four predicates. *)
Definition scripted (f : pyfunction) : Prop :=
  fn_call f = is_price_increasing \/ fn_call f = is_30_to_7_high_max \/
  fn_call f = filter_logic_three \/ fn_call f = is_seven_equals_thirty_high.

(** The delays of [n] retries: each is the one before times [backoff]. *)
Fixpoint backoff_schedule (n : nat) (delay backoff : Z) : list Z :=
  match n with
  | 0 => []
  | S n' => delay :: backoff_schedule n' (delay * backoff) backoff
  end.

(** A first call, and a sleep and a further call for each delay. *)
Definition calls_and_sleeps (call : event) (delays : list Z) : list event :=
  call :: flat_map (fun d => [Sleep d; call]) delays.

(** * Properties *)

(** ** Python sequences *)

Lemma index_lookup {A} (l : list A) (i : nat) (x : A) :
  l !! i = Some x -> index l (Z.of_nat i) = Ok x.
Proof.
  intros H. unfold index.
  pose proof (lookup_lt_Some _ _ _ H) as Hlt.
  destruct (Z.ltb_spec (Z.of_nat i) 0); [lia|].
  destruct (Z.ltb_spec (Z.of_nat i) 0); [lia|].
  destruct (Z.leb_spec (Z.of_nat (length l)) (Z.of_nat i)); [lia|].
  simpl. rewrite Nat2Z.id, H. reflexivity.
Qed.

Lemma slice_tail {A} (l : list A) (n : nat) :
  0 < n -> slice l (Some (- Z.of_nat n)%Z) None = last_n n l.
Proof.
  intros Hn. unfold slice, last_n, adjust.
  destruct (Z.ltb_spec (- Z.of_nat n) 0); [|lia].
  destruct (Z.ltb_spec (- Z.of_nat n + Z.of_nat (length l)) 0).
  - replace (length l - n) with 0 by lia. simpl.
    rewrite Z.sub_0_r, Nat2Z.id. apply firstn_all.
  - replace (Z.to_nat (- Z.of_nat n + Z.of_nat (length l))) with (length l - n) by lia.
    apply take_ge. rewrite length_drop. lia.
Qed.

Lemma last_n_fmap {A B} (f : A -> B) (n : nat) (l : list A) :
  last_n n (f <$> l) = f <$> last_n n l.
Proof. unfold last_n. rewrite length_fmap, fmap_drop. reflexivity. Qed.

Lemma length_last_n {A} (n : nat) (l : list A) :
  length (last_n n l) = Nat.min n (length l).
Proof. unfold last_n. rewrite length_drop. lia. Qed.

Lemma slice_fmap {A B} (f : A -> B) (l : list A) (a b : option Z) :
  slice (f <$> l) a b = f <$> slice l a b.
Proof.
  unfold slice. rewrite length_fmap, fmap_take, fmap_drop. reflexivity.
Qed.

Lemma values_column {A} (d : DataFrame) (f : Row -> A) :
  values (column d f) = f <$> d.
Proof.
  unfold values, column.
  rewrite fmap_imap. unfold compose. simpl.
  induction d as [|r d IH] using rev_ind; [reflexivity|].
  rewrite imap_app, fmap_app, IH. reflexivity.
Qed.

Lemma frame_highs (s : PriceSeries) :
  high <$> frame s = Float <$> highs s.
Proof.
  unfold frame, highs. rewrite <- !list_fmap_compose. reflexivity.
Qed.

Lemma length_frame (s : PriceSeries) : length (frame s) = length s.
Proof. apply length_fmap. Qed.

(** [all] over tests none of which raises is the conjunction of their
    verdicts. *)
Lemma all_verdicts {A} (test : A -> result bool) (verdict : A -> bool) (l : list A) :
  (forall a, a ∈ l -> test a = Ok (verdict a)) ->
  all (test <$> l) = Ok (forallb verdict l).
Proof.
  induction l as [|a l IH]; intros H; [reflexivity|].
  simpl. rewrite (H a) by constructor.
  destruct (verdict a); [|reflexivity].
  apply IH. intros a' Ha'. apply H. by constructor.
Qed.

Lemma Qltb_lt (x y : Q) : Qltb x y = true <-> (x < y)%Q.
Proof.
  unfold Qltb. rewrite Qlt_alt. destruct (x ?= y)%Q; split; congruence.
Qed.

(** ** ContinuousRise *)

Lemma adjacent_test (qs : list Q) (i : nat) :
  S i < length qs ->
  (a ← index (Float <$> qs) (Z.of_nat i);
   b ← index (Float <$> qs) (Z.of_nat i + 1);
   cell_lt a b)
  = Ok (match qs !! i, qs !! S i with
        | Some x, Some y => Qltb x y
        | _, _ => false
        end).
Proof.
  intros Hlt.
  destruct (lookup_lt_is_Some_2 qs i) as [x Hx]; [lia|].
  destruct (lookup_lt_is_Some_2 qs (S i)) as [y Hy]; [lia|].
  rewrite Hx, Hy.
  rewrite (index_lookup _ i (Float x)) by (rewrite list_lookup_fmap, Hx; reflexivity).
  replace (Z.of_nat i + 1)%Z with (Z.of_nat (S i)) by lia.
  rewrite (index_lookup _ (S i) (Float y)) by (rewrite list_lookup_fmap, Hy; reflexivity).
  reflexivity.
Qed.

Lemma rising_tests (qs : list Q) :
  forallb (fun i => match qs !! i, qs !! S i with
                    | Some x, Some y => Qltb x y
                    | _, _ => false
                    end) (seq 0 (length qs - 1)) = true
  <-> rising qs.
Proof.
  rewrite forallb_forall. split.
  - intros H i x y Hx Hy.
    pose proof (lookup_lt_Some _ _ _ Hy) as Hlt.
    specialize (H i). rewrite Hx, Hy in H.
    apply Qltb_lt, H, in_seq. lia.
  - intros H i Hi. apply in_seq in Hi.
    destruct (lookup_lt_is_Some_2 qs i) as [x Hx]; [lia|].
    destruct (lookup_lt_is_Some_2 qs (S i)) as [y Hy]; [lia|].
    rewrite Hx, Hy. apply Qltb_lt. eauto.
Qed.

(** C10.  On every price series [is_price_increasing] returns a verdict
    and leaves the frame alone; the verdict is true exactly when the
    series has at least 10 bars and its last 10 highs rise strictly from
    each day to the next.  So with fewer than 10 bars it is false, and
    with 10 or more a single adjacent pair of the last 10 that is equal
    or falling makes it false. *)
Theorem is_price_increasing_spec (s : PriceSeries) :
  exists verdict : bool,
    is_price_increasing (Some (frame s)) = (Ok verdict, Some (frame s)) /\
    (verdict = true <-> 10 <= length s /\ rising (last_n 10 (highs s))).
Proof.
  unfold is_price_increasing. rewrite length_frame.
  destruct (Nat.ltb_spec (length s) 10) as [Hshort|Hlong].
  - exists false. split; [reflexivity|]. split; [discriminate|lia].
  - unfold tail. rewrite slice_tail by lia.
    unfold values. rewrite <- last_n_fmap. fold (values (column (frame s) high)).
    rewrite values_column, frame_highs, last_n_fmap.
    assert (Hlen : length (last_n 10 (highs s)) = 10).
    { rewrite length_last_n. unfold highs. rewrite length_fmap. lia. }
    set (tail10 := last_n 10 (highs s)) in *.
    rewrite length_fmap. unfold range. rewrite <- list_fmap_compose.
    erewrite (all_verdicts _ (fun i => match tail10 !! i, tail10 !! S i with
                                       | Some x, Some y => Qltb x y
                                       | _, _ => false
                                       end)).
    + eexists. split; [reflexivity|].
      rewrite rising_tests. intuition.
    + intros i Hi. apply list_elem_of_In, in_seq in Hi. simpl.
      apply adjacent_test. lia.
Qed.

(** ** Counting and the ranking order *)

Lemma count_app {A} (P : A -> bool) (l1 l2 : list A) :
  count P (l1 ++ l2) = count P l1 + count P l2.
Proof.
  induction l1 as [|x l1 IH]; simpl; [reflexivity|].
  destruct (P x); lia.
Qed.

Lemma count_Permutation {A} (P : A -> bool) (l1 l2 : list A) :
  l1 ≡ₚ l2 -> count P l1 = count P l2.
Proof.
  induction 1 as [|x l1 l2 _ IH|x y l|l1 l2 l3 _ IH1 _ IH2]; simpl.
  - reflexivity.
  - rewrite IH. reflexivity.
  - destruct (P x), (P y); reflexivity.
  - congruence.
Qed.

Lemma count_fmap {A B} (f : A -> B) (P : B -> bool) (l : list A) :
  count P (f <$> l) = count (fun x => P (f x)) l.
Proof.
  induction l as [|x l IH]; [reflexivity|].
  rewrite fmap_cons. simpl. rewrite IH. reflexivity.
Qed.

Lemma count_ext {A} (P P' : A -> bool) (l : list A) :
  (forall x, x ∈ l -> P x = P' x) -> count P l = count P' l.
Proof.
  induction l as [|x l IH]; intros H; simpl; [reflexivity|].
  rewrite (H x) by constructor.
  rewrite IH; [reflexivity|]. intros y Hy. apply H. by constructor.
Qed.

Lemma count_all {A} (P : A -> bool) (l : list A) :
  Forall (fun x => P x = true) l -> count P l = length l.
Proof.
  induction 1 as [|x l Hx _ IH]; simpl; [reflexivity|].
  rewrite Hx, IH. reflexivity.
Qed.

Lemma count_none {A} (P : A -> bool) (l : list A) :
  Forall (fun x => P x = false) l -> count P l = 0.
Proof.
  induction 1 as [|x l Hx _ IH]; simpl; [reflexivity|].
  rewrite Hx, IH. reflexivity.
Qed.

Lemma above_spec (a b : Z * Q) :
  above a b = true <->
  (snd b < snd a)%Q \/ ((snd a == snd b)%Q /\ (fst a < fst b)%Z).
Proof.
  unfold above.
  rewrite orb_true_iff, andb_true_iff, Qltb_lt, Qeq_bool_iff, Z.ltb_lt.
  reflexivity.
Qed.

Lemma above_asym (a b : Z * Q) : above a b = true -> above b a = false.
Proof.
  intros H. apply not_true_is_false. intros H'.
  apply above_spec in H, H'.
  destruct H as [H|[He H]], H' as [H'|[He' H']].
  - exact (Qlt_irrefl _ (Qlt_trans _ _ _ H H')).
  - rewrite He' in H. exact (Qlt_irrefl _ H).
  - rewrite He in H'. exact (Qlt_irrefl _ H').
  - lia.
Qed.

Lemma above_irrefl (a : Z * Q) : above a a = false.
Proof.
  destruct (above a a) eqn:H; [|reflexivity].
  pose proof (above_asym _ _ H). congruence.
Qed.

Lemma above_le (a b : Z * Q) : above a b = true -> (snd b <= snd a)%Q.
Proof.
  intros H. apply above_spec in H. destruct H as [H|[H _]].
  - apply Qlt_le_weak, H.
  - rewrite H. apply Qle_refl.
Qed.

Lemma le_above (a b : Z * Q) :
  (snd b <= snd a)%Q -> (fst a < fst b)%Z -> above a b = true.
Proof.
  intros Hle Hlt. apply above_spec.
  destruct (Qlt_le_dec (snd b) (snd a)) as [H|H]; [left; exact H|].
  right. split; [apply Qle_antisym; assumption|exact Hlt].
Qed.

(** *** [nlargest] sorts by that order *)

Lemma insert_desc_Permutation (x : Z * Q) (l : Series Q) :
  insert_desc x l ≡ₚ x :: l.
Proof.
  induction l as [|y l IH]; simpl; [reflexivity|].
  destruct (Qltb (snd x) (snd y)); [|reflexivity].
  rewrite IH. apply perm_swap.
Qed.

Lemma sort_desc_Permutation (l : Series Q) : sort_desc l ≡ₚ l.
Proof.
  induction l as [|x l IH]; simpl; [reflexivity|].
  rewrite insert_desc_Permutation, IH. reflexivity.
Qed.

Lemma insert_desc_sorted (x : Z * Q) (l : Series Q) :
  StronglySorted (fun a b => above a b = true) l ->
  Forall (fun y => (fst x < fst y)%Z) l ->
  StronglySorted (fun a b => above a b = true) (insert_desc x l).
Proof.
  induction 1 as [|y l Hsorted IH Hy]; intros Hlater; simpl.
  - repeat constructor.
  - apply Forall_cons in Hlater as [Hxy Hlater].
    destruct (Qltb (snd x) (snd y)) eqn:Hlt.
    + constructor; [apply IH, Hlater|].
      rewrite insert_desc_Permutation. constructor; [|exact Hy].
      apply above_spec. left. apply Qltb_lt, Hlt.
    + assert (Hle : (snd y <= snd x)%Q).
      { apply Qnot_lt_le. intros H. apply Qltb_lt in H. congruence. }
      constructor; [constructor; assumption|].
      constructor; [apply le_above; assumption|].
      rewrite Forall_forall in Hy, Hlater |- *.
      intros z Hz. apply le_above; [|apply Hlater, Hz].
      eapply Qle_trans; [apply above_le, Hy, Hz|exact Hle].
Qed.

Lemma sort_desc_sorted (l : Series Q) :
  StronglySorted (fun a b => (fst a < fst b)%Z) l ->
  StronglySorted (fun a b => above a b = true) (sort_desc l).
Proof.
  induction 1 as [|x l _ IH Hx]; simpl; [constructor|].
  apply insert_desc_sorted; [exact IH|].
  rewrite sort_desc_Permutation. exact Hx.
Qed.

(** The entry at place [k] of a list in that order has exactly [k]
    entries above it. *)
Lemma sorted_place (l : Series Q) (k : nat) (e : Z * Q) :
  StronglySorted (fun a b => above a b = true) l ->
  l !! k = Some e ->
  count (fun a => above a e) l = k.
Proof.
  intros Hsorted Hk.
  pose proof (lookup_lt_Some _ _ _ Hk) as Hlt.
  rewrite <- (take_drop_middle _ _ _ Hk) in Hsorted |- *.
  apply StronglySorted_app in Hsorted as (Hcross & _ & Hright).
  apply StronglySorted_inv in Hright as [_ Hbelow].
  rewrite count_app. simpl. rewrite above_irrefl.
  rewrite count_all, count_none.
  - rewrite length_take. lia.
  - eapply Forall_impl; [exact Hbelow|]. intros z Hz. apply above_asym, Hz.
  - apply Forall_forall. intros z Hz. apply Hcross; [exact Hz|constructor].
Qed.

Lemma entries_seq (qs : list Q) :
  entries qs = (fun j => (Z.of_nat j, default 0%Q (qs !! j))) <$> seq 0 (length qs).
Proof.
  apply list_eq. intros j. unfold entries.
  rewrite list_lookup_imap, list_lookup_fmap.
  destruct (qs !! j) as [q|] eqn:Hj; simpl.
  - rewrite lookup_seq_lt by (eapply lookup_lt_Some, Hj).
    simpl. rewrite Hj. reflexivity.
  - rewrite lookup_seq_ge by (apply lookup_ge_None, Hj). reflexivity.
Qed.

Lemma entries_lookup (qs : list Q) (e : Z * Q) :
  e ∈ entries qs -> exists p q, e = (Z.of_nat p, q) /\ qs !! p = Some q.
Proof.
  intros He. apply list_elem_of_lookup in He as [p Hp].
  unfold entries in Hp. rewrite list_lookup_imap in Hp.
  destruct (qs !! p) as [q|] eqn:Hq; [|discriminate].
  exists p, q. split; [|exact Hq]. simpl in Hp. congruence.
Qed.

Lemma lookup_entries (qs : list Q) (p : nat) (q : Q) :
  qs !! p = Some q -> (Z.of_nat p, q) ∈ entries qs.
Proof.
  intros Hq. apply list_elem_of_lookup. exists p.
  unfold entries. rewrite list_lookup_imap, Hq. reflexivity.
Qed.

Lemma seq_sorted (start len : nat) : StronglySorted Nat.lt (seq start len).
Proof.
  revert start. induction len as [|len IH]; intros start; simpl; constructor.
  - apply IH.
  - apply Forall_forall. intros j Hj. apply list_elem_of_In, in_seq in Hj. lia.
Qed.

Lemma entries_sorted (qs : list Q) :
  StronglySorted (fun a b => (fst a < fst b)%Z) (entries qs).
Proof.
  rewrite entries_seq.
  eapply StronglySorted_fmap; [|apply seq_sorted].
  intros i j Hij. simpl. lia.
Qed.

Lemma entries_rank (qs : list Q) (p : nat) (q : Q) :
  qs !! p = Some q ->
  count (fun a => above a (Z.of_nat p, q)) (entries qs) = rank qs p.
Proof.
  intros Hp. rewrite entries_seq, count_fmap. apply count_ext.
  intros j Hj. apply list_elem_of_In, in_seq in Hj.
  destruct (lookup_lt_is_Some_2 qs j) as [x Hx]; [lia|].
  unfold above, outranks. rewrite Hx, Hp. simpl.
  f_equal. f_equal.
  destruct (Z.ltb_spec (Z.of_nat j) (Z.of_nat p)), (Nat.ltb_spec j p); (reflexivity || lia).
Qed.

Lemma length_sort_desc (l : Series Q) : length (sort_desc l) = length l.
Proof. rewrite sort_desc_Permutation. reflexivity. Qed.

Lemma length_entries (qs : list Q) : length (entries qs) = length qs.
Proof. apply length_imap. Qed.

(** The place of an entry in what [nlargest] sorts is the rank of its bar. *)
Lemma sort_desc_place (qs : list Q) (k p : nat) (q : Q) :
  sort_desc (entries qs) !! k = Some (Z.of_nat p, q) ->
  qs !! p = Some q ->
  rank qs p = k.
Proof.
  intros Hk Hq.
  rewrite <- (entries_rank _ _ _ Hq).
  rewrite <- (count_Permutation _ _ _ (sort_desc_Permutation (entries qs))).
  exact (sorted_place _ k _ (sort_desc_sorted _ (entries_sorted qs)) Hk).
Qed.

(** What [nlargest] puts at place [n-1] is the n-th highest bar. *)
Lemma sort_desc_nth_highest (qs : list Q) (n : nat) :
  1 <= n <= length qs ->
  exists p q,
    sort_desc (entries qs) !! (n - 1) = Some (Z.of_nat p, q) /\
    qs !! p = Some q /\ nth_highest qs n p.
Proof.
  intros Hn.
  destruct (lookup_lt_is_Some_2 (sort_desc (entries qs)) (n - 1)) as [e He].
  { rewrite length_sort_desc, length_entries. lia. }
  assert (Hin : e ∈ entries qs).
  { rewrite <- (sort_desc_Permutation (entries qs)).
    eapply list_elem_of_lookup_2, He. }
  apply entries_lookup in Hin as (p & q & -> & Hq).
  exists p, q. split; [exact He|]. split; [exact Hq|].
  split; [eapply lookup_lt_Some, Hq|].
  rewrite (sort_desc_place _ _ _ _ He Hq). lia.
Qed.

(** No two bars are the n-th highest. *)
Lemma nth_highest_unique (qs : list Q) (n p p' : nat) :
  nth_highest qs n p -> nth_highest qs n p' -> p = p'.
Proof.
  assert (Hplace : forall p, nth_highest qs n p ->
            exists q, sort_desc (entries qs) !! (n - 1) = Some (Z.of_nat p, q)).
  { intros p0 [Hp0 Hr].
    destruct (lookup_lt_is_Some_2 qs p0 Hp0) as [q Hq].
    pose proof (lookup_entries _ _ _ Hq) as Hin.
    rewrite <- (sort_desc_Permutation (entries qs)) in Hin.
    apply list_elem_of_lookup in Hin as [k Hk].
    exists q. rewrite <- Hk. f_equal.
    rewrite <- (sort_desc_place _ _ _ _ Hk Hq). lia. }
  intros H H'.
  destruct (Hplace _ H) as [q Hq], (Hplace _ H') as [q' Hq'].
  rewrite Hq in Hq'. injection Hq'. lia.
Qed.

(** ** PeakPositionPattern on a price series *)

Lemma column_frame_high (s : PriceSeries) :
  column (frame s) high = as_cell <$> entries (highs s).
Proof.
  unfold column, frame, entries, highs.
  rewrite fmap_imap, !imap_fmap. reflexivity.
Qed.

Lemma column_frame_trade_date (s : PriceSeries) :
  values (column (frame s) trade_date) = bar_date <$> s.
Proof.
  rewrite values_column. unfold frame. rewrite <- list_fmap_compose. reflexivity.
Qed.

Lemma floats_as_cell (l : Series Q) : floats (as_cell <$> l) = Some l.
Proof.
  induction l as [|[i q] l IH]; [reflexivity|].
  rewrite fmap_cons. simpl. rewrite IH. reflexivity.
Qed.

Lemma astype_float_floats (qs : list Q) : astype_float (Float <$> qs) = Ok qs.
Proof.
  induction qs as [|q qs IH]; [reflexivity|].
  rewrite fmap_cons. simpl. rewrite IH. reflexivity.
Qed.

Lemma set_high_frame (s : PriceSeries) : set_high (frame s) (highs s) = frame s.
Proof.
  unfold set_high, frame, highs.
  induction s as [|b s IH]; [reflexivity|].
  rewrite !fmap_cons. simpl. f_equal. exact IH.
Qed.

Lemma nlargest_frame (s : PriceSeries) (n : nat) :
  nlargest n (column (frame s) high) = Ok (take n (sort_desc (entries (highs s)))).
Proof.
  unfold nlargest. rewrite column_frame_high, floats_as_cell. reflexivity.
Qed.

Lemma at_trade_date_frame (s : PriceSeries) (p : nat) (b : PriceBar) :
  s !! p = Some b -> at_trade_date (frame s) (Z.of_nat p) = Ok (bar_date b).
Proof.
  intros Hp. unfold at_trade_date.
  destruct (Z.ltb_spec (Z.of_nat p) 0); [lia|].
  rewrite Nat2Z.id. unfold frame. rewrite list_lookup_fmap, Hp. reflexivity.
Qed.

(** On a price series [get_nth_high_info] finds the n-th highest bar. *)
Lemma get_nth_high_info_frame (s : PriceSeries) (n : nat) :
  1 <= n <= length s ->
  exists p b,
    s !! p = Some b /\ nth_highest (highs s) n p /\
    get_nth_high_info (Some (frame s)) n
    = Some (bar_date b, bar_high b, Z.of_nat p).
Proof.
  intros Hn.
  destruct (sort_desc_nth_highest (highs s) n) as (p & q & Hk & Hq & Hnth).
  { unfold highs. rewrite length_fmap. exact Hn. }
  unfold highs in Hq. rewrite list_lookup_fmap in Hq.
  destruct (s !! p) as [b|] eqn:Hb; [|discriminate].
  simpl in Hq. injection Hq as <-.
  exists p, b. split; [exact Hb|]. split; [exact Hnth|].
  unfold get_nth_high_info. rewrite length_frame.
  destruct (Nat.ltb_spec (length s) n); [lia|].
  rewrite nlargest_frame. simpl.
  replace (Z.of_nat n - 1)%Z with (Z.of_nat (n - 1)) by lia.
  rewrite (index_lookup _ (n - 1) (Z.of_nat p)).
  2:{ unfold labels. rewrite list_lookup_fmap, lookup_take_lt by lia.
      rewrite Hk. reflexivity. }
  simpl.
  rewrite (index_lookup _ (n - 1) (bar_high b)).
  2:{ unfold values. rewrite list_lookup_fmap, lookup_take_lt by lia.
      rewrite Hk. reflexivity. }
  simpl. rewrite (at_trade_date_frame _ _ _ Hb). reflexivity.
Qed.

(** The auxiliary comparison of [filter_logic_three] cannot raise on a
    float column. *)
Lemma max_from_floats (q : Q) (qs : list Q) :
  exists m, max_from (Float q) (Float <$> qs) = Ok (Float m).
Proof.
  revert q. induction qs as [|x qs IH]; intros q; [by exists q|].
  rewrite fmap_cons. simpl. destruct (Qltb q x); apply IH.
Qed.

Lemma max_floats (l : Series Q) :
  max (as_cell <$> l) = Ok None \/ exists m, max (as_cell <$> l) = Ok (Some (Float m)).
Proof.
  unfold max, values. rewrite <- list_fmap_compose.
  destruct l as [|[i q] l]; [left; reflexivity|right].
  rewrite fmap_cons. simpl.
  replace (snd ∘ as_cell <$> l) with (Float <$> (snd <$> l)).
  - destruct (max_from_floats q (snd <$> l)) as [m Hm].
    exists m. rewrite Hm. reflexivity.
  - rewrite <- list_fmap_compose. reflexivity.
Qed.

Lemma le_max_floats (l1 l2 : Series Q) :
  exists verdict : bool,
    (a ← max (as_cell <$> l1); b ← max (as_cell <$> l2); le_max a b) = Ok verdict.
Proof.
  destruct (max_floats l1) as [->|[m1 ->]], (max_floats l2) as [->|[m2 ->]];
    simpl; eauto.
Qed.

Lemma slice_backwards_fmap {A B} (f : A -> B) (l : list A) (a b : option Z) :
  slice_backwards (f <$> l) a b = f <$> slice_backwards l a b.
Proof.
  unfold slice_backwards.
  rewrite length_fmap, fmap_reverse, fmap_take, fmap_drop. reflexivity.
Qed.

Lemma index_minus_one {A} (l : list A) (x : A) :
  l !! (length l - 1) = Some x -> index l (-1) = Ok x.
Proof.
  intros Hx. pose proof (lookup_lt_Some _ _ _ Hx) as Hlt.
  unfold index. simpl.
  destruct (Z.ltb_spec (-1 + Z.of_nat (length l)) 0); [lia|].
  destruct (Z.leb_spec (Z.of_nat (length l)) (-1 + Z.of_nat (length l))); [lia|].
  simpl. replace (Z.to_nat (-1 + Z.of_nat (length l))) with (length l - 1) by lia.
  rewrite Hx. reflexivity.
Qed.

Lemma abs_distance (p q : nat) :
  (Z.abs (Z.of_nat p - Z.of_nat q) =? 1)%Z = (distance p q =? 1).
Proof.
  unfold distance.
  destruct (Nat.ltb_spec p q);
    destruct (Z.eqb_spec (Z.abs (Z.of_nat p - Z.of_nat q)) 1);
    destruct (Nat.eqb_spec (q - p) 1); destruct (Nat.eqb_spec (p - q) 1);
    (reflexivity || lia).
Qed.

Lemma length_highs (s : PriceSeries) : length (highs s) = length s.
Proof. apply length_fmap. Qed.

(** C4.  On every price series with at least 3 bars, [filter_logic_three]
    returns a verdict and leaves the frame as it was; the verdict is true
    exactly when the highest bar carries the trade date of the last bar
    and the highest bar is at index distance other than 1 from the second
    highest or from the third highest.  The n-th highest bar is the one
    with n-1 bars ranking above it, a bar ranking above another when its
    high is greater, or equal and earlier in the series. *)
Theorem filter_logic_three_spec (s : PriceSeries) :
  3 <= length s ->
  exists (p1 p2 p3 : nat) (verdict : bool),
    nth_highest (highs s) 1 p1 /\
    nth_highest (highs s) 2 p2 /\
    nth_highest (highs s) 3 p3 /\
    filter_logic_three (Some (frame s)) = (Ok verdict, Some (frame s)) /\
    (verdict = true <->
     bar_date <$> (s !! p1) = bar_date <$> (s !! (length s - 1)) /\
     (distance p1 p2 <> 1 \/ distance p1 p3 <> 1)).
Proof.
  intros Hlen.
  destruct (get_nth_high_info_frame s 1) as (p1 & b1 & Hb1 & Hn1 & Hi1); [lia|].
  destruct (get_nth_high_info_frame s 2) as (p2 & b2 & Hb2 & Hn2 & Hi2); [lia|].
  destruct (get_nth_high_info_frame s 3) as (p3 & b3 & Hb3 & Hn3 & Hi3); [lia|].
  destruct (lookup_lt_is_Some_2 s (length s - 1)) as [bl Hbl]; [lia|].
  exists p1, p2, p3.
  unfold filter_logic_three.
  assert (Hne : empty (frame s) = false) by (destruct s; [simpl in Hlen; lia|reflexivity]).
  rewrite Hne, values_column, frame_highs, astype_float_floats, set_high_frame.
  unfold filter_logic_three_body.
  rewrite Hi1, Hi2, Hi3, column_frame_high, slice_fmap, slice_backwards_fmap.
  unfold nlargest at 1. rewrite floats_as_cell. simpl mbind at 1.
  rewrite length_take, length_sort_desc.
  rewrite (slice_tail _ 7) by lia.
  rewrite length_last_n, length_entries, length_highs.
  destruct (Nat.ltb_spec (Nat.min 2 (Nat.min 7 (length s))) 2); [lia|].
  rewrite !abs_distance, column_frame_trade_date.
  rewrite (index_lookup _ p1 (bar_date b1)) by (rewrite list_lookup_fmap, Hb1; reflexivity).
  rewrite (index_minus_one _ (bar_date bl))
    by (rewrite length_fmap, list_lookup_fmap, Hbl; reflexivity).
  destruct (le_max_floats
              (slice_backwards (entries (highs s))
                 (Some (Z.of_nat (length (frame s)) - 1 - 7)%Z)
                 (Some (Z.of_nat (length (frame s)) - 1 - 30)%Z))
              (last_n 7 (entries (highs s)))) as [aux Haux].
  simpl. simpl in Haux. rewrite Haux. simpl.
  eexists. split; [exact Hn1|]. split; [exact Hn2|]. split; [exact Hn3|].
  split; [reflexivity|].
  rewrite Hb1, Hbl. simpl.
  rewrite andb_true_iff, orb_true_iff, !negb_true_iff, !Nat.eqb_neq, String.eqb_eq.
  split; intros [Hd Hp]; (split; [congruence|exact Hp]).
Qed.

(** ** Series shorter than a predicate's window *)

(** The three window predicates answer false on a frame shorter than
    their window, whatever its cells hold, and [filter_logic_three]
    answers false on no frame, the empty frame, and a series of one bar. *)
Lemma short_frames_rejected (df : DataFrame) :
  (length df < 10 -> is_price_increasing (Some df) = (Ok false, Some df)) /\
  (length df < 30 -> is_30_to_7_high_max (Some df) = (Ok false, Some df)) /\
  (length df < 30 -> is_seven_equals_thirty_high (Some df) = (Ok false, Some df)) /\
  is_price_increasing None = (Ok false, None) /\
  is_30_to_7_high_max None = (Ok false, None) /\
  is_seven_equals_thirty_high None = (Ok false, None) /\
  filter_logic_three None = (Ok false, None) /\
  filter_logic_three (Some []) = (Ok false, Some []).
Proof.
  unfold is_price_increasing, is_30_to_7_high_max, is_seven_equals_thirty_high.
  repeat split; try reflexivity; intros H;
    match goal with
    | |- context [length df <? ?n] => destruct (Nat.ltb_spec (length df) n); [reflexivity|lia]
    end.
Qed.

Lemma filter_logic_three_one_bar (b : PriceBar) :
  filter_logic_three (Some (frame [b])) = (Ok false, Some (frame [b])).
Proof. reflexivity. Qed.

(** C2.  A series of two bars is shorter than the three bars
    [filter_logic_three] looks for, and on it the predicate does not
    answer false: the third high is [None], and subtracting it from the
    index of the first raises [TypeError]. *)
Theorem filter_logic_three_two_bars (b1 b2 : PriceBar) :
  get_nth_high_info (Some (frame [b1; b2])) 3 = None /\
  exists text,
    fst (filter_logic_three (Some (frame [b1; b2]))) = Raise (TypeError text).
Proof.
  split; [reflexivity|].
  unfold filter_logic_three, filter_logic_three_body. simpl.
  unfold get_nth_high_info, nlargest. simpl.
  destruct (Qltb (bar_high b1) (bar_high b2)); eexists; reflexivity.
Qed.

(** ** What the predicates do to their argument *)

Lemma length_astype_float (l : list cell) (qs : list Q) :
  astype_float l = Ok qs -> length qs = length l.
Proof.
  revert qs. induction l as [|x l IH]; intros qs; simpl.
  - intros [= <-]. reflexivity.
  - destruct (to_float x); [|discriminate].
    destruct (astype_float l) as [qs'|]; [|discriminate].
    simpl. intros [= <-]. simpl. f_equal. apply IH. reflexivity.
Qed.

Lemma set_high_columns (d : DataFrame) (qs : list Q) :
  length qs = length d ->
  trade_date <$> set_high d qs = trade_date <$> d /\
  others <$> set_high d qs = others <$> d /\
  high <$> set_high d qs = Float <$> qs.
Proof.
  unfold set_high. revert qs.
  induction d as [|r d IH]; intros [|q qs] Hlen; try discriminate; [done|].
  injection Hlen as Hlen. destruct (IH qs Hlen) as (Hd & Ho & Hh).
  simpl zip_with. rewrite !fmap_cons. simpl. rewrite Hd, Ho, Hh. done.
Qed.

(** C3, as stated, fails: [filter_logic_three] assigns the converted
    column back into the frame it was given. *)
Lemma filter_logic_three_changes_frame :
  snd (filter_logic_three (Some text_frame)) <> Some text_frame /\
  (high <$> default [] (snd (filter_logic_three (Some text_frame))))
  = [Float (Qmake 95 10); Float (Qmake 102 10); Float (Qmake 11 1)].
Proof. split; [discriminate|reflexivity]. Qed.

(** C3, amended.  [is_price_increasing], [is_30_to_7_high_max] and
    [is_seven_equals_thirty_high] leave their argument as it was.
    [filter_logic_three] leaves the rows, their trade dates and the
    columns it does not read as they were, and the [high] column either
    as it was or replaced by its conversion to float. *)
Theorem predicates_effect_on_frame (df : option DataFrame) :
  snd (is_price_increasing df) = df /\
  snd (is_30_to_7_high_max df) = df /\
  snd (is_seven_equals_thirty_high df) = df /\
  match df, snd (filter_logic_three df) with
  | Some d, Some d' =>
      trade_date <$> d' = trade_date <$> d /\
      others <$> d' = others <$> d /\
      (high <$> d' = high <$> d \/
       exists qs, astype_float (high <$> d) = Ok qs /\ high <$> d' = Float <$> qs)
  | None, None => True
  | _, _ => False
  end.
Proof.
  destruct df as [d|]; [|done].
  unfold is_price_increasing, is_30_to_7_high_max, is_seven_equals_thirty_high,
    filter_logic_three.
  repeat split.
  - destruct (length d <? 10); reflexivity.
  - destruct (length d <? 30); reflexivity.
  - destruct (length d <? 30); reflexivity.
  - destruct (empty d); [simpl; auto|].
    rewrite values_column.
    destruct (astype_float (high <$> d)) as [qs|e] eqn:Hqs; [|simpl; auto].
    simpl.
    pose proof (length_astype_float _ _ Hqs) as Hlen.
    rewrite length_fmap in Hlen.
    destruct (set_high_columns d qs Hlen) as (Hd & Ho & Hh).
    split; [exact Hd|]. split; [exact Ho|]. right. exists qs. done.
Qed.

(** On a price series, whose highs are numbers already, the conversion
    changes nothing. *)
Lemma filter_logic_three_keeps_series (s : PriceSeries) :
  snd (filter_logic_three (Some (frame s))) = Some (frame s).
Proof.
  unfold filter_logic_three.
  destruct (empty (frame s)); [reflexivity|].
  rewrite values_column, frame_highs, astype_float_floats, set_high_frame.
  reflexivity.
Qed.

(** ** Raw text is compared as text *)

(** C9.  [is_price_increasing] compares the highs as the provider gave
    them.  On ten bars whose highs are the texts 1 to 10 it answers false,
    because the text 9 does not sort below the text 10; on the same
    frame after the conversion to float its answer is true. *)
Theorem is_price_increasing_compares_text :
  fst (is_price_increasing (Some text_rising)) = Ok false /\
  exists qs,
    astype_float (high <$> text_rising) = Ok qs /\
    rising qs /\
    fst (is_price_increasing (Some (set_high text_rising qs))) = Ok true.
Proof.
  split; [reflexivity|].
  eexists. split; [reflexivity|]. split; [|reflexivity].
  apply rising_tests. reflexivity.
Qed.

(** ** One task: the decorated [process_stock] *)

Lemma market_requests_app (code : string) (t1 t2 : list event) :
  market_requests code (t1 ++ t2) = market_requests code t1 + market_requests code t2.
Proof.
  induction t1 as [|[|c|d|cmd] t1 IH]; simpl; auto.
  destruct (String.eqb c code); simpl; auto.
Qed.

Lemma process_stock_body_attempt env stocks_info code filters w :
  process_stock_body env stocks_info (code, filters) w
  = (attempt env stocks_info code filters (market_requests code (trace w)),
     extend w [GetMarket code]).
Proof.
  unfold process_stock_body, attempt, call_get_market, mbind, M_bind, result_bind.
  destruct (get_market env code _) as [data|e]; [|reflexivity].
  destruct (empty data); [reflexivity|].
  unfold lift.
  destruct (apply_filters filters (Some data)) as [[|]|e]; try reflexivity.
  destruct (first_match stocks_info code); reflexivity.
Qed.

Lemma append_assoc (a b c : string) : (a +:+ b) +:+ c = a +:+ (b +:+ c).
Proof.
  induction a as [|x a IH]; [reflexivity|].
  change (String x ((a +:+ b) +:+ c) = String x (a +:+ (b +:+ c))).
  f_equal. exact IH.
Qed.

Lemma error_line_process_stock (e : exn) (code : string) (filters : list pyfunction) :
  error_line "process_stock" show_process_stock_call e (code, filters)
  = process_stock_error_line e code filters.
Proof.
  unfold error_line, process_stock_error_line, show_process_stock_call, repr_str.
  simpl fst. simpl snd. rewrite !append_assoc. reflexivity.
Qed.

Lemma extend_record (w : world) (e : event) (before after : list event) :
  extend (record e (extend w before)) after = extend w (before ++ e :: after).
Proof.
  unfold extend, record. simpl. rewrite <- !app_assoc. reflexivity.
Qed.

Lemma market_requests_extend (w : world) (code : string) (events : list event) :
  market_requests code (trace (extend w events))
  = market_requests code (trace w) + market_requests code events.
Proof. apply market_requests_app. Qed.

(** The decorated function, call by call. *)
Lemma process_stock_unfold env stocks_info code filters w :
  let k := market_requests code (trace w) in
  let call := GetMarket code in
  process_stock env stocks_info code filters w =
  match attempt env stocks_info code filters k with
  | Ok r => (Ok r, extend w [call])
  | Raise _ =>
      match attempt env stocks_info code filters (k + 1) with
      | Ok r => (Ok r, extend w [call; Sleep 2; call])
      | Raise _ =>
          match attempt env stocks_info code filters (k + 2) with
          | Ok r => (Ok r, extend w [call; Sleep 2; call; Sleep 4; call])
          | Raise e =>
              (append_file env "error_log.txt"
                 (process_stock_error_line e code filters) ;; mret None)
                (extend w [call; Sleep 2; call; Sleep 4; call])
          end
      end
  end.
Proof.
  cbv zeta.
  unfold process_stock, retry, attempts, last_try.
  rewrite process_stock_body_attempt.
  destruct (attempt env stocks_info code filters _) as [r|e1]; [reflexivity|].
  unfold Exception, sleep, mbind, M_bind.
  change (2 <? 0)%Z with false. change (2 * 2)%Z with 4%Z.
  change (4 <? 0)%Z with false. cbv iota beta.
  rewrite process_stock_body_attempt, extend_record.
  replace (market_requests code (trace (record (Sleep 2) (extend w [GetMarket code]))))
    with (market_requests code (trace w) + 1).
  2:{ unfold record, extend. simpl. rewrite !market_requests_app. simpl.
      rewrite String.eqb_refl. lia. }
  destruct (attempt env stocks_info code filters (_ + 1)) as [r|e2]; [reflexivity|].
  rewrite process_stock_body_attempt, extend_record.
  replace (market_requests code
             (trace (record (Sleep 4)
                       (extend w ([GetMarket code] ++ [Sleep 2; GetMarket code])))))
    with (market_requests code (trace w) + 2).
  2:{ unfold record, extend. simpl. rewrite !market_requests_app. simpl.
      rewrite !String.eqb_refl. lia. }
  destruct (attempt env stocks_info code filters (_ + 2)) as [r|e3]; [reflexivity|].
  rewrite error_line_process_stock. reflexivity.
Qed.

(** Case analysis over the calls of a task: each returns or raises, and
    after three raises the error log is written. *)
Ltac by_calls :=
  rewrite ?process_stock_unfold; cbv zeta;
  repeat match goal with
         | |- context [match attempt ?e ?s ?c ?f ?k with _ => _ end] =>
             let H := fresh "Hcall" in destruct (attempt e s c f k) eqn:H
         end.

Lemma fst_append_file env name text w1 w2 :
  fst (append_file env name text w1) = fst (append_file env name text w2).
Proof.
  unfold append_file, put.
  destruct (storage env name) as [| |room]; try reflexivity.
  destruct (room <? String.length text); reflexivity.
Qed.

Lemma trace_append_file env name text w :
  trace (snd (append_file env name text w)) = trace w.
Proof.
  unfold append_file, put.
  destruct (storage env name) as [| |room]; try reflexivity.
  destruct (room <? String.length text); reflexivity.
Qed.

(** The outcome of a task depends on the world only through the number
    of price requests made so far for its ticker. *)
Lemma process_stock_outcome env stocks_info code filters w1 w2 :
  market_requests code (trace w1) = market_requests code (trace w2) ->
  fst (process_stock env stocks_info code filters w1)
  = fst (process_stock env stocks_info code filters w2).
Proof.
  intros Hk. rewrite !process_stock_unfold. cbv zeta. rewrite Hk.
  destruct (attempt env stocks_info code filters _); [reflexivity|].
  destruct (attempt env stocks_info code filters _); [reflexivity|].
  destruct (attempt env stocks_info code filters _); [reflexivity|].
  unfold mbind, M_bind.
  match goal with
  | |- context [append_file env ?n ?t (extend w1 ?evs)] =>
      pose proof (fst_append_file env n t (extend w1 evs) (extend w2 evs)) as Hfst;
      destruct (append_file env n t (extend w1 evs)) as [[[]|] ?];
      destruct (append_file env n t (extend w2 evs)) as [[[]|] ?]
  end; simpl in *; congruence.
Qed.

(** A task makes price requests for its own ticker only. *)
Lemma process_stock_requests_other env stocks_info code filters w code' :
  code' <> code ->
  market_requests code' (trace (snd (process_stock env stocks_info code filters w)))
  = market_requests code' (trace w).
Proof.
  intros Hne. apply String.eqb_neq in Hne. rewrite String.eqb_sym in Hne.
  by_calls; try (simpl; rewrite market_requests_app; simpl; rewrite Hne; lia).
  unfold mbind, M_bind.
  match goal with
  | |- context [append_file env ?n ?t ?w0] =>
      pose proof (trace_append_file env n t w0) as Htr;
      destruct (append_file env n t w0) as [[[]|] ?]
  end; simpl in *; rewrite Htr, market_requests_app; simpl; rewrite Hne; lia.
Qed.

(** ** The retry schedule *)

(** C5.  For every ticker: when the first call of the decorated function
    returns, it was called once; when the first call raises and the
    second returns, it was called twice, with a sleep of 2 in between;
    when the first two calls raise and the third returns, the third
    call's result is returned after exactly three calls, with a sleep of
    2 before the second and of 2 x 2 = 4 before the third.  Nothing is
    written to any file. *)
Theorem process_stock_retry_schedule env stocks_info code filters w :
  let call := GetMarket code in
  let outcome j :=
    attempt env stocks_info code filters (market_requests code (trace w) + j) in
  (forall r,
     outcome 0 = Ok r ->
     process_stock env stocks_info code filters w = (Ok r, extend w [call])) /\
  (forall e1 r,
     outcome 0 = Raise e1 -> outcome 1 = Ok r ->
     process_stock env stocks_info code filters w
     = (Ok r, extend w [call; Sleep 2; call])) /\
  (forall e1 e2 r,
     outcome 0 = Raise e1 -> outcome 1 = Raise e2 -> outcome 2 = Ok r ->
     process_stock env stocks_info code filters w
     = (Ok r, extend w [call; Sleep 2; call; Sleep 4; call])).
Proof.
  cbv beta zeta. rewrite Nat.add_0_r, process_stock_unfold. cbv zeta.
  repeat split.
  - intros r ->. reflexivity.
  - intros e1 r -> ->. reflexivity.
  - intros e1 e2 r -> -> ->. reflexivity.
Qed.

(** ** Exhausted retries *)

(** A future that holds an exception ends the loop over the futures with
    an exception, wherever it stands among the others. *)
Lemma gather_raises (before after : list (result (option ScreeningResult)))
    (e : exn) (results : list ScreeningResult) :
  exists e', gather (before ++ Raise e :: after) results = Raise e'.
Proof.
  revert results. induction before as [|[[r|]|e0] before IH]; intros results; simpl.
  - eauto.
  - apply IH.
  - apply IH.
  - eauto.
Qed.

(** C6, amended.  When all three calls for a ticker raise, the line for
    the error log ends in a newline and holds the function's name, the
    text of the last exception and the arguments of the call with the
    ticker's code.  If the storage behind the error log takes the line,
    the task appends that one line, returns [None] and raises nothing;
    the loop over the futures passes it by without adding to the
    results; and every other ticker's task has the outcome it would have
    had without it.  If the storage does not take the line, because the
    log cannot be opened or gives out during the write, the task raises
    the [OSError] of the write after its three calls, and the loop over
    the futures ends with an exception. *)
Theorem process_stock_exhausted env stocks_info code filters w e1 e2 e3 :
  let k := market_requests code (trace w) in
  let call := GetMarket code in
  let calls := [call; Sleep 2; call; Sleep 4; call] in
  let line := process_stock_error_line e3 code filters in
  let log_before := default "" (files w !! "error_log.txt") in
  let w' := World (<["error_log.txt" := log_before +:+ line]> (files w))
                  (trace w ++ calls) in
  attempt env stocks_info code filters k = Raise e1 ->
  attempt env stocks_info code filters (k + 1) = Raise e2 ->
  attempt env stocks_info code filters (k + 2) = Raise e3 ->
  (exists a b c d,
     line = a +:+ "process_stock" +:+ b +:+ exn_text e3 +:+ c +:+ code +:+ d +:+ newline) /\
  (accepts env "error_log.txt" line = true ->
   process_stock env stocks_info code filters w = (Ok None, w') /\
   (forall futures results,
      gather (Ok None :: futures) results = gather futures results) /\
   (forall code' filters',
      code' <> code ->
      fst (process_stock env stocks_info code' filters' w')
      = fst (process_stock env stocks_info code' filters' w))) /\
  (accepts env "error_log.txt" line = false ->
   exists text w'',
     process_stock env stocks_info code filters w = (Raise (OSError text), w'') /\
     trace w'' = trace w ++ calls /\
     (forall before after results,
        exists e,
          gather (before ++ Raise (OSError text) :: after) results = Raise e)).
Proof.
  cbv zeta. intros H1 H2 H3. split; [|split].
  - exists "在处理函数 ", " 时遇到错误: ", ",参数：('",
      ("',), {'filters': [" +:+ join ", " (repr_function <$> filters) +:+ "]}").
    unfold process_stock_error_line. rewrite !append_assoc. reflexivity.
  - intros Haccepts. split; [|split].
    + rewrite process_stock_unfold. cbv zeta. rewrite H1, H2, H3.
      unfold accepts in Haccepts.
      unfold mbind, M_bind, append_file, put.
      destruct (storage env "error_log.txt") as [| |room];
        [reflexivity|discriminate|].
      destruct (room <? String.length _); [discriminate|reflexivity].
    + reflexivity.
    + intros code' filters' H. apply process_stock_outcome. simpl.
      rewrite market_requests_app. simpl.
      apply String.eqb_neq in H. rewrite String.eqb_sym in H. rewrite H. lia.
  - intros Haccepts.
    rewrite process_stock_unfold. cbv zeta. rewrite H1, H2, H3.
    unfold accepts in Haccepts.
    unfold mbind, M_bind, append_file, put.
    destruct (storage env "error_log.txt") as [| |room]; [discriminate| |].
    + eexists _, _. split; [reflexivity|]. split; [reflexivity|].
      intros. apply gather_raises.
    + destruct (room <? String.length _); [|discriminate].
      eexists _, _. split; [reflexivity|]. split; [reflexivity|].
      intros. apply gather_raises.
Qed.

(** ** The screening loop *)

Lemma held_app (f1 f2 : list (result (option ScreeningResult))) :
  held (f1 ++ f2) = held f1 ++ held f2.
Proof.
  induction f1 as [|[[r|]|e] f1 IH]; simpl; auto. rewrite IH. reflexivity.
Qed.

Lemma gather_held futures acc results :
  gather futures acc = Ok results -> results = acc ++ held futures.
Proof.
  revert acc. induction futures as [|[[r|]|e] futures IH]; intros acc; simpl.
  - intros [= <-]. rewrite app_nil_r. reflexivity.
  - intros H. rewrite (IH _ H), <- app_assoc. reflexivity.
  - apply IH.
  - discriminate.
Qed.

Lemma run_tasks_app env stocks_info filters (l1 l2 : list string) w :
  run_tasks env stocks_info filters (l1 ++ l2) w =
  let '(o1, w1) := run_tasks env stocks_info filters l1 w in
  let '(o2, w2) := run_tasks env stocks_info filters l2 w1 in
  (o1 ++ o2, w2).
Proof.
  revert w. induction l1 as [|c l1 IH]; intros w; simpl.
  - destruct (run_tasks env stocks_info filters l2 w). reflexivity.
  - destruct (process_stock env stocks_info c filters w) as [o w1].
    rewrite IH.
    destruct (run_tasks env stocks_info filters l1 w1) as [o1 w2].
    destruct (run_tasks env stocks_info filters l2 w2). reflexivity.
Qed.

Lemma run_tasks_requests_other env stocks_info filters (codes : list string) w code :
  code ∉ codes ->
  market_requests code (trace (snd (run_tasks env stocks_info filters codes w)))
  = market_requests code (trace w).
Proof.
  revert w. induction codes as [|c codes IH]; intros w Hnotin; [reflexivity|].
  apply not_elem_of_cons in Hnotin as [Hne Hnotin].
  simpl.
  pose proof (process_stock_requests_other env stocks_info c filters w code Hne) as Hc.
  destruct (process_stock env stocks_info c filters w) as [o w1].
  specialize (IH w1 Hnotin).
  destruct (run_tasks env stocks_info filters codes w1) as [os w2].
  simpl in *. congruence.
Qed.

Lemma attempt_code env stocks_info code filters k r :
  attempt env stocks_info code filters k = Ok (Some r) -> r_stock_code r = code.
Proof.
  unfold attempt.
  destruct (get_market env code k) as [data|]; [simpl|discriminate].
  destruct (empty data); [discriminate|].
  destruct (apply_filters filters (Some data)) as [[|]|]; simpl; try discriminate.
  destruct (first_match stocks_info code); simpl; [|discriminate].
  intros [= <-]. reflexivity.
Qed.

(** A task's result carries the code of the task's ticker. *)
Lemma process_stock_code env stocks_info code filters w r :
  fst (process_stock env stocks_info code filters w) = Ok (Some r) ->
  r_stock_code r = code.
Proof.
  by_calls; try (simpl; intros [= ->]; eapply attempt_code; eassumption).
  unfold mbind, M_bind.
  destruct (append_file _ _ _ _) as [[[]|] ?]; simpl; discriminate.
Qed.

Lemma held_codes env stocks_info filters (codes : list string) w r :
  r ∈ held (fst (run_tasks env stocks_info filters codes w)) ->
  r_stock_code r ∈ codes.
Proof.
  revert w. induction codes as [|c codes IH]; intros w; simpl.
  - intros H. inversion H.
  - pose proof (process_stock_code env stocks_info c filters w) as Hc.
    destruct (process_stock env stocks_info c filters w) as [o w1].
    specialize (IH w1).
    destruct (run_tasks env stocks_info filters codes w1) as [os w2].
    simpl in *. destruct o as [[r0|]|e]; simpl.
    + intros [->|H]%elem_of_cons.
      * rewrite (Hc r0 eq_refl). constructor.
      * constructor. apply IH, H.
    + intros H. constructor. apply IH, H.
    + intros H. constructor. apply IH, H.
Qed.

Lemma first_match_elem_of (stocks_info : list Ticker) (t : Ticker) :
  t ∈ stocks_info -> exists t', first_match stocks_info (stock_code t) = Ok t'.
Proof.
  intros Hin. unfold first_match.
  destruct (List.find _ stocks_info) as [t'|] eqn:Hfind; [eauto|].
  apply list_elem_of_In in Hin.
  pose proof (find_none _ _ Hfind _ Hin) as H. simpl in H.
  rewrite String.eqb_refl in H. discriminate.
Qed.

(** The chain is applied in order and stops at the first predicate that
    does not answer true; later predicates are then not called. *)
Lemma apply_filters_stops (f : pyfunction) (rest : list pyfunction) (df : option DataFrame) :
  (fst (fn_call f df) = Ok false -> apply_filters (f :: rest) df = Ok false) /\
  (forall e, fst (fn_call f df) = Raise e -> apply_filters (f :: rest) df = Raise e) /\
  (fst (fn_call f df) = Ok true ->
   apply_filters (f :: rest) df = apply_filters rest (snd (fn_call f df))).
Proof.
  simpl. destruct (fn_call f df) as [[[|]|e] df']; simpl;
    repeat split; intros; congruence.
Qed.

(** ** Which tickers enter the result *)

Lemma apply_configured env (df : option DataFrame) :
  apply_filters (filters_to_apply env) df = fst (filter_logic_three df).
Proof.
  unfold filters_to_apply, apply_filters, fn_call.
  destruct (filter_logic_three df) as [[[|]|e] df']; reflexivity.
Qed.

Lemma attempt_configured env stocks_info code k df verdict t :
  get_market env code k = Ok df ->
  empty df = false ->
  fst (filter_logic_three (Some df)) = Ok verdict ->
  first_match stocks_info code = Ok t ->
  attempt env stocks_info code (filters_to_apply env) k
  = Ok (if verdict then Some (result_of t code) else None).
Proof.
  intros Hfetch Hnonempty Hverdict Hmatch.
  unfold attempt, mbind, result_bind.
  rewrite Hfetch, Hnonempty, apply_configured, Hverdict.
  destruct verdict; [|reflexivity]. rewrite Hmatch. reflexivity.
Qed.

Lemma attempt_verdict env stocks_info code filters k t :
  first_match stocks_info code = Ok t ->
  attempt env stocks_info code filters k =
  match chain_verdict env filters code k with
  | Ok true => Ok (Some (result_of t code))
  | Ok false => Ok None
  | Raise e => Raise e
  end.
Proof.
  intros Hmatch. unfold attempt, chain_verdict, mbind, result_bind.
  destruct (get_market env code k) as [data|e]; [|reflexivity].
  destruct (empty data); [reflexivity|].
  destruct (apply_filters filters (Some data)) as [[|]|e]; try reflexivity.
  rewrite Hmatch. reflexivity.
Qed.

(** What a task leaves in its future, for a code the universe has a
    record of: the record's result when the first of its calls that gives
    a verdict gives a true one, and nothing otherwise. *)
Lemma process_stock_held env stocks_info code filters w t :
  first_match stocks_info code = Ok t ->
  held [fst (process_stock env stocks_info code filters w)] =
  if first_verdict (chain_verdict env filters code) (market_requests code (trace w))
  then [result_of t code] else [].
Proof.
  intros Hmatch. rewrite process_stock_unfold. cbv zeta.
  rewrite !(attempt_verdict _ _ _ _ _ _ Hmatch). unfold first_verdict.
  destruct (chain_verdict env filters code (market_requests code (trace w)))
    as [[|]|e1]; try reflexivity.
  destruct (chain_verdict env filters code (_ + 1)) as [[|]|e2]; try reflexivity.
  destruct (chain_verdict env filters code (_ + 2)) as [[|]|e3]; try reflexivity.
  unfold mbind, M_bind.
  destruct (append_file _ _ _ _) as [[[]|] ?]; reflexivity.
Qed.

(** C1, amended.  In a screening that completes, of a universe with one
    record per code, a ticker is in the result exactly when the chain
    answers true on the non-empty table of the first of its task's three
    calls that gives a verdict; a call whose request or chain raises
    gives none and is tried again, and a ticker whose three calls all
    raise is not in the result.  The configured chain is
    [filter_logic_three] alone.  A chain is asked in list order: a
    predicate that answers false ends it with false, and after one that
    answers true the rest is asked. *)
Theorem configured_chain_decides env (stocks_info : list Ticker) (t : Ticker)
    w results w' :
  NoDup (stock_code <$> stocks_info) ->
  t ∈ stocks_info ->
  screen env stocks_info w = (Ok results, w') ->
  ((exists r, r ∈ results /\ r_stock_code r = stock_code t) <->
   first_verdict (chain_verdict env (filters_to_apply env) (stock_code t))
                 (market_requests (stock_code t) (trace w)) = true) /\
  (forall code k,
     chain_verdict env (filters_to_apply env) code k
     = df ← get_market env code k;
       if empty df then Ok false else fst (filter_logic_three (Some df))) /\
  (forall f rest df,
     (fst (fn_call f df) = Ok false -> apply_filters (f :: rest) df = Ok false) /\
     (fst (fn_call f df) = Ok true ->
      apply_filters (f :: rest) df = apply_filters rest (snd (fn_call f df)))).
Proof.
  intros Hnodup Hin Hscreen. split; [|split].
  2:{ intros code k. unfold chain_verdict, mbind, result_bind.
      destruct (get_market env code k) as [df|e]; [|reflexivity].
      rewrite apply_configured. reflexivity. }
  2:{ intros f rest df.
      destruct (apply_filters_stops f rest df) as (Hfalse & _ & Htrue).
      split; assumption. }
  destruct (first_match_elem_of _ _ Hin) as [t' Hmatch].
  apply list_elem_of_split in Hin as (pre & post & ->).
  rewrite fmap_app, fmap_cons in Hnodup.
  apply NoDup_app in Hnodup as (_ & Hpre & Hpost).
  apply NoDup_cons in Hpost as [Hpost _].
  unfold screen in Hscreen.
  rewrite fmap_app, fmap_cons, run_tasks_app in Hscreen.
  pose proof (run_tasks_requests_other env (pre ++ t :: post) (filters_to_apply env)
                (stock_code <$> pre) w (stock_code t)) as Hk.
  pose proof (held_codes env (pre ++ t :: post) (filters_to_apply env)
                (stock_code <$> pre) w) as Hheld_pre.
  destruct (run_tasks env _ _ (stock_code <$> pre) w) as [o_pre w1].
  simpl in Hk, Hheld_pre.
  rewrite <- Hk by (intros H; exact (Hpre _ H ltac:(constructor))).
  simpl in Hscreen.
  pose proof (process_stock_held env (pre ++ t :: post) (stock_code t)
                (filters_to_apply env) w1 t' Hmatch) as Htask.
  destruct (process_stock env _ (stock_code t) _ w1) as [o wt].
  simpl fst in Htask.
  pose proof (held_codes env (pre ++ t :: post) (filters_to_apply env)
                (stock_code <$> post) wt) as Hheld_post.
  destruct (run_tasks env _ _ (stock_code <$> post) wt) as [o_post w2].
  simpl in Hheld_post.
  injection Hscreen as Hgather <-.
  apply gather_held in Hgather. simpl app in Hgather.
  change (o :: o_post) with ([o] ++ o_post) in Hgather.
  rewrite !held_app, Htask in Hgather. subst results.
  split.
  - intros (r & Hr & Hcode).
    apply elem_of_app in Hr as [Hr|Hr].
    { exfalso. apply (Hpre (stock_code t)); [|constructor].
      rewrite <- Hcode. apply Hheld_pre, Hr. }
    apply elem_of_app in Hr as [Hr|Hr].
    { destruct (first_verdict _ _); [reflexivity|inversion Hr]. }
    exfalso. apply Hpost. rewrite <- Hcode. apply Hheld_post, Hr.
  - intros ->. exists (result_of t' (stock_code t)). split; [|reflexivity].
    apply elem_of_app. right. apply elem_of_app. left. constructor.
Qed.

(** ** Running twice on one day *)

(** C7, as stated, fails in its second half: with today's snapshot on
    disk, [get_stocks_info] still asks the provider for the universe. *)
Lemma universe_requested_despite_snapshot :
  files snapshot_only !! universe_file calm_env = Some "000001" /\
  files snapshot_only !! result_file calm_env = None /\
  trace (snd (get_stocks_info calm_env snapshot_only)) = [AllCode] /\
  universe_requests (trace snapshot_only) = 0 /\
  universe_requests (trace (snd (main calm_env snapshot_only))) = 1.
Proof. repeat split; vm_compute; reflexivity. Qed.

(** Lines 393 to 429 on a cached day: with today's result file they do
    nothing; with today's snapshot and no result file they request the
    universe all the same and screen what the snapshot holds. *)
Lemma main_with_snapshot env w :
  (is_Some (files w !! result_file env) -> main env w = (Ok (), w)) /\
  (forall text,
     files w !! result_file env = None ->
     files w !! universe_file env = Some text ->
     main env w =
     match all_code env (universe_requests (trace w)) with
     | Raise e => (Raise e, record AllCode w)
     | Ok _ =>
         (stocks_info ← lift (read_json env text);
          results ← screen env stocks_info;
          write_file env (result_file env) (json_dump results))
           (record AllCode w)
     end).
Proof.
  split.
  - intros Hresult. unfold main, mbind, M_bind, path_exists.
    rewrite bool_decide_eq_true_2 by exact Hresult. reflexivity.
  - intros text Hresult Hsnapshot.
    unfold main, get_stocks_info, mbind, M_bind, path_exists, call_all_code.
    rewrite Hresult.
    rewrite bool_decide_eq_false_2 by (intros [? ?]; discriminate).
    change (negb false) with true. cbv beta iota.
    destruct (all_code env (universe_requests (trace w))) as [raw|e]; [|reflexivity].
    change (files (record AllCode w)) with (files w). rewrite Hsnapshot.
    rewrite bool_decide_eq_true_2 by eauto.
    change (negb true) with false. cbv beta iota.
    unfold mret, M_ret, read_universe, lift.
    change (files (record AllCode w)) with (files w). rewrite Hsnapshot.
    reflexivity.
Qed.

(** ** Writing the result file *)

Lemma append_file_files env name text w other :
  other <> name ->
  files (snd (append_file env name text w)) !! other = files w !! other.
Proof.
  intros Hne. unfold append_file, put.
  destruct (storage env name) as [| |room]; simpl; [|reflexivity|].
  - apply lookup_insert_ne. congruence.
  - destruct (room <? String.length text); simpl; apply lookup_insert_ne; congruence.
Qed.

Lemma write_file_files env name text w other :
  other <> name ->
  files (snd (write_file env name text w)) !! other = files w !! other.
Proof.
  intros Hne. unfold write_file, put.
  destruct (storage env name) as [| |room]; simpl; [|reflexivity|].
  - apply lookup_insert_ne. congruence.
  - destruct (room <? String.length text); simpl; apply lookup_insert_ne; congruence.
Qed.

(** A task writes to the error log only. *)
Lemma process_stock_files env stocks_info code filters w other :
  other <> "error_log.txt" ->
  files (snd (process_stock env stocks_info code filters w)) !! other = files w !! other.
Proof.
  intros Hne. by_calls; try reflexivity.
  unfold mbind, M_bind.
  match goal with
  | |- context [append_file env ?n ?t ?w0] =>
      pose proof (append_file_files env n t w0 other Hne) as Hfiles;
      destruct (append_file env n t w0) as [[[]|] ?]
  end; exact Hfiles.
Qed.

Lemma run_tasks_files env stocks_info filters (codes : list string) w other :
  other <> "error_log.txt" ->
  files (snd (run_tasks env stocks_info filters codes w)) !! other = files w !! other.
Proof.
  intros Hne. revert w. induction codes as [|c codes IH]; intros w; [reflexivity|].
  simpl.
  pose proof (process_stock_files env stocks_info c filters w other Hne) as Hc.
  destruct (process_stock env stocks_info c filters w) as [o w1].
  specialize (IH w1).
  destruct (run_tasks env stocks_info filters codes w1) as [os w2].
  simpl in *. congruence.
Qed.

Lemma get_stocks_info_files env w other :
  other <> universe_file env ->
  files (snd (get_stocks_info env w)) !! other = files w !! other.
Proof.
  intros Hne. unfold get_stocks_info, mbind, M_bind, call_all_code, path_exists.
  destruct (all_code env _); [|reflexivity].
  destruct (negb _); [|reflexivity].
  rewrite write_file_files by exact Hne. reflexivity.
Qed.

Lemma result_file_not_universe_file env : result_file env <> universe_file env.
Proof. discriminate. Qed.

Lemma result_file_not_error_log env : result_file env <> "error_log.txt".
Proof. discriminate. Qed.

Lemma before_writing_result_file env w :
  files (snd (before_writing env w)) !! result_file env = files w !! result_file env.
Proof.
  unfold before_writing, mbind, M_bind.
  pose proof (get_stocks_info_files env w _ (result_file_not_universe_file env)) as H1.
  destruct (get_stocks_info env w) as [[[]|] w1]; [|exact H1].
  unfold read_universe.
  destruct (files w1 !! universe_file env) as [text|]; [|exact H1].
  destruct (read_json env text) as [stocks_info|]; [|exact H1].
  unfold screen.
  pose proof (run_tasks_files env stocks_info (filters_to_apply env)
                (stock_code <$> stocks_info) w1 _ (result_file_not_error_log env)) as H2.
  destruct (run_tasks _ _ _ _ _) as [futures w2].
  simpl in *. congruence.
Qed.

Lemma main_before_writing env w :
  files w !! result_file env = None ->
  main env w =
  (results ← before_writing env; write_file env (result_file env) (json_dump results)) w.
Proof.
  intros Hresult.
  unfold main, before_writing, mbind, M_bind, path_exists.
  rewrite Hresult.
  rewrite bool_decide_eq_false_2 by (intros [? ?]; discriminate).
  change (negb false) with true. cbv beta iota.
  destruct (get_stocks_info env w) as [[[]|] w1]; [|reflexivity].
  destruct (read_universe env (universe_file env) w1) as [[stocks_info|] w2]; [|reflexivity].
  destruct (screen env stocks_info w2) as [[results|] w3]; reflexivity.
Qed.

(** C8, as stated, fails: when the storage gives out during the write,
    the run fails and the result file is left holding the first bytes of
    the result. *)
Lemma result_file_left_partial :
  fst (before_writing cramped_env fresh) = Ok [sample_result] /\
  fst (main cramped_env fresh) = Raise (OSError "No space left on device") /\
  files (snd (main cramped_env fresh)) !! result_file cramped_env
  = Some ("[" +:+ newline +:+ "    {") /\
  files (snd (main cramped_env fresh)) !! result_file cramped_env
  <> Some (json_dump [sample_result]).
Proof. repeat split; vm_compute; (reflexivity || discriminate). Qed.

(** C8, amended.  In a run that reaches the write of the result file,
    what the write does is the run's outcome.  If the file cannot be
    opened for writing, the run fails and there is no result file.  If
    the storage gives out after [room] bytes, the run fails and the
    result file holds the first [room] bytes of the result.  Otherwise
    the run succeeds and the file holds the whole result. *)
Theorem result_write_outcomes env w results w1 :
  files w !! result_file env = None ->
  before_writing env w = (Ok results, w1) ->
  let text := json_dump results in
  let holding content := World (<[result_file env := content]> (files w1)) (trace w1) in
  files w1 !! result_file env = None /\
  main env w =
  match storage env (result_file env) with
  | Refuses => (Raise (OSError "Permission denied"), w1)
  | Fills room =>
      if room <? String.length text
      then (Raise (OSError "No space left on device"), holding (substring 0 room text))
      else (Ok (), holding text)
  | Sound => (Ok (), holding text)
  end.
Proof.
  intros Hresult Hbefore. cbv zeta. split.
  - pose proof (before_writing_result_file env w) as H.
    rewrite Hbefore, Hresult in H. exact H.
  - rewrite (main_before_writing _ _ Hresult).
    unfold mbind at 1, M_bind at 1. rewrite Hbefore.
    unfold write_file, put.
    destruct (storage env (result_file env)) as [| |room]; try reflexivity.
Qed.

(** ** The properties at work on the small run *)

(** C6, as stated, fails: when the error log cannot be opened, the
    task of a ticker whose three calls raise raises itself, and the
    screening and the run end with that exception and without a result
    file, although the other ticker of the universe passes. *)
Lemma error_log_refusal_aborts :
  let env := locked_log_env in
  fst (process_stock env longer_universe "000001" (filters_to_apply env) fresh)
  = Raise (OSError "Permission denied") /\
  (exists r,
     fst (process_stock env longer_universe "000002" (filters_to_apply env) fresh)
     = Ok (Some r)) /\
  fst (screen env longer_universe fresh) = Raise (OSError "Permission denied") /\
  fst (main env fresh) = Raise (OSError "Permission denied") /\
  files (snd (main env fresh)) !! result_file env = None.
Proof.
  cbv zeta. split; [|split; [|split; [|split]]].
  - vm_compute. reflexivity.
  - eexists. vm_compute. reflexivity.
  - vm_compute. reflexivity.
  - vm_compute. reflexivity.
  - vm_compute. reflexivity.
Qed.

(** C1, as stated, fails: three rising bars pass the configured chain and
    the ticker is written to the result, although the series is too
    short for ContinuousRise and for RecentHighDominance, which both
    answer false on it. *)
Lemma peak_pattern_alone_admits :
  fst (screen calm_env sample_universe fresh) = Ok [sample_result] /\
  fst (main calm_env fresh) = Ok () /\
  files (snd (main calm_env fresh)) !! result_file calm_env
  = Some (json_dump [sample_result]) /\
  fst (is_price_increasing (Some (frame three_bars))) = Ok false /\
  fst (is_30_to_7_high_max (Some (frame three_bars))) = Ok false.
Proof. repeat split; vm_compute; reflexivity. Qed.

Lemma configured_chain_decides_witness :
  (exists r, r ∈ [sample_result] /\ r_stock_code r = "000001") <->
  first_verdict (chain_verdict (flaky_env 1) (filters_to_apply (flaky_env 1)) "000001") 0
  = true.
Proof.
  apply (proj1 (configured_chain_decides (flaky_env 1) sample_universe
                  {| stock_code := "000001"; short_name := "PAB";
                     exchange := "SZ"; list_date := "1991-04-03" |}
                  fresh [sample_result]
                  (snd (screen (flaky_env 1) sample_universe fresh))
                  (NoDup_singleton _) ltac:(constructor) eq_refl)).
Defined.

Lemma filter_logic_three_spec_witness :
  exists (p1 p2 p3 : nat) (verdict : bool),
    nth_highest (highs three_bars) 1 p1 /\
    nth_highest (highs three_bars) 2 p2 /\
    nth_highest (highs three_bars) 3 p3 /\
    filter_logic_three (Some (frame three_bars)) = (Ok verdict, Some (frame three_bars)) /\
    (verdict = true <->
     bar_date <$> (three_bars !! p1) = bar_date <$> (three_bars !! (length three_bars - 1)) /\
     (distance p1 p2 <> 1 \/ distance p1 p3 <> 1)).
Proof. apply (filter_logic_three_spec three_bars). simpl. lia. Defined.

Lemma process_stock_retry_schedule_witness :
  let call := GetMarket "000001" in
  process_stock (flaky_env 0) sample_universe "000001" (filters_to_apply (flaky_env 0)) fresh
  = (Ok (Some sample_result), extend fresh [call]) /\
  process_stock (flaky_env 1) sample_universe "000001" (filters_to_apply (flaky_env 1)) fresh
  = (Ok (Some sample_result), extend fresh [call; Sleep 2; call]) /\
  process_stock (flaky_env 2) sample_universe "000001" (filters_to_apply (flaky_env 2)) fresh
  = (Ok (Some sample_result), extend fresh [call; Sleep 2; call; Sleep 4; call]).
Proof.
  cbv zeta. split; [|split].
  - apply (proj1 (process_stock_retry_schedule (flaky_env 0) sample_universe "000001"
                    (filters_to_apply (flaky_env 0)) fresh)).
    reflexivity.
  - apply (proj1 (proj2 (process_stock_retry_schedule (flaky_env 1) sample_universe "000001"
                    (filters_to_apply (flaky_env 1)) fresh)) timed_out);
      reflexivity.
  - apply (proj2 (proj2 (process_stock_retry_schedule (flaky_env 2) sample_universe "000001"
                    (filters_to_apply (flaky_env 2)) fresh)) timed_out timed_out);
      reflexivity.
Defined.

Lemma process_stock_exhausted_witness :
  let env := flaky_env 3 in
  let call := GetMarket "000001" in
  let line := process_stock_error_line timed_out "000001" (filters_to_apply env) in
  process_stock env sample_universe "000001" (filters_to_apply env) fresh
  = (Ok None,
     World (<["error_log.txt" := line]> ∅) [call; Sleep 2; call; Sleep 4; call]) /\
  line = "在处理函数 process_stock 时遇到错误: timed out,参数：('000001',), {'filters': [<function filter_logic_three at 0x7f3a5c0d1e50>]}"
         +:+ newline.
Proof.
  cbv zeta. split; [|reflexivity].
  apply (proj1 (proj2 (process_stock_exhausted (flaky_env 3) sample_universe "000001"
                         (filters_to_apply (flaky_env 3)) fresh
                         timed_out timed_out timed_out eq_refl eq_refl eq_refl))).
  reflexivity.
Defined.

Lemma result_write_outcomes_witness :
  files (snd (before_writing cramped_env fresh)) !! result_file cramped_env = None /\
  main cramped_env fresh =
  (Raise (OSError "No space left on device"),
   World (<[result_file cramped_env := "[" +:+ newline +:+ "    {"]>
            (files (snd (before_writing cramped_env fresh))))
         (trace (snd (before_writing cramped_env fresh)))).
Proof.
  apply (result_write_outcomes cramped_env fresh [sample_result]
           (snd (before_writing cramped_env fresh))); reflexivity.
Defined.

(** The specification's examples for ContinuousRise. *)
Example ten_rising :
  fst (is_price_increasing (Some (frame (flat_bars [1; 2; 3; 4; 5; 6; 7; 8; 9; 10]%Z))))
  = Ok true.
Proof. reflexivity. Qed.

Example last_pair_equal :
  fst (is_price_increasing (Some (frame (flat_bars [1; 2; 3; 4; 5; 6; 7; 8; 9; 9]%Z))))
  = Ok false.
Proof. reflexivity. Qed.

(** Ties go to the earlier bar: of two bars with the top value, the first
    is the highest and the second the second highest. *)
Example tie_goes_to_earlier_bar :
  get_nth_high_info (Some (frame (flat_bars [1; 5; 3; 5; 2]%Z))) 1
  = Some ("2024-04-01", 5%Q, 1%Z) /\
  get_nth_high_info (Some (frame (flat_bars [1; 5; 3; 5; 2]%Z))) 2
  = Some ("2024-04-01", 5%Q, 3%Z).
Proof. split; reflexivity. Qed.

(** * Further properties *)

(** ** The maximum of a float column *)

Lemma max_from_bounds (q : Q) (qs : list Q) :
  exists m,
    max_from (Float q) (Float <$> qs) = Ok (Float m) /\
    m ∈ q :: qs /\
    Forall (fun x => (x <= m)%Q) (q :: qs).
Proof.
  revert q. induction qs as [|x qs IH]; intros q.
  - exists q. split; [reflexivity|]. split; [constructor|].
    constructor; [apply Qle_refl|constructor].
  - rewrite fmap_cons. simpl.
    destruct (Qltb q x) eqn:Hlt.
    + destruct (IH x) as (m & Hm & Hin & Hall).
      exists m. split; [exact Hm|]. split; [by constructor|].
      apply Forall_cons in Hall as [Hx Hall].
      constructor; [|by constructor].
      apply Qltb_lt in Hlt. eapply Qle_trans; [apply Qlt_le_weak, Hlt|exact Hx].
    + destruct (IH q) as (m & Hm & Hin & Hall).
      exists m. split; [exact Hm|].
      apply Forall_cons in Hall as [Hq Hall].
      split.
      * apply elem_of_cons in Hin as [->|Hin]; [constructor|].
        constructor. by constructor.
      * constructor; [exact Hq|]. constructor; [|exact Hall].
        eapply Qle_trans; [|exact Hq].
        apply Qnot_lt_le. intros H. apply Qltb_lt in H. congruence.
Qed.

(** [max] of a non-empty float series is one of its values and bounds
    them all. *)
Lemma max_float_series (l : Series Q) :
  l <> [] ->
  exists m,
    max (as_cell <$> l) = Ok (Some (Float m)) /\
    m ∈ values l /\
    Forall (fun x => (x <= m)%Q) (values l).
Proof.
  intros Hne. destruct l as [|[i q] l]; [done|].
  unfold max, values. rewrite <- list_fmap_compose, !fmap_cons. simpl.
  replace (snd ∘ as_cell <$> l) with (Float <$> (snd <$> l))
    by (rewrite <- list_fmap_compose; reflexivity).
  destruct (max_from_bounds q (snd <$> l)) as (m & Hm & Hin & Hall).
  exists m. rewrite Hm. done.
Qed.

(** One float maximum is at most another exactly when every value behind
    the first is at most some value behind the second. *)
Lemma max_le_max (l1 l2 : Series Q) (m1 m2 : Q) :
  m1 ∈ values l1 -> Forall (fun x => (x <= m1)%Q) (values l1) ->
  m2 ∈ values l2 -> Forall (fun x => (x <= m2)%Q) (values l2) ->
  Qle_bool m1 m2 = true <->
  (forall x, x ∈ values l1 -> exists y, y ∈ values l2 /\ (x <= y)%Q).
Proof.
  intros Hin1 Hall1 Hin2 Hall2. rewrite Qle_bool_iff.
  rewrite Forall_forall in Hall1, Hall2. split.
  - intros Hle x Hx. exists m2. split; [exact Hin2|].
    eapply Qle_trans; [apply Hall1, Hx|exact Hle].
  - intros H. destruct (H m1 Hin1) as (y & Hy & Hle).
    eapply Qle_trans; [exact Hle|apply Hall2, Hy].
Qed.

Lemma values_entries (qs : list Q) : values (entries qs) = qs.
Proof.
  unfold values, entries. rewrite fmap_imap.
  induction qs as [|q qs IH] using rev_ind; [reflexivity|].
  rewrite imap_app, IH. reflexivity.
Qed.

Lemma values_slice {A} (l : Series A) (a b : option Z) :
  values (slice l a b) = slice (values l) a b.
Proof. unfold values. rewrite slice_fmap. reflexivity. Qed.

Lemma values_last_n {A} (n : nat) (l : Series A) :
  values (last_n n l) = last_n n (values l).
Proof. unfold values. rewrite last_n_fmap. reflexivity. Qed.

(** [l[-30:-7]] on a list of at least 30: the first 23 of the last 30. *)
Lemma slice_30_to_7 {A} (l : list A) :
  30 <= length l ->
  slice l (Some (-30)%Z) (Some (-7)%Z) = take 23 (last_n 30 l).
Proof.
  intros Hlen. unfold slice, last_n, adjust.
  destruct (Z.ltb_spec (-30) 0); [|lia].
  destruct (Z.ltb_spec (-7) 0); [|lia].
  destruct (Z.ltb_spec (-30 + Z.of_nat (length l)) 0); [lia|].
  destruct (Z.ltb_spec (-7 + Z.of_nat (length l)) 0); [lia|].
  f_equal; [lia|]. f_equal. lia.
Qed.

(** ** RecentHighDominance and SevenEqualsThirtyHigh *)

Lemma last_n_elem_of {A} (n m : nat) (l : list A) (x : A) :
  n <= m -> x ∈ last_n n l -> x ∈ last_n m l.
Proof.
  intros Hnm. unfold last_n.
  replace (length l - n) with ((length l - m) + (length l - n - (length l - m))) by lia.
  rewrite <- drop_drop. apply subseteq_drop.
Qed.

Lemma last_30_split {A} (l : list A) :
  30 <= length l -> last_n 30 l = take 23 (last_n 30 l) ++ last_n 7 l.
Proof.
  intros Hlen. rewrite <- (take_drop 23 (last_n 30 l)) at 1. f_equal.
  unfold last_n. rewrite drop_drop. f_equal. lia.
Qed.

Lemma dominated_window (l : list Q) :
  30 <= length l ->
  dominated (last_n 30 l) (last_n 7 l) <-> dominated (take 23 (last_n 30 l)) (last_n 7 l).
Proof.
  intros Hlen. rewrite (last_30_split l Hlen) at 1. unfold dominated. split.
  - intros H x Hx. apply H, elem_of_app. left. exact Hx.
  - intros H x [Hx|Hx]%elem_of_app; [apply H, Hx|].
    exists x. split; [exact Hx|apply Qle_refl].
Qed.

Lemma is_30_to_7_high_max_frame (s : PriceSeries) :
  exists verdict : bool,
    is_30_to_7_high_max (Some (frame s)) = (Ok verdict, Some (frame s)) /\
    (verdict = true <->
     30 <= length s /\
     dominated (take 23 (last_n 30 (highs s))) (last_n 7 (highs s))).
Proof.
  unfold is_30_to_7_high_max. rewrite length_frame.
  destruct (Nat.ltb_spec (length s) 30) as [Hshort|Hlong].
  { exists false. split; [reflexivity|]. split; [discriminate|lia]. }
  rewrite column_frame_high, !slice_fmap.
  pose proof (length_highs s) as Hlen.
  assert (Hw : values (slice (entries (highs s)) (Some (-30)%Z) (Some (-7)%Z))
               = take 23 (last_n 30 (highs s))).
  { rewrite values_slice, values_entries. apply slice_30_to_7. lia. }
  assert (Hr : values (slice (entries (highs s)) (Some (-7)%Z) None)
               = last_n 7 (highs s)).
  { rewrite values_slice, values_entries. apply (slice_tail _ 7). lia. }
  destruct (max_float_series (slice (entries (highs s)) (Some (-30)%Z) (Some (-7)%Z)))
    as (m1 & Hm1 & Hin1 & Hall1).
  { intros H. rewrite H in Hw. apply (f_equal length) in Hw.
    rewrite length_take, length_last_n in Hw.
    change (length (values (A:=Q) [])) with 0 in Hw. lia. }
  destruct (max_float_series (slice (entries (highs s)) (Some (-7)%Z) None))
    as (m2 & Hm2 & Hin2 & Hall2).
  { intros H. rewrite H in Hr. apply (f_equal length) in Hr.
    rewrite length_last_n in Hr.
    change (length (values (A:=Q) [])) with 0 in Hr. lia. }
  rewrite Hm1, Hm2. simpl.
  eexists. split; [reflexivity|].
  rewrite (max_le_max _ _ _ _ Hin1 Hall1 Hin2 Hall2), Hw, Hr.
  unfold dominated. intuition.
Qed.

Lemma is_seven_equals_thirty_high_frame (s : PriceSeries) :
  exists verdict : bool,
    is_seven_equals_thirty_high (Some (frame s)) = (Ok verdict, Some (frame s)) /\
    (verdict = true <->
     30 <= length s /\ dominated (last_n 30 (highs s)) (last_n 7 (highs s))).
Proof.
  unfold is_seven_equals_thirty_high. rewrite length_frame.
  destruct (Nat.ltb_spec (length s) 30) as [Hshort|Hlong].
  { exists false. split; [reflexivity|]. split; [discriminate|lia]. }
  unfold tail. rewrite column_frame_high, !slice_fmap.
  rewrite (slice_tail _ 7), (slice_tail _ 30) by lia.
  pose proof (length_highs s) as Hlen.
  assert (H7 : values (last_n 7 (entries (highs s))) = last_n 7 (highs s))
    by (rewrite values_last_n, values_entries; reflexivity).
  assert (H30 : values (last_n 30 (entries (highs s))) = last_n 30 (highs s))
    by (rewrite values_last_n, values_entries; reflexivity).
  destruct (max_float_series (last_n 7 (entries (highs s)))) as (m7 & Hm7 & Hin7 & Hall7).
  { intros H. apply (f_equal length) in H.
    rewrite length_last_n, length_entries in H.
    change (length (A:=Z * Q) []) with 0 in H. lia. }
  destruct (max_float_series (last_n 30 (entries (highs s)))) as (m30 & Hm30 & Hin30 & Hall30).
  { intros H. apply (f_equal length) in H.
    rewrite length_last_n, length_entries in H.
    change (length (A:=Z * Q) []) with 0 in H. lia. }
  rewrite Hm7, Hm30. simpl.
  eexists. split; [reflexivity|].
  rewrite H7 in Hin7, Hall7. rewrite H30 in Hin30, Hall30.
  rewrite Forall_forall in Hall7, Hall30.
  rewrite Qeq_bool_iff. unfold dominated. split.
  - intros Heq. split; [exact Hlong|]. intros x Hx.
    exists m7. split; [exact Hin7|]. rewrite Heq. apply Hall30, Hx.
  - intros [_ H]. apply Qle_antisym.
    + apply Hall30. eapply last_n_elem_of; [|exact Hin7]. lia.
    + destruct (H m30 Hin30) as (y & Hy & Hle).
      eapply Qle_trans; [exact Hle|apply Hall7, Hy].
Qed.

(** X1.  On every price series [is_30_to_7_high_max] returns a verdict
    and leaves the frame alone; the verdict is true exactly when the
    series has at least 30 bars and every high of the 23 bars from 30 to
    7 bars back is at most some high of the last 7 bars. *)
Theorem is_30_to_7_high_max_spec (s : PriceSeries) :
  exists verdict : bool,
    is_30_to_7_high_max (Some (frame s)) = (Ok verdict, Some (frame s)) /\
    (verdict = true <->
     30 <= length s /\
     dominated (take 23 (last_n 30 (highs s))) (last_n 7 (highs s))).
Proof. apply is_30_to_7_high_max_frame. Qed.

(** X2.  On every price series [is_seven_equals_thirty_high] returns a
    verdict and leaves the frame alone; the verdict is true exactly when
    the series has at least 30 bars and every high of the last 30 bars
    is at most some high of the last 7: the 30-day high is reached
    within the last 7 days. *)
Theorem is_seven_equals_thirty_high_spec (s : PriceSeries) :
  exists verdict : bool,
    is_seven_equals_thirty_high (Some (frame s)) = (Ok verdict, Some (frame s)) /\
    (verdict = true <->
     30 <= length s /\ dominated (last_n 30 (highs s)) (last_n 7 (highs s))).
Proof. apply is_seven_equals_thirty_high_frame. Qed.

(** X3.  On every price series [is_seven_equals_thirty_high] and
    [is_30_to_7_high_max] return the same verdict. *)
Theorem seven_equals_thirty_is_recent_high_dominance (s : PriceSeries) :
  is_seven_equals_thirty_high (Some (frame s)) = is_30_to_7_high_max (Some (frame s)).
Proof.
  destruct (is_seven_equals_thirty_high_frame s) as (v1 & -> & H1).
  destruct (is_30_to_7_high_max_frame s) as (v2 & -> & H2).
  do 2 f_equal.
  destruct (Nat.ltb_spec (length s) 30) as [Hshort|Hlong].
  - destruct v1; [destruct H1 as [H1 _]; destruct (H1 eq_refl); lia|].
    destruct v2; [|reflexivity]. destruct H2 as [H2 _]. destruct (H2 eq_refl). lia.
  - pose proof (dominated_window (highs s)) as Hw.
    rewrite length_highs in Hw. specialize (Hw Hlong).
    destruct v1, v2; try reflexivity.
    + destruct H1 as [H1 _]. destruct (H1 eq_refl) as [_ Hd].
      destruct H2 as [_ H2]. symmetry. apply H2. split; [exact Hlong|apply Hw, Hd].
    + destruct H2 as [H2 _]. destruct (H2 eq_refl) as [_ Hd].
      destruct H1 as [_ H1]. apply H1. split; [exact Hlong|apply Hw, Hd].
Qed.

(** ** [get_nth_high_info] *)

Lemma sorted_lookup_lt {A} (R : A -> A -> Prop) (l : list A) (i j : nat) (x y : A) :
  StronglySorted R l -> i < j -> l !! i = Some x -> l !! j = Some y -> R x y.
Proof.
  intros Hsorted Hij Hi Hj.
  rewrite <- (take_drop_middle _ _ _ Hi) in Hsorted.
  apply StronglySorted_app in Hsorted as (_ & _ & Hright).
  apply StronglySorted_inv in Hright as [_ Hall].
  rewrite Forall_forall in Hall. apply Hall.
  apply list_elem_of_lookup. exists (j - S i).
  rewrite lookup_drop. rewrite <- Hj. f_equal. lia.
Qed.

(** The answer of [get_nth_high_info] on a price series, with the place
    the bar has in what [nlargest] sorts. *)
Lemma get_nth_high_info_place (s : PriceSeries) (n : nat) :
  1 <= n <= length s ->
  exists p b,
    s !! p = Some b /\
    sort_desc (entries (highs s)) !! (n - 1) = Some (Z.of_nat p, bar_high b) /\
    nth_highest (highs s) n p /\
    get_nth_high_info (Some (frame s)) n
    = Some (bar_date b, bar_high b, Z.of_nat p).
Proof.
  intros Hn.
  destruct (sort_desc_nth_highest (highs s) n) as (p & q & Hk & Hq & Hnth).
  { rewrite length_highs. exact Hn. }
  unfold highs in Hq. rewrite list_lookup_fmap in Hq.
  destruct (s !! p) as [b|] eqn:Hb; [|discriminate].
  simpl in Hq. injection Hq as <-.
  exists p, b. split; [exact Hb|]. split; [exact Hk|]. split; [exact Hnth|].
  unfold get_nth_high_info. rewrite length_frame.
  destruct (Nat.ltb_spec (length s) n); [lia|].
  rewrite nlargest_frame. simpl.
  replace (Z.of_nat n - 1)%Z with (Z.of_nat (n - 1)) by lia.
  rewrite (index_lookup _ (n - 1) (Z.of_nat p)).
  2:{ unfold labels. rewrite list_lookup_fmap, lookup_take_lt by lia.
      rewrite Hk. reflexivity. }
  simpl.
  rewrite (index_lookup _ (n - 1) (bar_high b)).
  2:{ unfold values. rewrite list_lookup_fmap, lookup_take_lt by lia.
      rewrite Hk. reflexivity. }
  simpl. rewrite (at_trade_date_frame _ _ _ Hb). reflexivity.
Qed.

Lemma get_nth_high_info_zero (s : PriceSeries) :
  get_nth_high_info (Some (frame s)) 0 = None.
Proof.
  unfold get_nth_high_info. rewrite nlargest_frame. reflexivity.
Qed.

Lemma get_nth_high_info_beyond (d : DataFrame) (n : nat) :
  length d < n -> get_nth_high_info (Some d) n = None.
Proof.
  intros H. unfold get_nth_high_info.
  destruct (Nat.ltb_spec (length d) n); [reflexivity|lia].
Qed.

(** X4.  On a price series with calendar dates [get_nth_high_info] never
    raises.  It answers for exactly the ranks from 1 to the number of
    bars, and then with the position, date and high of a bar of the
    series.  For a rank below the number of bars that bar is the one
    with n-1 bars ranking above it, ties going to the earlier bar; for
    the last rank it is a bar with a lowest high.  For rank 0 and for
    ranks beyond the series it returns [None]. *)
Theorem get_nth_high_info_answers (s : PriceSeries) (n : nat) :
  dated s ->
  match get_nth_high_info (Some (frame s)) n with
  | Some (date, value, label) =>
      1 <= n <= length s /\
      exists p b,
        label = Z.of_nat p /\ s !! p = Some b /\
        date = bar_date b /\ value = bar_high b /\
        (n < length s -> nth_highest (highs s) n p) /\
        (n = length s -> Forall (fun x => (value <= x)%Q) (highs s))
  | None => n = 0 \/ length s < n
  end.
Proof.
  intros _.
  destruct (Nat.eq_dec n 0) as [->|Hn0].
  { rewrite get_nth_high_info_zero. left. reflexivity. }
  destruct (Nat.lt_ge_cases (length s) n) as [Hbig|Hle].
  { rewrite get_nth_high_info_beyond by (rewrite length_frame; exact Hbig).
    right. exact Hbig. }
  destruct (get_nth_high_info_place s n) as (p & b & Hb & Hplace & Hnth & ->); [lia|].
  split; [lia|]. exists p, b.
  split; [reflexivity|]. split; [exact Hb|]. split; [reflexivity|].
  split; [reflexivity|]. split; [intros _; exact Hnth|].
  intros Hlast. apply Forall_forall. intros x Hx.
  pose proof (sort_desc_sorted _ (entries_sorted (highs s))) as Hsorted.
  apply list_elem_of_lookup in Hx as [j Hj].
  pose proof (lookup_entries _ _ _ Hj) as Hin.
  rewrite <- (sort_desc_Permutation (entries (highs s))) in Hin.
  apply list_elem_of_lookup in Hin as [k Hk].
  assert (Hbound : k < length (sort_desc (entries (highs s)))).
  { apply lookup_lt_is_Some. eauto. }
  rewrite length_sort_desc, length_entries, length_highs in Hbound.
  destruct (Nat.eq_dec k (n - 1)) as [->|Hne].
  - rewrite Hplace in Hk. injection Hk as _ ->. apply Qle_refl.
  - apply (above_le (Z.of_nat j, x) (Z.of_nat p, bar_high b)).
    apply (sorted_lookup_lt _ _ k (n - 1) _ _ Hsorted); [lia|assumption..].
Qed.

(** X5.  The highs [get_nth_high_info] reports fall with the rank: the
    high of rank [m] is at most the high of rank [n] when [n <= m], and
    the high of rank 1 is at least every high of the series. *)
Theorem get_nth_high_info_descending (s : PriceSeries) (n m : nat) :
  1 <= n -> n <= m -> m <= length s ->
  exists dn vn ln dm vm lm,
    get_nth_high_info (Some (frame s)) n = Some (dn, vn, ln) /\
    get_nth_high_info (Some (frame s)) m = Some (dm, vm, lm) /\
    (vm <= vn)%Q /\
    (n = 1 -> Forall (fun x => (x <= vn)%Q) (highs s)).
Proof.
  intros Hn Hnm Hm.
  destruct (get_nth_high_info_place s n) as (pn & bn & Hbn & Hkn & Hnthn & Hin); [lia|].
  destruct (get_nth_high_info_place s m) as (pm & bm & Hbm & Hkm & Hnthm & Him); [lia|].
  pose proof (sort_desc_sorted _ (entries_sorted (highs s))) as Hsorted.
  exists (bar_date bn), (bar_high bn), (Z.of_nat pn),
         (bar_date bm), (bar_high bm), (Z.of_nat pm).
  split; [exact Hin|]. split; [exact Him|]. split.
  - destruct (Nat.eq_dec n m) as [->|Hne].
    + rewrite Hkn in Hkm. injection Hkm as _ ->. apply Qle_refl.
    + apply (above_le (Z.of_nat pn, bar_high bn) (Z.of_nat pm, bar_high bm)).
      apply (sorted_lookup_lt _ _ (n - 1) (m - 1) _ _ Hsorted); [lia|assumption..].
  - intros ->. apply Forall_forall. intros x Hx.
    apply list_elem_of_lookup in Hx as [j Hj].
    pose proof (lookup_entries _ _ _ Hj) as Hin'.
    rewrite <- (sort_desc_Permutation (entries (highs s))) in Hin'.
    apply list_elem_of_lookup in Hin' as [k Hk].
    destruct k as [|k].
    + simpl in Hkn. rewrite Hkn in Hk. injection Hk as _ ->. apply Qle_refl.
    + apply (above_le (Z.of_nat pn, bar_high bn) (Z.of_nat j, x)).
      apply (sorted_lookup_lt _ _ 0 (S k) _ _ Hsorted); [lia|assumption..].
Qed.

(** X6.  Different ranks below the number of bars name different bars:
    on a series of more than three bars with calendar dates, the first,
    second and third high are three bars. *)
Theorem get_nth_high_info_distinct (s : PriceSeries) (n m : nat) :
  dated s ->
  1 <= n < length s -> 1 <= m < length s -> n <> m ->
  info_index (get_nth_high_info (Some (frame s)) n)
  <> info_index (get_nth_high_info (Some (frame s)) m).
Proof.
  intros _ Hn Hm Hne.
  destruct (get_nth_high_info_place s n) as (pn & bn & _ & _ & [_ Hrn] & ->); [lia|].
  destruct (get_nth_high_info_place s m) as (pm & bm & _ & _ & [_ Hrm] & ->); [lia|].
  simpl. intros [= H]. apply Nat2Z.inj in H. subst pm. congruence.
Qed.

Lemma floats_text (s : Series cell) (i : Z) (t : string) :
  (i, Str t) ∈ s -> floats s = None.
Proof.
  induction s as [|[j c] s IH]; intros Hin; [inversion Hin|].
  apply elem_of_cons in Hin as [[= <- <-]|Hin]; [reflexivity|].
  simpl. destruct c; [|reflexivity]. rewrite (IH Hin). reflexivity.
Qed.

(** X7.  When a cell of the [high] column holds text, [get_nth_high_info]
    returns [None] for every rank: [nlargest] refuses the column and the
    function swallows the exception. *)
Theorem get_nth_high_info_text (d : DataFrame) (n : nat) (r : Row) (t : string) :
  r ∈ d -> high r = Str t -> get_nth_high_info (Some d) n = None.
Proof.
  intros Hin Hhigh. unfold get_nth_high_info.
  destruct (length d <? n); [reflexivity|].
  apply list_elem_of_lookup in Hin as [i Hi].
  unfold nlargest. rewrite (floats_text _ (Z.of_nat i) t); [reflexivity|].
  apply list_elem_of_lookup. exists i.
  unfold column. rewrite list_lookup_imap, Hi. simpl. rewrite Hhigh. reflexivity.
Qed.

(** ** PeakPositionPattern is a new high *)

(** The verdict of [filter_logic_three] on a price series of at least
    three bars, in terms of the three highest bars. *)
Lemma filter_logic_three_frame (s : PriceSeries) :
  3 <= length s ->
  exists (p1 p2 p3 : nat) (b1 bl : PriceBar),
    nth_highest (highs s) 1 p1 /\
    nth_highest (highs s) 2 p2 /\
    nth_highest (highs s) 3 p3 /\
    s !! p1 = Some b1 /\ s !! (length s - 1) = Some bl /\
    filter_logic_three (Some (frame s))
    = (Ok (String.eqb (bar_date b1) (bar_date bl)
           && (negb (distance p1 p2 =? 1) || negb (distance p1 p3 =? 1))),
       Some (frame s)).
Proof.
  intros Hlen.
  destruct (get_nth_high_info_place s 1) as (p1 & b1 & Hb1 & _ & Hn1 & Hi1); [lia|].
  destruct (get_nth_high_info_place s 2) as (p2 & b2 & Hb2 & _ & Hn2 & Hi2); [lia|].
  destruct (get_nth_high_info_place s 3) as (p3 & b3 & Hb3 & _ & Hn3 & Hi3); [lia|].
  destruct (lookup_lt_is_Some_2 s (length s - 1)) as [bl Hbl]; [lia|].
  exists p1, p2, p3, b1, bl.
  do 5 (split; [assumption|]).
  unfold filter_logic_three.
  assert (Hne : empty (frame s) = false) by (destruct s; [simpl in Hlen; lia|reflexivity]).
  rewrite Hne, values_column, frame_highs, astype_float_floats, set_high_frame.
  unfold filter_logic_three_body.
  rewrite Hi1, Hi2, Hi3, column_frame_high, slice_fmap, slice_backwards_fmap.
  unfold nlargest at 1. rewrite floats_as_cell. simpl mbind at 1.
  rewrite length_take, length_sort_desc.
  rewrite (slice_tail _ 7) by lia.
  rewrite length_last_n, length_entries, length_highs.
  destruct (Nat.ltb_spec (Nat.min 2 (Nat.min 7 (length s))) 2); [lia|].
  rewrite !abs_distance, column_frame_trade_date.
  rewrite (index_lookup _ p1 (bar_date b1)) by (rewrite list_lookup_fmap, Hb1; reflexivity).
  rewrite (index_minus_one _ (bar_date bl))
    by (rewrite length_fmap, list_lookup_fmap, Hbl; reflexivity).
  destruct (le_max_floats
              (slice_backwards (entries (highs s))
                 (Some (Z.of_nat (length (frame s)) - 1 - 7)%Z)
                 (Some (Z.of_nat (length (frame s)) - 1 - 30)%Z))
              (last_n 7 (entries (highs s)))) as [aux Haux].
  simpl. simpl in Haux. rewrite Haux. reflexivity.
Qed.

Lemma count_zero {A} (P : A -> bool) (l : list A) :
  count P l = 0 <-> Forall (fun x => P x = false) l.
Proof.
  split; [|apply count_none].
  induction l as [|x l IH]; simpl; [constructor|].
  destruct (P x) eqn:Hx; [discriminate|]. intros H. constructor; auto.
Qed.

(** The last bar is the highest exactly when it is a new high. *)
Lemma last_is_highest (qs : list Q) :
  0 < length qs ->
  nth_highest qs 1 (length qs - 1) <-> new_high qs.
Proof.
  intros Hpos. unfold nth_highest, rank, new_high.
  destruct (lookup_lt_is_Some_2 qs (length qs - 1)) as [y Hy]; [lia|].
  split.
  - intros [_ Hrank] j x y' Hj Hx Hy'.
    rewrite Hy in Hy'. injection Hy' as <-.
    assert (Hzero : count (fun j => outranks qs j (length qs - 1)) (seq 0 (length qs)) = 0)
      by lia.
    apply count_zero in Hzero. rewrite Forall_forall in Hzero.
    specialize (Hzero j). unfold outranks in Hzero. rewrite Hx, Hy in Hzero.
    assert (Hin : j ∈ seq 0 (length qs)) by (apply list_elem_of_In, in_seq; lia).
    apply Hzero in Hin.
    apply orb_false_iff in Hin as [Hlt Heq].
    destruct (Nat.ltb_spec j (length qs - 1)); [|lia].
    rewrite andb_true_r in Heq.
    destruct (Qlt_le_dec x y) as [H'|H']; [exact H'|].
    exfalso. apply Qle_lteq in H' as [H'|H'].
    + apply Qltb_lt in H'. congruence.
    + apply Qeq_sym, Qeq_bool_iff in H'. congruence.
  - intros Hnew. split; [lia|]. f_equal.
    apply count_zero, Forall_forall. intros j Hj.
    apply list_elem_of_In, in_seq in Hj.
    destruct (lookup_lt_is_Some_2 qs j) as [x Hx]; [lia|].
    unfold outranks. rewrite Hx, Hy.
    destruct (Nat.ltb_spec j (length qs - 1)) as [Hlt|Hge].
    + specialize (Hnew j x y Hlt Hx Hy).
      apply orb_false_iff. split.
      * apply not_true_is_false. intros H. apply Qltb_lt in H.
        exact (Qlt_irrefl _ (Qlt_trans _ _ _ H Hnew)).
      * rewrite andb_true_r. apply not_true_is_false. intros H.
        apply Qeq_bool_iff in H. rewrite H in Hnew. exact (Qlt_irrefl _ Hnew).
    + rewrite andb_false_r, orb_false_r.
      assert (j = length qs - 1) by lia. subst j.
      rewrite Hx in Hy. injection Hy as <-.
      apply not_true_is_false. intros H. apply Qltb_lt in H.
      exact (Qlt_irrefl _ H).
Qed.

(** X8.  On a price series of at least three bars with distinct trade
    dates, [filter_logic_three] answers true exactly when the last bar
    is a new high: its high is strictly above every earlier high.  The
    test on the distances between the three highest bars never decides:
    when the highest bar is the last one, the second and third highest
    cannot both be its only neighbour. *)
Theorem filter_logic_three_new_high (s : PriceSeries) :
  3 <= length s ->
  NoDup (bar_date <$> s) ->
  exists verdict : bool,
    filter_logic_three (Some (frame s)) = (Ok verdict, Some (frame s)) /\
    (verdict = true <-> new_high (highs s)).
Proof.
  intros Hlen Hdates.
  destruct (filter_logic_three_frame s Hlen)
    as (p1 & p2 & p3 & b1 & bl & Hn1 & Hn2 & Hn3 & Hb1 & Hbl & ->).
  eexists. split; [reflexivity|].
  rewrite <- last_is_highest by (rewrite length_highs; lia).
  rewrite length_highs.
  rewrite andb_true_iff, String.eqb_eq.
  split.
  - intros [Hdate _].
    assert (p1 = length s - 1) as <-; [|exact Hn1].
    apply (NoDup_lookup _ _ _ (bar_date b1) Hdates).
    + rewrite list_lookup_fmap, Hb1. reflexivity.
    + rewrite list_lookup_fmap, Hbl, Hdate. reflexivity.
  - intros Hlast.
    pose proof (nth_highest_unique _ _ _ _ Hn1 Hlast) as ->.
    rewrite Hb1 in Hbl. injection Hbl as <-.
    split; [reflexivity|].
    destruct Hn2 as [Hp2 Hr2], Hn3 as [Hp3 Hr3].
    rewrite length_highs in Hp2, Hp3.
    assert (p2 <> p3) by (intros ->; lia).
    apply orb_true_iff. unfold distance.
    destruct (Nat.ltb_spec (length s - 1) p2); [lia|].
    destruct (Nat.ltb_spec (length s - 1) p3); [lia|].
    destruct (Nat.eqb_spec (length s - 1 - p2) 1);
      destruct (Nat.eqb_spec (length s - 1 - p3) 1); simpl; auto. lia.
Qed.

(** ** Calling [filter_logic_three] again, and chains of predicates *)

Lemma set_high_again (d : DataFrame) (qs : list Q) :
  length qs = length d -> set_high (set_high d qs) qs = set_high d qs.
Proof.
  unfold set_high. revert qs.
  induction d as [|r d IH]; intros [|q qs] Hlen; try discriminate; [reflexivity|].
  injection Hlen as Hlen. simpl. f_equal. apply IH, Hlen.
Qed.

(** X9.  Calling [filter_logic_three] a second time on the frame the
    first call left gives the same outcome and leaves that frame as it
    is: the conversion of the [high] column happens once. *)
Theorem filter_logic_three_again (df : option DataFrame) :
  filter_logic_three (snd (filter_logic_three df)) = filter_logic_three df.
Proof.
  destruct df as [d|]; [|reflexivity].
  destruct (empty d) eqn:Hempty.
  { unfold filter_logic_three. rewrite Hempty. simpl. rewrite Hempty. reflexivity. }
  destruct (astype_float (high <$> d)) as [qs|e] eqn:Hqs.
  - assert (Hfirst : filter_logic_three (Some d)
                     = (filter_logic_three_body (set_high d qs), Some (set_high d qs))).
    { unfold filter_logic_three. rewrite Hempty, values_column, Hqs. reflexivity. }
    rewrite Hfirst. simpl snd.
    pose proof (length_astype_float _ _ Hqs) as Hlen. rewrite length_fmap in Hlen.
    destruct (set_high_columns d qs Hlen) as (_ & _ & Hhigh).
    assert (Hne : empty (set_high d qs) = false).
    { destruct d as [|r d]; [discriminate|]. destruct qs; [discriminate|reflexivity]. }
    unfold filter_logic_three.
    rewrite Hne, values_column, Hhigh, astype_float_floats, set_high_again by exact Hlen.
    reflexivity.
  - assert (Hfirst : filter_logic_three (Some d) = (Raise e, Some d)).
    { unfold filter_logic_three. rewrite Hempty, values_column, Hqs. reflexivity. }
    rewrite Hfirst. simpl snd. exact Hfirst.
Qed.

Lemma is_price_increasing_frame (s : PriceSeries) :
  exists verdict : bool,
    is_price_increasing (Some (frame s)) = (Ok verdict, Some (frame s)).
Proof.
  unfold is_price_increasing. rewrite length_frame.
  destruct (length s <? 10) eqn:Hlen; [eauto|].
  apply Nat.ltb_ge in Hlen.
  unfold tail. rewrite slice_tail by lia.
  unfold values. rewrite <- last_n_fmap. fold (values (column (frame s) high)).
  rewrite values_column, frame_highs, last_n_fmap.
  rewrite length_fmap. unfold range. rewrite <- list_fmap_compose.
  erewrite (all_verdicts _ (fun i => match last_n 10 (highs s) !! i,
                                           last_n 10 (highs s) !! S i with
                                     | Some x, Some y => Qltb x y
                                     | _, _ => false
                                     end)); [eauto|].
  intros i Hi. apply list_elem_of_In, in_seq in Hi. simpl.
  apply adjacent_test. lia.
Qed.

Lemma scripted_frame (s : PriceSeries) (f : pyfunction) :
  length s <> 2 -> scripted f ->
  exists verdict : bool, fn_call f (Some (frame s)) = (Ok verdict, Some (frame s)).
Proof.
  intros Hlen [->|[->|[->| ->]]].
  - apply is_price_increasing_frame.
  - destruct (is_30_to_7_high_max_frame s) as (v & Hv & _). eauto.
  - destruct (Nat.lt_ge_cases (length s) 3) as [Hshort|Hlong].
    + destruct s as [|b [|b' s]]; [eexists; reflexivity..|]. simpl in *. lia.
    + destruct (filter_logic_three_frame s Hlong)
        as (? & ? & ? & ? & ? & _ & _ & _ & _ & _ & ->). eauto.
  - destruct (is_seven_equals_thirty_high_frame s) as (v & Hv & _). eauto.
Qed.

(** X10.  On a price series that does not have exactly two bars, a chain
    made of the script's predicates raises nothing and answers the
    conjunction of the predicates' own verdicts on the series; so the
    answer does not depend on the order of the chain. *)
Theorem chain_is_conjunction (s : PriceSeries) (filters : list pyfunction) :
  length s <> 2 ->
  Forall scripted filters ->
  exists verdicts : list bool,
    Forall2 (fun f v => fst (fn_call f (Some (frame s))) = Ok v) filters verdicts /\
    apply_filters filters (Some (frame s)) = Ok (forallb id verdicts) /\
    forall filters', filters' ≡ₚ filters ->
      apply_filters filters' (Some (frame s)) = apply_filters filters (Some (frame s)).
Proof.
  intros Hlen Hall.
  assert (Hchain : forall l, Forall scripted l ->
            exists vs, Forall2 (fun f v => fst (fn_call f (Some (frame s))) = Ok v) l vs /\
                       apply_filters l (Some (frame s)) = Ok (forallb id vs)).
  { induction 1 as [|f l Hf _ (vs & Hvs & Hrun)].
    - exists []. split; [constructor|reflexivity].
    - destruct (scripted_frame s f Hlen Hf) as [v Hv].
      exists (v :: vs). split; [constructor; [rewrite Hv; reflexivity|exact Hvs]|].
      simpl. rewrite Hv. destruct v; [exact Hrun|reflexivity]. }
  destruct (Hchain _ Hall) as (vs & Hvs & Hrun).
  exists vs. split; [exact Hvs|]. split; [exact Hrun|].
  assert (Hfalse : forall l f, Forall scripted l -> f ∈ l ->
            fst (fn_call f (Some (frame s))) = Ok false ->
            apply_filters l (Some (frame s)) = Ok false).
  { induction 1 as [|g l Hg Hl IH]; intros Hin Hf; [inversion Hin|].
    destruct (scripted_frame s g Hlen Hg) as [v Hv]. simpl. rewrite Hv.
    destruct v; [|reflexivity].
    apply elem_of_cons in Hin as [->|Hin]; [rewrite Hv in Hf; discriminate|].
    apply IH; assumption. }
  assert (Htrue : forall l, Forall scripted l ->
            (forall f, f ∈ l -> fst (fn_call f (Some (frame s))) = Ok true) ->
            apply_filters l (Some (frame s)) = Ok true).
  { induction 1 as [|g l Hg Hl IH]; intros Hf; [reflexivity|].
    destruct (scripted_frame s g Hlen Hg) as [v Hv]. simpl.
    pose proof (Hf g ltac:(constructor)) as Hg'. rewrite Hv in Hg'. simpl in Hg'.
    injection Hg' as ->. rewrite Hv. apply IH. intros f Hin. apply Hf. by constructor. }
  assert (Hcases : forall l, Forall scripted l ->
            (forall f, f ∈ l -> fst (fn_call f (Some (frame s))) = Ok true) \/
            (exists f, f ∈ l /\ fst (fn_call f (Some (frame s))) = Ok false)).
  { induction 1 as [|g l Hg Hl [IH|(f & Hin & Hf)]].
    - left. intros f Hin. inversion Hin.
    - destruct (scripted_frame s g Hlen Hg) as [[|] Hv].
      + left. intros f [->|Hin]%elem_of_cons; [rewrite Hv; reflexivity|apply IH, Hin].
      + right. exists g. split; [constructor|rewrite Hv; reflexivity].
    - right. exists f. split; [by constructor|exact Hf]. }
  intros filters' Hperm.
  assert (Hall' : Forall scripted filters') by (rewrite Hperm; exact Hall).
  destruct (Hcases _ Hall) as [Hyes|(f & Hin & Hf)].
  - rewrite (Htrue _ Hall Hyes). apply Htrue; [exact Hall'|].
    intros f Hin. apply Hyes. rewrite <- Hperm. exact Hin.
  - rewrite (Hfalse _ f Hall Hin Hf). apply (Hfalse _ f Hall'); [|exact Hf].
    rewrite Hperm. exact Hin.
Qed.

(** ** The retry decorator in general *)

Section RetryInGeneral.

Context {Args A : Type}.
Variable env : environment.
Variable exception_to_check : exn -> bool.
Variables delay backoff : Z.
Variable error_log func_name : string.
Variable func : Args -> M (option A).
Variable show_call : Args -> string.

Lemma backoff_schedule_nonneg (n : nat) (d : Z) :
  (0 <= d)%Z -> (0 <= backoff)%Z -> Forall (fun x => (0 <= x)%Z) (backoff_schedule n d backoff).
Proof.
  revert d. induction n as [|n IH]; intros d Hd Hb; simpl; constructor; [exact Hd|].
  apply IH; [apply Z.mul_nonneg_nonneg; assumption|exact Hb].
Qed.

Lemma attempts_all_fail (call : event) (e : exn) (args : Args) (n : nat) (d : Z) (w : world) :
  (forall w, func args w = (Raise e, record call w)) ->
  exception_to_check e = true ->
  (0 <= d)%Z -> (0 <= backoff)%Z ->
  storage env error_log = Sound ->
  attempts env exception_to_check backoff error_log func_name func show_call (S n) d args w
  = (Ok None,
     World (<[error_log := default "" (files w !! error_log)
                           +:+ error_line func_name show_call e args]> (files w))
           (trace w ++ calls_and_sleeps call (backoff_schedule n d backoff))).
Proof.
  intros Hfunc Hcheck Hd Hb Hlog. revert d w Hd.
  induction n as [|n IH]; intros d w Hd.
  - simpl. unfold last_try. rewrite Hfunc, Hcheck.
    unfold mbind, M_bind, append_file, put. rewrite Hlog. reflexivity.
  - change (attempts env exception_to_check backoff error_log func_name func show_call
              (S (S n)) d args w)
      with (match func args w with
            | (Raise e0, w') =>
                if exception_to_check e0
                then (sleep d ;; attempts env exception_to_check backoff error_log
                                   func_name func show_call (S n) (d * backoff) args) w'
                else (Raise e0, w')
            | finished => finished
            end).
    rewrite Hfunc, Hcheck. unfold mbind, M_bind, sleep.
    destruct (Z.ltb_spec d 0); [lia|].
    rewrite IH by (apply Z.mul_nonneg_nonneg; assumption).
    unfold record, calls_and_sleeps. simpl. rewrite <- !app_assoc. reflexivity.
Qed.

(** X11.  For every number of tries: when each call raises a checked
    exception, the decorated function is called [max 1 tries] times,
    sleeps between the calls for [delay], [delay * backoff],
    [delay * backoff^2] and so on, appends one line to the error log
    after the last call and returns [None].  The calls are taken to
    leave one event each and the delay and the factor to be
    non-negative. *)
Theorem retry_backoff_schedule (call : event) (e : exn) (args : Args)
    (tries : nat) (w : world) :
  (forall w, func args w = (Raise e, record call w)) ->
  exception_to_check e = true ->
  (0 <= delay)%Z -> (0 <= backoff)%Z ->
  storage env error_log = Sound ->
  retry env exception_to_check tries delay backoff error_log func_name func show_call args w
  = (Ok None,
     World (<[error_log := default "" (files w !! error_log)
                           +:+ error_line func_name show_call e args]> (files w))
           (trace w ++ calls_and_sleeps call (backoff_schedule (tries - 1) delay backoff))).
Proof.
  intros Hfunc Hcheck Hd Hb Hlog. unfold retry.
  destruct tries as [|n].
  - simpl. unfold last_try. rewrite Hfunc, Hcheck.
    unfold mbind, M_bind, append_file, put. rewrite Hlog. reflexivity.
  - rewrite (attempts_all_fail call e) by assumption.
    replace (S n - 1) with n by lia. reflexivity.
Qed.

(** X12.  The first call decides when it returns or raises an exception
    the decorator does not check: its outcome is the decorator's, with
    no sleep, no further call and no line in the error log. *)
Theorem retry_first_call_decides (args : Args) (tries : nat) (w w' : world)
    (outcome : result (option A)) :
  func args w = (outcome, w') ->
  match outcome with Ok _ => true | Raise e => negb (exception_to_check e) end = true ->
  retry env exception_to_check tries delay backoff error_log func_name func show_call args w
  = (outcome, w').
Proof.
  intros Hfunc Hfinal. unfold retry.
  destruct tries as [|[|n]]; simpl; unfold last_try; rewrite Hfunc;
    destruct outcome as [r|e]; try reflexivity;
    apply negb_true_iff in Hfinal; rewrite Hfinal; reflexivity.
Qed.

(** X13.  With a negative delay and more than one try, a first call that
    raises a checked exception ends the decorator with the [ValueError]
    of [time.sleep]: there is no second call and no line in the error
    log. *)
Theorem retry_negative_delay (args : Args) (tries : nat) (w w' : world) (e : exn) :
  2 <= tries -> (delay < 0)%Z ->
  func args w = (Raise e, w') ->
  exception_to_check e = true ->
  exists text,
    retry env exception_to_check tries delay backoff error_log func_name func show_call args w
    = (Raise (ValueError text), w').
Proof.
  intros Htries Hdelay Hfunc Hcheck. unfold retry.
  destruct tries as [|[|n]]; [lia..|].
  simpl. rewrite Hfunc, Hcheck. unfold mbind, M_bind, sleep.
  destruct (Z.ltb_spec delay 0); [|lia]. eexists. reflexivity.
Qed.

End RetryInGeneral.

(** ** What a task does and does not do *)

Lemma universe_requests_app (t1 t2 : list event) :
  universe_requests (t1 ++ t2) = universe_requests t1 + universe_requests t2.
Proof.
  induction t1 as [|[|c|d|cmd] t1 IH]; simpl; auto.
Qed.

(** X14.  A task makes at least one and at most three price requests for
    its own ticker and none for any other, makes no universe request,
    and changes no file other than the error log. *)
Theorem process_stock_footprint env stocks_info code filters w :
  let w' := snd (process_stock env stocks_info code filters w) in
  1 <= market_requests code (trace w') - market_requests code (trace w) <= 3 /\
  (forall other, other <> code ->
     market_requests other (trace w') = market_requests other (trace w)) /\
  universe_requests (trace w') = universe_requests (trace w) /\
  (forall name, name <> "error_log.txt" -> files w' !! name = files w !! name).
Proof.
  cbv zeta. split; [|split; [|split]].
  - by_calls;
      try (simpl; rewrite market_requests_app; simpl; rewrite ?String.eqb_refl; lia).
    unfold mbind, M_bind.
    match goal with
    | |- context [append_file env ?n ?t ?w0] =>
        pose proof (trace_append_file env n t w0) as Htr;
        destruct (append_file env n t w0) as [[[]|] ?]
    end; simpl in *; rewrite Htr, market_requests_app; simpl;
      rewrite ?String.eqb_refl; lia.
  - intros other Hne. apply process_stock_requests_other, Hne.
  - by_calls; try (simpl; rewrite universe_requests_app; simpl; lia).
    unfold mbind, M_bind.
    match goal with
    | |- context [append_file env ?n ?t ?w0] =>
        pose proof (trace_append_file env n t w0) as Htr;
        destruct (append_file env n t w0) as [[[]|] ?]
    end; simpl in *; rewrite Htr, universe_requests_app; simpl; lia.
  - intros name Hne. apply process_stock_files, Hne.
Qed.

(** X15.  A price table that is empty, or that a predicate of the chain
    rejects, is not an error: the task returns [None] after that one
    request, without sleeping and without a line in the error log. *)
Theorem process_stock_rejects_quietly env stocks_info code filters w df :
  get_market env code (market_requests code (trace w)) = Ok df ->
  empty df = true \/ apply_filters filters (Some df) = Ok false ->
  process_stock env stocks_info code filters w = (Ok None, extend w [GetMarket code]).
Proof.
  intros Hfetch Hreject.
  rewrite process_stock_unfold. cbv zeta.
  unfold attempt at 1. rewrite Hfetch. simpl.
  destruct (empty df); [reflexivity|].
  destruct Hreject as [Hempty|Hfalse]; [discriminate|].
  rewrite Hfalse. reflexivity.
Qed.

Lemma first_match_missing (stocks_info : list Ticker) (code : string) :
  code ∉ (stock_code <$> stocks_info) ->
  exists text, first_match stocks_info code = Raise (IndexError text).
Proof.
  intros Hmissing. unfold first_match.
  destruct (List.find _ stocks_info) as [t|] eqn:Hfind; [|eauto].
  exfalso. apply find_some in Hfind as [Hin Heq].
  apply String.eqb_eq in Heq. apply Hmissing. rewrite <- Heq.
  apply list_elem_of_fmap_2, list_elem_of_In, Hin.
Qed.

(** X16.  A ticker that passes the chain but has no record in
    [stocks_info] is an error of the lookup: when every one of the three
    requests returns a table that passes and the error log can be
    written, the task requests the prices three times, logs the
    [IndexError] and returns [None]. *)
Theorem process_stock_missing_record env stocks_info code filters w :
  let k := market_requests code (trace w) in
  let call := GetMarket code in
  code ∉ (stock_code <$> stocks_info) ->
  (forall j, j < 3 ->
     exists df, get_market env code (k + j) = Ok df /\ empty df = false /\
                apply_filters filters (Some df) = Ok true) ->
  storage env "error_log.txt" = Sound ->
  exists text,
    process_stock env stocks_info code filters w
    = (Ok None,
       World (<["error_log.txt" :=
                  default "" (files w !! "error_log.txt")
                  +:+ process_stock_error_line (IndexError text) code filters]> (files w))
             (trace w ++ [call; Sleep 2; call; Sleep 4; call])).
Proof.
  cbv zeta. intros Hmissing Hpass Hlog.
  destruct (first_match_missing _ _ Hmissing) as [text Hmatch].
  assert (Hraise : forall j, j < 3 ->
            attempt env stocks_info code filters (market_requests code (trace w) + j)
            = Raise (IndexError text)).
  { intros j Hj. destruct (Hpass j Hj) as (df & Hfetch & Hne & Hok).
    unfold attempt. rewrite Hfetch. simpl. rewrite Hne, Hok. simpl.
    rewrite Hmatch. reflexivity. }
  exists text. rewrite process_stock_unfold. cbv zeta.
  pose proof (Hraise 0 ltac:(lia)) as H0. rewrite Nat.add_0_r in H0.
  rewrite H0, (Hraise 1), (Hraise 2) by lia.
  unfold mbind, M_bind, append_file, put. rewrite Hlog. reflexivity.
Qed.

Lemma filter_logic_three_raises_on_two (b1 b2 : PriceBar) :
  fst (filter_logic_three (Some (frame [b1; b2])))
  = Raise (TypeError "unsupported operand type(s) for -: 'int' and 'NoneType'").
Proof.
  unfold filter_logic_three, filter_logic_three_body. simpl.
  unfold get_nth_high_info, nlargest. simpl.
  destruct (Qltb (bar_high b1) (bar_high b2)); reflexivity.
Qed.

(** X17.  A ticker whose price table has two bars is neither passed nor
    rejected: with the configured chain, when each of the three requests
    returns two bars and the error log can be written, the task requests
    the prices three times, logs the [TypeError] of [filter_logic_three]
    and returns [None]. *)
Theorem process_stock_two_bars env stocks_info code w :
  let k := market_requests code (trace w) in
  let call := GetMarket code in
  (forall j, j < 3 ->
     exists b1 b2, get_market env code (k + j) = Ok (frame [b1; b2])) ->
  storage env "error_log.txt" = Sound ->
  exists text,
    process_stock env stocks_info code (filters_to_apply env) w
    = (Ok None,
       World (<["error_log.txt" :=
                  default "" (files w !! "error_log.txt")
                  +:+ process_stock_error_line (TypeError text) code
                        (filters_to_apply env)]> (files w))
             (trace w ++ [call; Sleep 2; call; Sleep 4; call])).
Proof.
  cbv zeta. intros Hbars Hlog.
  assert (Hraise : forall j, j < 3 ->
            attempt env stocks_info code (filters_to_apply env)
              (market_requests code (trace w) + j)
            = Raise (TypeError "unsupported operand type(s) for -: 'int' and 'NoneType'")).
  { intros j Hj. destruct (Hbars j Hj) as (b1 & b2 & Hfetch).
    unfold attempt, mbind, result_bind. rewrite Hfetch.
    change (empty (frame [b1; b2])) with false. cbv iota.
    rewrite apply_configured, filter_logic_three_raises_on_two. reflexivity. }
  eexists. rewrite process_stock_unfold. cbv zeta.
  pose proof (Hraise 0 ltac:(lia)) as H0. rewrite Nat.add_0_r in H0.
  rewrite H0, (Hraise 1), (Hraise 2) by lia.
  unfold mbind, M_bind, append_file, put. rewrite Hlog. reflexivity.
Qed.

(** ** The screening as a whole *)

Lemma process_stock_returns env stocks_info code filters w :
  storage env "error_log.txt" = Sound ->
  exists r, fst (process_stock env stocks_info code filters w) = Ok r.
Proof.
  intros Hlog. by_calls; try (eexists; reflexivity).
  unfold mbind, M_bind, append_file, put. rewrite Hlog. eexists. reflexivity.
Qed.

Lemma run_tasks_return env stocks_info filters (codes : list string) w :
  storage env "error_log.txt" = Sound ->
  Forall (fun future => exists r, future = Ok r)
         (fst (run_tasks env stocks_info filters codes w)).
Proof.
  intros Hlog. revert w. induction codes as [|c codes IH]; intros w; [constructor|].
  simpl.
  pose proof (process_stock_returns env stocks_info c filters w Hlog) as Hc.
  destruct (process_stock env stocks_info c filters w) as [o w1].
  specialize (IH w1).
  destruct (run_tasks env stocks_info filters codes w1) as [os w2].
  simpl in *. constructor; assumption.
Qed.

Lemma gather_returns futures acc :
  Forall (fun future => exists r, future = Ok r) futures ->
  gather futures acc = Ok (acc ++ held futures).
Proof.
  intros Hall. revert acc.
  induction Hall as [|future futures [r ->] _ IH]; intros acc; simpl.
  - rewrite app_nil_r. reflexivity.
  - destruct r as [r|]; simpl; rewrite IH; [|reflexivity].
    rewrite <- app_assoc. reflexivity.
Qed.

(** X18.  When the error log can be written, the screening of a universe
    never raises: whatever the price provider does and whatever the
    predicates raise, every task ends and the loop over the futures
    returns a list of results. *)
Theorem screen_always_returns env (stocks_info : list Ticker) w :
  storage env "error_log.txt" = Sound ->
  exists results, fst (screen env stocks_info w) = Ok results.
Proof.
  intros Hlog. unfold screen.
  pose proof (run_tasks_return env stocks_info (filters_to_apply env)
                (stock_code <$> stocks_info) w Hlog) as Hall.
  destruct (run_tasks _ _ _ _ _) as [futures w']. simpl in *.
  rewrite (gather_returns _ _ Hall). eauto.
Qed.

Lemma attempt_result env stocks_info code filters k r :
  attempt env stocks_info code filters k = Ok (Some r) ->
  exists t, first_match stocks_info code = Ok t /\ r = result_of t code.
Proof.
  unfold attempt.
  destruct (get_market env code k) as [data|]; [simpl|discriminate].
  destruct (empty data); [discriminate|].
  destruct (apply_filters filters (Some data)) as [[|]|]; simpl; try discriminate.
  destruct (first_match stocks_info code) as [t|]; simpl; [|discriminate].
  intros [= <-]. eauto.
Qed.

Lemma process_stock_result env stocks_info code filters w r :
  fst (process_stock env stocks_info code filters w) = Ok (Some r) ->
  exists t, first_match stocks_info code = Ok t /\ r = result_of t code.
Proof.
  by_calls; try (simpl; intros [= ->]; eapply attempt_result; eassumption).
  unfold mbind, M_bind.
  destruct (append_file _ _ _ _) as [[[]|] ?]; simpl; discriminate.
Qed.

Lemma first_match_elem (stocks_info : list Ticker) (code : string) (t : Ticker) :
  first_match stocks_info code = Ok t -> t ∈ stocks_info /\ stock_code t = code.
Proof.
  unfold first_match.
  destruct (List.find _ stocks_info) as [t'|] eqn:Hfind; [|discriminate].
  intros [= ->]. apply find_some in Hfind as [Hin Heq].
  split; [apply list_elem_of_In, Hin|apply String.eqb_eq, Heq].
Qed.

Lemma held_sublist env stocks_info filters (codes : list string) w :
  (r_stock_code <$> held (fst (run_tasks env stocks_info filters codes w)))
    `sublist_of` codes.
Proof.
  revert w. induction codes as [|c codes IH]; intros w; [constructor|].
  simpl.
  pose proof (process_stock_code env stocks_info c filters w) as Hc.
  destruct (process_stock env stocks_info c filters w) as [o w1].
  specialize (IH w1).
  destruct (run_tasks env stocks_info filters codes w1) as [os w2].
  simpl in *. destruct o as [[r|]|e]; cbn [held].
  - rewrite fmap_cons, (Hc r eq_refl). apply sublist_skip, IH.
  - apply sublist_cons, IH.
  - apply sublist_cons, IH.
Qed.

Lemma held_results env stocks_info filters (codes : list string) w r :
  r ∈ held (fst (run_tasks env stocks_info filters codes w)) ->
  exists t, t ∈ stocks_info /\ r = result_of t (stock_code t).
Proof.
  revert w. induction codes as [|c codes IH]; intros w; simpl.
  - intros H. inversion H.
  - pose proof (process_stock_result env stocks_info c filters w) as Hc.
    destruct (process_stock env stocks_info c filters w) as [o w1].
    specialize (IH w1).
    destruct (run_tasks env stocks_info filters codes w1) as [os w2].
    simpl in *. destruct o as [[r0|]|e]; simpl; try apply IH.
    intros [->|H]%elem_of_cons; [|apply IH, H].
    destruct (Hc r0 eq_refl) as (t & Hmatch & ->).
    apply first_match_elem in Hmatch as [Hin <-]. eauto.
Qed.

(** X19.  The results of a screening follow the universe: their codes
    are codes of the universe, none more often than the universe lists
    it, and every result carries the name, exchange and list date of a
    record of the universe with its code.  Nothing here depends on the
    order in which the tasks complete. *)
Theorem screen_results_follow_universe env (stocks_info : list Ticker) w results w' :
  screen env stocks_info w = (Ok results, w') ->
  (r_stock_code <$> results) ⊆+ (stock_code <$> stocks_info) /\
  (NoDup (stock_code <$> stocks_info) -> NoDup (r_stock_code <$> results)) /\
  (forall r, r ∈ results ->
     exists t, t ∈ stocks_info /\ r = result_of t (stock_code t)).
Proof.
  unfold screen. intros Hscreen.
  pose proof (held_sublist env stocks_info (filters_to_apply env)
                (stock_code <$> stocks_info) w) as Hsub.
  pose proof (held_results env stocks_info (filters_to_apply env)
                (stock_code <$> stocks_info) w) as Hres.
  destruct (run_tasks _ _ _ _ _) as [futures w1]. simpl in *.
  injection Hscreen as Hgather _.
  apply gather_held in Hgather. simpl in Hgather. subst results.
  split; [apply sublist_submseteq, Hsub|]. split; [|exact Hres].
  intros Hnodup. eapply sublist_NoDup; eassumption.
Qed.

(** ** The run and its files *)

Lemma main_skips env w :
  is_Some (files w !! result_file env) -> main env w = (Ok (), w).
Proof.
  intros Hresult. unfold main, mbind, M_bind, path_exists.
  rewrite bool_decide_eq_true_2 by exact Hresult. reflexivity.
Qed.

Lemma write_file_done env name text w w' :
  write_file env name text w = (Ok (), w') -> is_Some (files w' !! name).
Proof.
  unfold write_file, put.
  destruct (storage env name) as [| |room]; [|discriminate|].
  - intros [= <-]. simpl. rewrite lookup_insert_eq. eauto.
  - destruct (room <? String.length text); [discriminate|].
    intros [= <-]. simpl. rewrite lookup_insert_eq. eauto.
Qed.

(** X20.  After a run that succeeds, today's result file exists and a
    further run on the same day does nothing: it makes no request and
    changes no file. *)
Theorem main_twice env w w' :
  main env w = (Ok (), w') ->
  is_Some (files w' !! result_file env) /\ main env w' = (Ok (), w').
Proof.
  intros Hrun.
  assert (Hfile : is_Some (files w' !! result_file env)).
  { destruct (files w !! result_file env) as [text|] eqn:Hresult.
    - rewrite main_skips in Hrun by (rewrite Hresult; eauto).
      injection Hrun as <-. rewrite Hresult. eauto.
    - rewrite (main_before_writing _ _ Hresult) in Hrun.
      unfold mbind, M_bind in Hrun.
      destruct (before_writing env w) as [[results|e] w1]; [|discriminate].
      eapply write_file_done, Hrun. }
  split; [exact Hfile|apply main_skips, Hfile].
Qed.

Lemma get_stocks_info_keeps_snapshot env w :
  is_Some (files w !! universe_file env) ->
  files (snd (get_stocks_info env w)) = files w.
Proof.
  intros Hsnapshot. unfold get_stocks_info, mbind, M_bind, call_all_code, path_exists.
  destruct (all_code env _); [|reflexivity].
  change (files (record AllCode w)) with (files w).
  rewrite bool_decide_eq_true_2 by exact Hsnapshot. reflexivity.
Qed.

Lemma universe_file_not_error_log env : universe_file env <> "error_log.txt".
Proof. discriminate. Qed.

Lemma before_writing_files env w name :
  name <> "error_log.txt" ->
  name <> universe_file env \/ is_Some (files w !! universe_file env) ->
  files (snd (before_writing env w)) !! name = files w !! name.
Proof.
  intros Hlog Hsnapshot.
  unfold before_writing, mbind, M_bind.
  assert (H1 : files (snd (get_stocks_info env w)) !! name = files w !! name).
  { destruct Hsnapshot as [Hne|Hsome].
    - apply get_stocks_info_files, Hne.
    - rewrite get_stocks_info_keeps_snapshot by exact Hsome. reflexivity. }
  destruct (get_stocks_info env w) as [[[]|] w1]; [|exact H1].
  unfold read_universe.
  destruct (files w1 !! universe_file env) as [text|]; [|exact H1].
  destruct (read_json env text) as [stocks_info|]; [|exact H1].
  unfold screen.
  pose proof (run_tasks_files env stocks_info (filters_to_apply env)
                (stock_code <$> stocks_info) w1 name Hlog) as H2.
  destruct (run_tasks _ _ _ _ _) as [futures w2].
  simpl in *. congruence.
Qed.

(** X21.  A run leaves every file alone except today's result file, the
    error log and a snapshot that did not exist: in particular a
    snapshot that exists is never rewritten, whether the run succeeds or
    fails. *)
Theorem main_files_untouched env w name :
  name <> result_file env ->
  name <> "error_log.txt" ->
  name <> universe_file env \/ is_Some (files w !! universe_file env) ->
  files (snd (main env w)) !! name = files w !! name.
Proof.
  intros Hresult Hlog Hsnapshot.
  destruct (files w !! result_file env) as [text|] eqn:Hpresent.
  - rewrite main_skips by (rewrite Hpresent; eauto). reflexivity.
  - rewrite (main_before_writing _ _ Hpresent). unfold mbind, M_bind.
    pose proof (before_writing_files env w name Hlog Hsnapshot) as Hbefore.
    destruct (before_writing env w) as [[results|e] w1]; [|exact Hbefore].
    rewrite write_file_files by exact Hresult. exact Hbefore.
Qed.

(** X22.  When the storage behind today's result file is sound, a run
    that fails leaves no result file behind, so that the next run of
    the day starts over. *)
Theorem main_failure_leaves_no_result env w e :
  files w !! result_file env = None ->
  storage env (result_file env) = Sound ->
  fst (main env w) = Raise e ->
  files (snd (main env w)) !! result_file env = None.
Proof.
  intros Habsent Hsound.
  rewrite (main_before_writing _ _ Habsent). unfold mbind, M_bind.
  pose proof (before_writing_result_file env w) as Hbefore.
  destruct (before_writing env w) as [[results|e'] w1].
  - unfold write_file, put. rewrite Hsound. discriminate.
  - intros _. simpl in *. congruence.
Qed.

(** ** Codes of the universe *)

Lemma length_append (a b : string) :
  String.length (a +:+ b) = String.length a + String.length b.
Proof.
  induction a as [|c a IH]; [reflexivity|].
  change (S (String.length (a +:+ b)) = S (String.length a + String.length b)).
  rewrite IH. reflexivity.
Qed.

Lemma length_zeros (n : nat) : String.length (zeros n) = n.
Proof.
  unfold zeros. induction n as [|n IH]; [reflexivity|].
  simpl. rewrite IH. reflexivity.
Qed.

(** [zfill] puts the zeros in front of the text, or behind its first
    character when that is a sign. *)
Lemma zfill_cases (width : nat) (x : string) :
  zfill width x = zeros (width - String.length x) +:+ x \/
  exists c r, x = String c r /\
              zfill width x = String c (zeros (width - String.length x) +:+ r).
Proof.
  destruct x as [|c r]; [left; reflexivity|].
  destruct c as [[] [] [] [] [] [] [] []];
    first [left; reflexivity | right; eexists _, _; split; reflexivity].
Qed.

(** X23.  For a provider's code of ASCII characters, the code
    [get_stocks_info] keeps has the length of the provider's code or 6,
    whichever is more; a provider's code of six or more characters is
    kept as it is, and padding a kept code again changes nothing, so a
    snapshot read back holds the codes the tasks are given. *)
Theorem normalise_code (t : RawTicker) :
  ascii_text (raw_stock_code t) ->
  String.length (stock_code (normalise t))
  = Nat.max 6 (String.length (raw_stock_code t)) /\
  (6 <= String.length (raw_stock_code t) ->
   stock_code (normalise t) = raw_stock_code t) /\
  zfill 6 (stock_code (normalise t)) = stock_code (normalise t).
Proof.
  intros _.
  assert (Hlen : forall x, String.length (zfill 6 x) = Nat.max 6 (String.length x)).
  { intros x. destruct (zfill_cases 6 x) as [->|(c & r & -> & ->)].
    - rewrite length_append, length_zeros. lia.
    - simpl. rewrite length_append, length_zeros. simpl. lia. }
  assert (Hid : forall x, 6 <= String.length x -> zfill 6 x = x).
  { intros x Hx. destruct (zfill_cases 6 x) as [->|(c & r & -> & ->)];
      replace (6 - _) with 0 by lia; reflexivity. }
  simpl. split; [apply Hlen|]. split; [apply Hid|].
  apply Hid. rewrite Hlen. lia.
Qed.

(** X24.  The universe request is not retried: when it fails on a day
    without a result file, the run ends with its exception after that one
    request, with no price request, no pause and no file written. *)
Theorem universe_failure_aborts env w e :
  files w !! result_file env = None ->
  all_code env (universe_requests (trace w)) = Raise e ->
  main env w = (Raise e, record AllCode w).
Proof.
  intros Hresult Hfail.
  unfold main, mbind, M_bind, path_exists.
  rewrite bool_decide_eq_false_2 by (rewrite Hresult; intros [? [=]]).
  cbn [negb]. unfold get_stocks_info, mbind, M_bind, call_all_code.
  rewrite Hfail. reflexivity.
Qed.

(** ** The script to its end *)

Lemma trace_write_file env name text w :
  trace (snd (write_file env name text w)) = trace w.
Proof.
  unfold write_file, put.
  destruct (storage env name) as [| |room]; try reflexivity.
  destruct (room <? String.length text); reflexivity.
Qed.

Lemma open_viewer_files env w name :
  name <> "index.html" ->
  files (snd (open_viewer env w)) !! name = files w !! name.
Proof.
  intros Hne. unfold open_viewer, mbind, M_bind, path_exists, create_html, os_system.
  destruct (bool_decide _); [reflexivity|].
  pose proof (write_file_files env "index.html" html_content w name Hne) as H.
  destruct (write_file env "index.html" html_content w) as [[[]|e] w1]; exact H.
Qed.

Lemma open_viewer_requests env w :
  universe_requests (trace (snd (open_viewer env w))) = universe_requests (trace w) /\
  forall code,
    market_requests code (trace (snd (open_viewer env w))) = market_requests code (trace w).
Proof.
  unfold open_viewer, mbind, M_bind, path_exists, create_html, os_system.
  destruct (bool_decide _).
  - simpl. split; [|intros code].
    + rewrite universe_requests_app. simpl. lia.
    + rewrite market_requests_app. simpl. lia.
  - pose proof (trace_write_file env "index.html" html_content w) as H.
    destruct (write_file env "index.html" html_content w) as [[[]|e] w1];
      simpl in *; rewrite H.
    + split; [|intros code].
      * rewrite universe_requests_app. simpl. lia.
      * rewrite market_requests_app. simpl. lia.
    + split; reflexivity.
Qed.

Lemma main_files env w name :
  name <> result_file env ->
  name <> "error_log.txt" ->
  name <> universe_file env \/ is_Some (files w !! universe_file env) ->
  files (snd (main env w)) !! name = files w !! name.
Proof.
  intros Hresult Hlog Hsnapshot.
  destruct (files w !! result_file env) as [text|] eqn:Hpresent.
  - rewrite main_skips by (rewrite Hpresent; eauto). reflexivity.
  - rewrite (main_before_writing _ _ Hpresent). unfold mbind, M_bind.
    pose proof (before_writing_files env w name Hlog Hsnapshot) as Hbefore.
    destruct (before_writing env w) as [[results|e] w1]; [|exact Hbefore].
    rewrite write_file_files by exact Hresult. exact Hbefore.
Qed.

Lemma script_files env w name :
  name <> "index.html" ->
  files (snd (script env w)) !! name = files (snd (main env w)) !! name.
Proof.
  intros Hne. unfold script, mbind, M_bind.
  destruct (main env w) as [[[]|e] w1]; [|reflexivity].
  apply open_viewer_files, Hne.
Qed.

(** C7, amended.  If today's result file exists at the start, the script
    only opens the viewer: it makes no universe request and no price
    request, does no screening, and leaves the snapshot and the result
    file as they are, as it does every file but the viewer page.  If
    the result file does not exist but today's snapshot does, the script
    still requests the universe from the provider once, and fails if
    that request fails; it leaves the snapshot as it is, and screens the
    universe read from the snapshot, not the one just delivered. *)
Theorem script_on_cached_day env w :
  (is_Some (files w !! result_file env) ->
   let w' := snd (script env w) in
   script env w = open_viewer env w /\
   universe_requests (trace w') = universe_requests (trace w) /\
   (forall code, market_requests code (trace w') = market_requests code (trace w)) /\
   files w' !! result_file env = files w !! result_file env /\
   files w' !! universe_file env = files w !! universe_file env /\
   (forall name, name <> "index.html" -> files w' !! name = files w !! name)) /\
  (forall text,
     files w !! result_file env = None ->
     files w !! universe_file env = Some text ->
     script env w =
     match all_code env (universe_requests (trace w)) with
     | Raise e => (Raise e, record AllCode w)
     | Ok _ =>
         (stocks_info ← lift (read_json env text);
          results ← screen env stocks_info;
          write_file env (result_file env) (json_dump results) ;;
          open_viewer env)
           (record AllCode w)
     end /\
     files (snd (script env w)) !! universe_file env = Some text).
Proof.
  split.
  - intros Hresult. cbv zeta.
    assert (Hscript : script env w = open_viewer env w).
    { unfold script, mbind, M_bind. rewrite (main_skips _ _ Hresult). reflexivity. }
    rewrite Hscript.
    destruct (open_viewer_requests env w) as [Huniverse Hmarket].
    split; [reflexivity|]. split; [exact Huniverse|]. split; [exact Hmarket|].
    split; [|split].
    + apply open_viewer_files. discriminate.
    + apply open_viewer_files. discriminate.
    + intros name Hne. apply open_viewer_files, Hne.
  - intros text Hresult Hsnapshot. split.
    + unfold script. unfold mbind at 1. unfold M_bind at 1.
      rewrite (proj2 (main_with_snapshot env w) text Hresult Hsnapshot).
      destruct (all_code env (universe_requests (trace w))); [|reflexivity].
      unfold mbind, M_bind, lift.
      destruct (read_json env text) as [stocks_info|]; [|reflexivity].
      destruct (screen env stocks_info (record AllCode w)) as [[results|] w1];
        [|reflexivity].
      destruct (write_file env (result_file env) (json_dump results) w1)
        as [[[]|] w2]; reflexivity.
    + rewrite script_files by discriminate.
      rewrite main_files; [exact Hsnapshot|discriminate|discriminate|].
      right. rewrite Hsnapshot. eauto.
Qed.

(** X25.  The viewer page is written and opened only behind a screening
    that did not fail: when the screening part of the script raises, the
    script ends there, with no page written and no viewer opened.  A
    page that exists is never rewritten.  When the script returns, the
    page exists and the last thing the script did was to open it. *)
Theorem viewer_page_kept env w :
  (forall e, fst (main env w) = Raise e -> script env w = main env w) /\
  (is_Some (files w !! "index.html") ->
   files (snd (script env w)) !! "index.html" = files w !! "index.html") /\
  (fst (script env w) = Ok () ->
   is_Some (files (snd (script env w)) !! "index.html") /\
   last (trace (snd (script env w))) = Some (System "open index.html")).
Proof.
  assert (Hmain : files (snd (main env w)) !! "index.html" = files w !! "index.html").
  { apply main_files; [discriminate|discriminate|]. left. discriminate. }
  unfold script, mbind, M_bind.
  destruct (main env w) as [[[]|e0] w1]; simpl in Hmain.
  - split; [discriminate|].
    unfold open_viewer, mbind, M_bind, path_exists, create_html, os_system.
    rewrite Hmain. split.
    + intros Hpage. rewrite bool_decide_eq_true_2 by exact Hpage.
      simpl. exact Hmain.
    + destruct (bool_decide_reflect (is_Some (files w !! "index.html"))) as [Hpage|_].
      * intros _. simpl. rewrite Hmain, last_snoc. split; [exact Hpage|reflexivity].
      * pose proof (write_file_done env "index.html" html_content w1) as Hdone.
        destruct (write_file env "index.html" html_content w1) as [[[]|e] w2];
          [|discriminate].
        intros _. simpl. rewrite last_snoc. split; [|reflexivity].
        apply Hdone. reflexivity.
  - split; [intros e _; reflexivity|]. split; [intros _; exact Hmain|discriminate].
Qed.

(** ** Instances of the further properties *)

Lemma get_nth_high_info_descending_witness :
  exists dn vn ln dm vm lm,
    get_nth_high_info (Some (frame three_bars)) 1 = Some (dn, vn, ln) /\
    get_nth_high_info (Some (frame three_bars)) 3 = Some (dm, vm, lm) /\
    (vm <= vn)%Q /\
    (1 = 1 -> Forall (fun x => (x <= vn)%Q) (highs three_bars)).
Proof. apply (get_nth_high_info_descending three_bars 1 3); simpl; lia. Defined.

Lemma get_nth_high_info_answers_witness :
  match get_nth_high_info (Some (frame three_bars)) 2 with
  | Some (date, value, label) =>
      1 <= 2 <= length three_bars /\
      exists p b,
        label = Z.of_nat p /\ three_bars !! p = Some b /\
        date = bar_date b /\ value = bar_high b /\
        (2 < length three_bars -> nth_highest (highs three_bars) 2 p) /\
        (2 = length three_bars -> Forall (fun x => (value <= x)%Q) (highs three_bars))
  | None => 2 = 0 \/ length three_bars < 2
  end.
Proof. apply (get_nth_high_info_answers three_bars 2). repeat constructor. Defined.

Lemma get_nth_high_info_distinct_witness :
  info_index (get_nth_high_info (Some (frame three_bars)) 1)
  <> info_index (get_nth_high_info (Some (frame three_bars)) 2).
Proof.
  apply (get_nth_high_info_distinct three_bars 1 2); [repeat constructor|simpl; lia..].
Defined.

Lemma get_nth_high_info_text_witness :
  get_nth_high_info (Some text_frame) 1 = None.
Proof.
  apply (get_nth_high_info_text text_frame 1
           {| trade_date := "2024-03-01"; high := Str "9.5"; others := [] |} "9.5").
  - constructor.
  - reflexivity.
Defined.

Lemma filter_logic_three_new_high_witness :
  exists verdict : bool,
    filter_logic_three (Some (frame three_bars)) = (Ok verdict, Some (frame three_bars)) /\
    (verdict = true <-> new_high (highs three_bars)).
Proof.
  apply (filter_logic_three_new_high three_bars).
  - simpl. lia.
  - apply (bool_decide_unpack _). reflexivity.
Defined.

Lemma chain_is_conjunction_witness :
  exists verdicts : list bool,
    Forall2 (fun f v => fst (fn_call f (Some (frame three_bars))) = Ok v)
            longer_chain verdicts /\
    apply_filters longer_chain (Some (frame three_bars)) = Ok (forallb id verdicts) /\
    forall filters', filters' ≡ₚ longer_chain ->
      apply_filters filters' (Some (frame three_bars))
      = apply_filters longer_chain (Some (frame three_bars)).
Proof.
  apply (chain_is_conjunction three_bars longer_chain).
  - simpl. lia.
  - apply Forall_app. split; (constructor; [|constructor]).
    + right. right. left. reflexivity.
    + left. reflexivity.
Defined.

Lemma retry_backoff_schedule_witness :
  let call := GetMarket "000001" in
  retry calm_env Exception 4 3 2 "error_log.txt" "fetch" failing_fetch id "000001" fresh
  = (Ok None,
     World (<["error_log.txt" := error_line "fetch" id timed_out "000001"]> ∅)
           [call; Sleep 3; call; Sleep 6; call; Sleep 12; call]).
Proof.
  apply (retry_backoff_schedule calm_env Exception 3 2 "error_log.txt" "fetch"
           failing_fetch id (GetMarket "000001") timed_out "000001" 4 fresh).
  - reflexivity.
  - reflexivity.
  - lia.
  - lia.
  - reflexivity.
Defined.

Lemma retry_first_call_decides_witness :
  retry calm_env Exception 4 3 2 "error_log.txt" "fetch" ready_fetch id "000001" fresh
  = (Ok (Some 1%Z), record (GetMarket "000001") fresh).
Proof.
  apply (retry_first_call_decides calm_env Exception 3 2 "error_log.txt" "fetch"
           ready_fetch id "000001" 4 fresh);
    reflexivity.
Defined.

Lemma retry_negative_delay_witness :
  exists text,
    retry calm_env Exception 4 (-1) 2 "error_log.txt" "fetch" failing_fetch id "000001" fresh
    = (Raise (ValueError text), record (GetMarket "000001") fresh).
Proof.
  apply (retry_negative_delay calm_env Exception (-1) 2 "error_log.txt" "fetch"
           failing_fetch id "000001" 4 fresh (record (GetMarket "000001") fresh) timed_out).
  - lia.
  - lia.
  - reflexivity.
  - reflexivity.
Defined.

Lemma process_stock_rejects_quietly_witness :
  process_stock calm_env sample_universe "000001" longer_chain fresh
  = (Ok None, extend fresh [GetMarket "000001"]).
Proof.
  apply (process_stock_rejects_quietly calm_env sample_universe "000001" longer_chain
           fresh (frame three_bars)).
  - reflexivity.
  - right. reflexivity.
Defined.

Lemma process_stock_missing_record_witness :
  let call := GetMarket "000001" in
  exists text,
    process_stock calm_env [] "000001" (filters_to_apply calm_env) fresh
    = (Ok None,
       World (<["error_log.txt" :=
                  default "" (files fresh !! "error_log.txt")
                  +:+ process_stock_error_line (IndexError text) "000001"
                        (filters_to_apply calm_env)]> (files fresh))
             (trace fresh ++ [call; Sleep 2; call; Sleep 4; call])).
Proof.
  apply (process_stock_missing_record calm_env [] "000001" (filters_to_apply calm_env) fresh).
  - intros H. inversion H.
  - intros j _. exists (frame three_bars). split; [|split]; reflexivity.
  - reflexivity.
Defined.

Lemma process_stock_two_bars_witness :
  let call := GetMarket "000001" in
  exists text,
    process_stock two_bar_env sample_universe "000001" (filters_to_apply two_bar_env) fresh
    = (Ok None,
       World (<["error_log.txt" :=
                  default "" (files fresh !! "error_log.txt")
                  +:+ process_stock_error_line (TypeError text) "000001"
                        (filters_to_apply two_bar_env)]> (files fresh))
             (trace fresh ++ [call; Sleep 2; call; Sleep 4; call])).
Proof.
  apply (process_stock_two_bars two_bar_env sample_universe "000001" fresh).
  - intros j _. eexists _, _. reflexivity.
  - reflexivity.
Defined.

Lemma screen_always_returns_witness :
  exists results, fst (screen calm_env sample_universe fresh) = Ok results.
Proof. apply (screen_always_returns calm_env sample_universe fresh). reflexivity. Defined.

Lemma screen_results_follow_universe_witness :
  (r_stock_code <$> [sample_result]) ⊆+ (stock_code <$> sample_universe) /\
  (NoDup (stock_code <$> sample_universe) -> NoDup (r_stock_code <$> [sample_result])) /\
  (forall r, r ∈ [sample_result] ->
     exists t, t ∈ sample_universe /\ r = result_of t (stock_code t)).
Proof.
  apply (screen_results_follow_universe calm_env sample_universe fresh [sample_result]
           (snd (screen calm_env sample_universe fresh))).
  reflexivity.
Defined.

Lemma main_twice_witness :
  is_Some (files (snd (main calm_env fresh)) !! result_file calm_env) /\
  main calm_env (snd (main calm_env fresh)) = (Ok (), snd (main calm_env fresh)).
Proof. apply (main_twice calm_env fresh (snd (main calm_env fresh))). reflexivity. Defined.

Lemma main_files_untouched_witness :
  files (snd (main calm_env snapshot_only)) !! universe_file calm_env
  = files snapshot_only !! universe_file calm_env.
Proof.
  apply (main_files_untouched calm_env snapshot_only (universe_file calm_env)).
  - intros H. vm_compute in H. discriminate H.
  - intros H. vm_compute in H. discriminate H.
  - right. vm_compute. eauto.
Defined.

Lemma main_failure_leaves_no_result_witness :
  files (snd (main offline_env fresh)) !! result_file offline_env = None.
Proof.
  apply (main_failure_leaves_no_result offline_env fresh timed_out); reflexivity.
Defined.

Lemma universe_failure_aborts_witness :
  main offline_env fresh = (Raise timed_out, record AllCode fresh).
Proof. apply (universe_failure_aborts offline_env fresh timed_out); reflexivity. Defined.

Lemma normalise_code_witness :
  let t := {| raw_stock_code := "1"; raw_short_name := "PAB";
              raw_exchange := "SZ"; raw_list_date := Some "1991-04-03" |} in
  String.length (stock_code (normalise t)) = Nat.max 6 (String.length (raw_stock_code t)) /\
  (6 <= String.length (raw_stock_code t) -> stock_code (normalise t) = raw_stock_code t) /\
  zfill 6 (stock_code (normalise t)) = stock_code (normalise t).
Proof.
  apply (normalise_code {| raw_stock_code := "1"; raw_short_name := "PAB";
                           raw_exchange := "SZ"; raw_list_date := Some "1991-04-03" |}).
  repeat constructor.
Defined.

Lemma script_on_cached_day_witness :
  script calm_env screened = open_viewer calm_env screened /\
  files (snd (script calm_env screened)) !! result_file calm_env
  = files screened !! result_file calm_env /\
  files (snd (script calm_env snapshot_only)) !! universe_file calm_env = Some "000001".
Proof.
  pose proof (script_on_cached_day calm_env screened) as [Hcached _].
  pose proof (script_on_cached_day calm_env snapshot_only) as [_ Hsnapshot].
  destruct Hcached as (Hviewer & _ & _ & Hresult & _).
  { vm_compute. eauto. }
  destruct (Hsnapshot "000001") as [_ Hkept]; [reflexivity|reflexivity|].
  split; [exact Hviewer|]. split; [exact Hresult|exact Hkept].
Defined.
